(** * Verification of the golang-client-server load generator

    The repository holds two clients that issue batches of concurrent HTTP
    GET requests in an endless loop, and a mock responder:

    - [src/node-request/request.js]  the Node client        (module [NodeRequest])
    - [src/unnamed/part_000]         a second Node client   (module [Part000])
    - [src/request/request.go]       the Go client          (module [GoRequest])
    - [src/request/request.go], end  package metrics        (module [Metrics])
    - [src/response/response.go]     the mock responder     (module [MockServer])

    The clients are embedded shallowly.  Code that runs without suspension is
    a function in a state monad over the process' observable world (console,
    clock, random source, requests handed to the transport); every [await]
    and every goroutine switch is a cut, and the pieces are put together by a
    labelled transition system in which the environment decides when and how
    each pending request ends.  The responder is embedded in the same way:
    a handler is the tree of the calls it makes on its [http.ResponseWriter],
    and the goroutines of the requests are interleaved by a transition
    system. *)

From stdpp Require Import base option list strings gmap pretty.
From Stdlib Require Import ZArith Lia.

Open Scope Z_scope.

(** ** The JavaScript platform, as far as the clients use it *)

Module Error.
(** A thrown value: the clients read [error.name] and [error.message]. *)
Record t := mk { name : string; message : string }.
End Error.

Definition TypeError (msg : string) : Error.t := Error.mk "TypeError" msg.
Definition RangeError (msg : string) : Error.t := Error.mk "RangeError" msg.
Definition DOMException (msg name : string) : Error.t := Error.mk name msg.

(** How a piece of code ends: with a value, with a thrown error, or because
    [process.exit(code)] ended the process. *)
Inductive Completion (A : Type) : Type :=
  | Return (a : A)
  | Throw (e : Error.t)
  | Exit (code : Z).
Arguments Return {A} a.
Arguments Throw {A} e.
Arguments Exit {A} code.

Module AbortSignal.
(** A signal made by [AbortSignal.timeout(delay)]: it fires [delay]
    milliseconds after its creation, and whatever it aborts then fails
    with [reason]. *)
Record t := mk { delay : Z; reason : Error.t }.

(** [AbortSignal.timeout(ms)] (DOM standard, "abortsignal-timeout"): the
    delay is an unsigned integer, a negative one is refused; the signal
    aborts with a DOMException named "TimeoutError".  Numbers are
    unbounded here, the platform's upper limit on delays is left out. *)
Definition timeout (ms : Z) : Completion t :=
  if bool_decide (0 ≤ ms)
  then Return (mk ms (DOMException "The operation was aborted due to timeout" "TimeoutError"))
  else Throw (RangeError "The value of delay is out of range.").
End AbortSignal.

(** The static methods of the two global classes (DOM standard, interfaces
    AbortController and AbortSignal).  [AbortController] has none. *)
Definition statics (cls : string) : list string :=
  if decide (cls = "AbortSignal") then ["abort"; "timeout"; "any"]
  else if decide (cls = "AbortController") then []
  else [].

(** [cls.timeout(ms)]: calling a property that is undefined throws a
    TypeError. *)
Definition call_timeout (cls : string) (ms : Z) : Completion AbortSignal.t :=
  if bool_decide ("timeout" ∈ statics cls)
  then AbortSignal.timeout ms
  else Throw (TypeError (cls +:+ ".timeout is not a function")).

Module Response.
Record t := mk { status : Z }.
(** [response.ok] (Fetch standard): the status is in the range 200 to 299. *)
Definition ok (r : t) : bool := bool_decide (200 ≤ status r ≤ 299).
End Response.

(** A value stored in an object literal of the clients. *)
Inductive JsVal :=
  | VStr (s : string)
  | VBool (b : bool)
  | VSignal (s : AbortSignal.t)
  | VAgent (keepAlive : bool)               (* new http.Agent({ keepAlive }) *)
  | VHeaders (h : list (string * string)).

Module Request.
(** [new Request(url)]: method GET, no headers. *)
Record t := mk { url : string }.
End Request.

(** What [fetch] hands to the transport. *)
Record WireRequest := mkWire {
  w_url : string;
  w_method : string;
  w_headers : list (string * string);
  w_signal : option AbortSignal.t;
  w_keepalive : bool
}.

(** [fetch(req, init)] reads the members of the RequestInit dictionary
    (Fetch standard); of those the clients set [method], [headers],
    [signal] and [keepalive].  A member of [init] that the dictionary does
    not have is never read. *)
Definition fetch_request (req : Request.t) (init : gmap string JsVal) : WireRequest :=
  {| w_url := Request.url req;
     w_method := match init !! "method" with Some (VStr m) => m | _ => "GET" end;
     w_headers := match init !! "headers" with Some (VHeaders h) => h | _ => [] end;
     w_signal := match init !! "signal" with Some (VSignal s) => Some s | _ => None end;
     w_keepalive := match init !! "keepalive" with Some (VBool b) => b | _ => false end |}.

(** How the two awaited operations of one request end.  The body is read
    only after [fetch] has resolved. *)
Inductive TextResult :=
  | TextResolves (body : string)
  | TextRejects (e : Error.t)
  | TextAborted.                              (* the signal fired during the read *)

Inductive FetchResult :=
  | FetchRejects (e : Error.t)                (* DNS failure, refused, reset, ... *)
  | FetchAborted                              (* the signal fired before the response *)
  | FetchResolves (response : Response.t) (text : TextResult).

(** ** The world of a Node process and the monad of its synchronous code *)

Record World := mkWorld {
  now : Z;                        (* monotonic clock, nanoseconds *)
  console : list string;          (* lines of console.log and console.error, oldest first *)
  drawn : nat;                    (* UUIDs drawn from the random source *)
  wire : list WireRequest         (* requests handed to the transport, oldest first *)
}.

Definition M (A : Type) : Type := World → Completion A * World.

Definition ret {A} (a : A) : M A := λ w, (Return a, w).
Definition throw {A} (e : Error.t) : M A := λ w, (Throw e, w).
Definition process_exit {A} (code : Z) : M A := λ w, (Exit code, w).
Definition lift {A} (c : Completion A) : M A := λ w, (c, w).

Definition bind {A B} (m : M A) (k : A → M B) : M B :=
  λ w, match m w with
       | (Return a, w') => k a w'
       | (Throw e, w') => (Throw e, w')
       | (Exit c, w') => (Exit c, w')
       end.

Notation "'let*' x ':=' m 'in' k" := (bind m (λ x, k))
  (at level 10, x pattern, m at level 100, k at level 200).

Definition lift_sum {A} (r : Error.t + A) : M A :=
  match r with inl e => throw e | inr a => ret a end.

(** [try { body } catch (error) { handler }] *)
Definition try_catch {A} (body : M A) (handler : Error.t → M A) : M A :=
  λ w, match body w with
       | (Throw e, w') => handler e w'
       | r => r
       end.

Definition hrtime_bigint : M Z := λ w, (Return (now w), w).

Definition console_log (line : string) : M unit :=
  λ w, (Return (), mkWorld (now w) (console w ++ [line]) (drawn w) (wire w)).

Definition send (r : WireRequest) : M unit :=
  λ w, (Return (), mkWorld (now w) (console w) (drawn w) (wire w ++ [r])).

(** The environment lets time pass while the process is suspended. *)
Definition advance (dt : Z) (w : World) : World :=
  mkWorld (now w + Z.max 0 dt) (console w) (drawn w) (wire w).

Definition show_bool (b : bool) : string := if b then "true" else "false".

(** [for (const x of xs) { acc = body(acc, x) }] *)
Fixpoint for_each {A B} (body : B → A → M B) (xs : list A) (acc : B) : M B :=
  match xs with
  | [] => ret acc
  | x :: xs' => let* acc' := body acc x in for_each body xs' acc'
  end.

(** A JavaScript number that is an integer, or NaN. *)
Inductive Number := NaN | Num (z : Z).

Definition isNaN (n : Number) : bool :=
  match n with NaN => true | Num _ => false end.

(** [n < k]: every comparison with NaN is false. *)
Definition Number_lt (n : Number) (k : Z) : bool :=
  match n with NaN => false | Num z => bool_decide (z < k) end.

Definition Number_value (n : Number) : Z :=
  match n with NaN => 0 | Num z => z end.

(** What one request of a batch turned into, as the batch and the loop
    driver see it.  [k] is the number of the batch. *)
Inductive Event (R : Type) : Type :=
  | EvStart (k : Z)                    (* batch k begins *)
  | EvLaunch (k : Z) (id : Z)          (* request id of batch k is launched *)
  | EvSettle (k : Z) (id : Z) (r : R)  (* request id of batch k ended with r *)
  | EvJoin (k : Z).                    (* the wait for all of batch k is over *)
Arguments EvStart {R} k.
Arguments EvLaunch {R} k id.
Arguments EvSettle {R} k id r.
Arguments EvJoin {R} k.

(** ** Data of the Node clients *)

Module Config.
Record t := mk { url : string; concurrency : Z; timeout : Z; keepAlive : bool }.
End Config.

Module Values.
(** The [values] that [parseArgs] returns for the declared options. *)
Record t := mk {
  url : option string;          (* no default: may be undefined *)
  concurrency : string;
  timeout : string;
  keepalive : bool
}.
End Values.

Module Outcome.
Inductive Status := success | failed.
(** The object a request resolves to: [{ status, id, httpStatus, duration }]
    or [{ status, id, reason, duration }]. *)
Record t := mk {
  status : Status;
  id : Z;
  httpStatus : option Z;
  reason : option string;
  duration : Z
}.
End Outcome.

(** A request suspended at [await fetch(...)]. *)
Record Pending := mkPending { p_id : Z; p_startTime : Z; p_signal : AbortSignal.t }.

(** The state of the promise an async call returned. *)
Inductive Promise :=
  | PPending (p : Pending)
  | PFulfilled (o : Outcome.t)
  | PRejected (e : Error.t).

(** An element of the array [Promise.allSettled] resolves to. *)
Inductive SettledResult :=
  | fulfilled (value : Outcome.t)
  | rejected (reason : Error.t).

Definition settled_of (p : Promise) : option SettledResult :=
  match p with
  | PPending _ => None
  | PFulfilled o => Some (fulfilled o)
  | PRejected e => Some (rejected e)
  end.

(** Where the synchronous part of [singleRequest] stopped. *)
Inductive Launched :=
  | Awaiting (p : Pending)
  | Settled (o : Outcome.t).

(** Calling an async function: what it throws before its first [await]
    rejects the promise it returns, nothing reaches the caller. *)
Definition call_async (m : M Launched) : M Promise :=
  λ w, match m w with
       | (Return (Awaiting p), w') => (Return (PPending p), w')
       | (Return (Settled o), w') => (Return (PFulfilled o), w')
       | (Throw e, w') => (Return (PRejected e), w')
       | (Exit c, w') => (Exit c, w')
       end.

(** The promise after the suspended function ran to its end. *)
Definition promise_of (c : Completion Outcome.t) : option Promise :=
  match c with
  | Return o => Some (PFulfilled o)
  | Throw e => Some (PRejected e)
  | Exit _ => None
  end.

Definition await_fetch (signal : AbortSignal.t) (net : FetchResult) : M Response.t :=
  match net with
  | FetchRejects e => throw e
  | FetchAborted => throw (AbortSignal.reason signal)
  | FetchResolves response _ => ret response
  end.

Definition await_text (signal : AbortSignal.t) (net : FetchResult) : M string :=
  match net with
  | FetchResolves _ (TextResolves body) => ret body
  | FetchResolves _ (TextRejects e) => throw e
  | FetchResolves _ TextAborted => throw (AbortSignal.reason signal)
  | FetchRejects e => throw e
  | FetchAborted => throw (AbortSignal.reason signal)
  end.

(** ** Executions of a labelled transition system *)

Section Exec.
Context {St E : Type} (step : St → list E → St → Prop).

(** [exec s0 tr0 tr s]: the system that is in [s0] when [tr0] has been
    emitted gets to [s], and [tr] is all that has been emitted then. *)
Inductive exec (s0 : St) (tr0 : list E) : list E → St → Prop :=
  | exec_nil : exec s0 tr0 tr0 s0
  | exec_step tr s1 ev s2 : exec s0 tr0 tr s1 → step s1 ev s2 → exec s0 tr0 (tr ++ ev) s2.
End Exec.

(** ** The function [main] of the two Node clients

    [main] has the same text in src/node-request/request.js and in
    src/unnamed/part_000; it is given here once, over the [singleRequest] of
    the file. *)

Module NodeLoop.
Section Main.
Variable singleRequest_begin : Z → string → Config.t → M Launched.
Variable singleRequest_resume : Pending → FetchResult → M Outcome.t.
Variable config : Config.t.

(** [main] suspended at [await Promise.allSettled(requests)]. *)
Record State := mkState {
  world : World;
  batch : Z;                              (* which turn of the loop this is, from 1 *)
  requests : list Promise;                (* the array [requests] *)
  values : list (option SettledResult);   (* the slots allSettled fills in *)
  remaining : nat;                        (* promises allSettled still waits for *)
  totalStartTime : Z
}.

(** [for (let i = 0; i < config.concurrency; i++)
       requests.push(singleRequest(i + 1, config.url, config))] *)
Definition launch : M (list Promise) :=
  for_each
    (λ requests i,
     let* p := call_async (singleRequest_begin (i + 1) (Config.url config) config) in
     ret (requests ++ [p]))
    (seqZ 0 (Config.concurrency config)) [].

Definition is_pending (p : Promise) : bool :=
  match p with PPending _ => true | _ => false end.

(** One turn of [while (true)] up to the [await]: the requests are
    launched, the clock is read, and allSettled takes note of the
    promises that are settled already. *)
Definition begin_batch (k : Z) : M State :=
  let* requests := launch in
  let* totalStartTime := hrtime_bigint in
  λ w, (Return (mkState w k requests (settled_of <$> requests)
                  (length (filter (λ p, is_pending p = true) requests))
                  totalStartTime), w).

(** The turn after the [await]: the total is written. *)
Definition end_batch (s : State) : M unit :=
  let* totalEndTime := hrtime_bigint in
  let totalDuration := (totalEndTime - totalStartTime s) `quot` 1000000 in
  console_log ("---------------- Total Time: " +:+ pretty totalDuration
               +:+ "ms ----------------").

Definition launch_events (k : Z) (requests : list Promise) : list (Event SettledResult) :=
  mjoin (imap (λ i p, EvLaunch k (Z.of_nat i + 1) ::
                      match settled_of p with
                      | Some r => [EvSettle k (Z.of_nat i + 1) r]
                      | None => []
                      end) requests).

Inductive step : State → list (Event SettledResult) → State → Prop :=
  (** the environment ends the request in slot [i] after [dt] more
      nanoseconds; its promise settles and allSettled fills the slot *)
  | step_settle s i p dt net c w' pr r :
      requests s !! i = Some (PPending p) →
      singleRequest_resume p net (advance dt (world s)) = (c, w') →
      promise_of c = Some pr →
      settled_of pr = Some r →
      step s [EvSettle (batch s) (Z.of_nat i + 1) r]
           (mkState w' (batch s) (<[i:=pr]> (requests s)) (<[i:=Some r]> (values s))
              (pred (remaining s)) (totalStartTime s))
  (** nothing is left to wait for: allSettled resolves, [main] goes on
      after [dt] more nanoseconds and runs up to the next [await] *)
  | step_join s dt w1 s' w2 :
      remaining s = 0%nat →
      end_batch s (advance dt (world s)) = (Return (), w1) →
      begin_batch (batch s + 1) w1 = (Return s', w2) →
      step s (EvJoin (batch s) :: EvStart (batch s + 1)
              :: launch_events (batch s + 1) (requests s')) s'.

(** The array allSettled resolves to, once every slot is filled. *)
Definition outcomes (s : State) : option (list SettledResult) :=
  mapM id (values s).
End Main.
End NodeLoop.

(** ** src/node-request/request.js *)

Module NodeRequest.
Section Client.
(** Platform functions the client calls and the repository does not
    define: the URL parser behind [new URL] and [new Request], [parseInt]
    with radix 10, and the random source behind [randomUUID] (its n-th
    draw). *)
Variable new_URL : string → Error.t + unit.
Variable new_Request : string → Error.t + Request.t.
Variable parseInt : string → Number.
Variable uuids : nat → string.

Definition randomUUID : M string :=
  λ w, (Return (uuids (drawn w)),
        mkWorld (now w) (console w) (S (drawn w)) (wire w)).

(** [getArgs()]; [parsed] is what [parseArgs({ options, allowPositionals:
    false })] does on the command line of the process. *)
Definition getArgs (parsed : Completion Values.t) : M Config.t :=
  try_catch
    (let* values := lift parsed in
     let* url :=
       match Values.url values with
       | Some u => if decide (u = "") then throw (Error.mk "Error" "--url is a required argument.")
                   else ret u
       | None => throw (Error.mk "Error" "--url is a required argument.")
       end in
     let* _ := try_catch (lift_sum (new_URL url))
                 (λ e, throw (Error.mk "Error" ("Invalid URL provided: " +:+ url))) in
     let concurrency := parseInt (Values.concurrency values) in
     let timeout := parseInt (Values.timeout values) in
     let keepAlive := Values.keepalive values in
     let* _ := if isNaN concurrency || Number_lt concurrency 1
               then throw (Error.mk "Error" "--concurrency must be a number greater than 0.")
               else ret () in
     let* _ := if isNaN timeout || Number_lt timeout 1
               then throw (Error.mk "Error" "--timeout must be a number greater than 0.")
               else ret () in
     ret (Config.mk url (Number_value concurrency) (Number_value timeout) keepAlive))
    (λ err,
     let* _ := console_log ("Error: " +:+ Error.message err) in
     let* _ := console_log "Run with --help for usage information." in
     process_exit 1).

(** The object literal [fetchOptions]. *)
Definition fetchOptions (signal : AbortSignal.t) (keepAlive : bool) (uuid : string)
  : gmap string JsVal :=
  {[ "signal" := VSignal signal;
     "method" := VStr "GET";
     "agent" := VAgent keepAlive;
     "headers" := VHeaders [("x-mgc-test-id", uuid)] ]}.

(** The [catch (error)] block of [singleRequest]. *)
Definition catch_block (id startTime : Z) (error : Error.t) : M Outcome.t :=
  let* endTime := hrtime_bigint in
  let duration := (endTime - startTime) `quot` 1000000 in
  let reason := Error.message error in
  let* _ := console_log ("Error: " +:+ Error.message error) in
  let reason := if decide (Error.name error = "AbortError") then "Timeout" else reason in
  ret (Outcome.mk Outcome.failed id None (Some reason) duration).

(** [singleRequest(id, url, { timeout, keepAlive })] up to its first
    [await]. *)
Definition singleRequest_begin (id : Z) (url : string) (config : Config.t) : M Launched :=
  let timeout := Config.timeout config in
  let keepAlive := Config.keepAlive config in
  let* startTime := hrtime_bigint in
  let* uuid := randomUUID in
  let* signal := lift (call_timeout "AbortSignal" timeout) in
  let fetchOptions := fetchOptions signal keepAlive uuid in
  let* _ := console_log ("Request " +:+ pretty id +:+ ": GET " +:+ url
                         +:+ " | Timeout: " +:+ pretty timeout
                         +:+ " | Keepalive: " +:+ show_bool keepAlive
                         +:+ " | MGC Id: " +:+ uuid) in
  try_catch
    (let* req := lift_sum (new_Request url) in
     let* _ := send (fetch_request req fetchOptions) in
     ret (Awaiting (mkPending id startTime signal)))
    (λ error, let* o := catch_block id startTime error in ret (Settled o)).

(** The rest of [singleRequest], from the moment [fetch] and the body
    read have ended as [net] says. *)
Definition singleRequest_resume (p : Pending) (net : FetchResult) : M Outcome.t :=
  let id := p_id p in
  let startTime := p_startTime p in
  try_catch
    (let* response := await_fetch (p_signal p) net in
     let* _ := await_text (p_signal p) net in
     let* endTime := hrtime_bigint in
     let duration := (endTime - startTime) `quot` 1000000 in
     let* _ := console_log ("Response " +:+ pretty id +:+ ": Code: "
                            +:+ pretty (Response.status response)
                            +:+ " | Duration: " +:+ pretty duration) in
     if negb (Response.ok response)
     then ret (Outcome.mk Outcome.failed id None
                 (Some ("HTTP " +:+ pretty (Response.status response))) duration)
     else ret (Outcome.mk Outcome.success id (Some (Response.status response)) None duration))
    (catch_block id startTime).

(** One whole request: the environment lets [dt] nanoseconds pass while
    it is suspended and ends it as [net] says. *)
Definition singleRequest (id : Z) (url : string) (config : Config.t)
    (dt : Z) (net : FetchResult) : M Outcome.t :=
  let* l := singleRequest_begin id url config in
  match l with
  | Settled o => ret o
  | Awaiting p => λ w, singleRequest_resume p net (advance dt w)
  end.

(** A Node process: gone with an exit code, or in the loop of [main]. *)
Inductive Process :=
  | Exited (code : Z) (w : World)
  | Crashed (e : Error.t) (w : World)
  | Running (config : Config.t) (s : NodeLoop.State).

(** [main()] up to its first [await]. *)
Definition main (parsed : Completion Values.t) (w : World)
  : Process * list (Event SettledResult) :=
  match getArgs parsed w with
  | (Return config, w1) =>
      match NodeLoop.begin_batch singleRequest_begin config 1 w1 with
      | (Return s, _) =>
          (Running config s, EvStart 1 :: NodeLoop.launch_events 1 (NodeLoop.requests s))
      | (Throw e, w2) => (Crashed e w2, [])
      | (Exit c, w2) => (Exited c w2, [])
      end
  | (Throw e, w1) => (Crashed e w1, [])
  | (Exit c, w1) => (Exited c w1, [])
  end.

Definition step (config : Config.t) :=
  NodeLoop.step singleRequest_begin singleRequest_resume config.
End Client.
End NodeRequest.

(** ** src/unnamed/part_000 *)

Module Part000.
Section Client.
Variable new_Request : string → Error.t + Request.t.

(** The object literal [fetchOptions]. *)
Definition fetchOptions (signal : AbortSignal.t) (keepAlive : bool) : gmap string JsVal :=
  {[ "signal" := VSignal signal; "keepalive" := VBool keepAlive ]}.

(** The [catch (error)] block of [singleRequest]. *)
Definition catch_block (id startTime : Z) (error : Error.t) : M Outcome.t :=
  let* endTime := hrtime_bigint in
  let duration := (endTime - startTime) `quot` 1000000 in
  let reason := Error.message error in
  let reason := if decide (Error.name error = "AbortError") then "Timeout" else reason in
  ret (Outcome.mk Outcome.failed id None (Some reason) duration).

(** [singleRequest(id, url, { timeout, keepAlive })] up to its first
    [await]. *)
Definition singleRequest_begin (id : Z) (url : string) (config : Config.t) : M Launched :=
  let timeout := Config.timeout config in
  let keepAlive := Config.keepAlive config in
  let* startTime := hrtime_bigint in
  let* signal := lift (call_timeout "AbortController" timeout) in
  let fetchOptions := fetchOptions signal keepAlive in
  try_catch
    (let* req := lift_sum (new_Request url) in
     let* _ := send (fetch_request req fetchOptions) in
     ret (Awaiting (mkPending id startTime signal)))
    (λ error, let* o := catch_block id startTime error in ret (Settled o)).

(** The rest of [singleRequest]. *)
Definition singleRequest_resume (p : Pending) (net : FetchResult) : M Outcome.t :=
  let id := p_id p in
  let startTime := p_startTime p in
  try_catch
    (let* response := await_fetch (p_signal p) net in
     let* _ := await_text (p_signal p) net in
     let* endTime := hrtime_bigint in
     let duration := (endTime - startTime) `quot` 1000000 in
     if negb (Response.ok response)
     then ret (Outcome.mk Outcome.failed id None
                 (Some ("HTTP " +:+ pretty (Response.status response))) duration)
     else ret (Outcome.mk Outcome.success id (Some (Response.status response)) None duration))
    (catch_block id startTime).

(** One whole request. *)
Definition singleRequest (id : Z) (url : string) (config : Config.t)
    (dt : Z) (net : FetchResult) : M Outcome.t :=
  let* l := singleRequest_begin id url config in
  match l with
  | Settled o => ret o
  | Awaiting p => λ w, singleRequest_resume p net (advance dt w)
  end.

Definition step (config : Config.t) :=
  NodeLoop.step singleRequest_begin singleRequest_resume config.
End Client.
End Part000.

(** ** src/request/request.go *)

Module GoRequest.
(** [int] and [time.Duration] are 64-bit two's complement integers. *)
Definition wrap (z : Z) : Z := (z + 2 ^ 63) `mod` 2 ^ 64 - 2 ^ 63.
Arguments wrap : simpl never.
Definition in_int (z : Z) : bool := bool_decide (- 2 ^ 63 ≤ z < 2 ^ 63).

(** [time.Millisecond] and [time.Second], in nanoseconds. *)
Definition Millisecond : Z := 1000000.
Definition Second : Z := 1000000000.

(** *** Package flag

    A flag is a cell that holds its default until [flag.Parse] stores the
    value from the command line; [flag.Int] and its like return a pointer
    to the cell, here the name of the flag. *)
Inductive FlagValue := FString (s : string) | FBool (b : bool) | FInt (z : Z).

Definition flag_String (name value : string) (fs : gmap string FlagValue)
  : string * gmap string FlagValue := (name, <[name := FString value]> fs).
Definition flag_Bool (name : string) (value : bool) (fs : gmap string FlagValue)
  : string * gmap string FlagValue := (name, <[name := FBool value]> fs).
Definition flag_Int (name : string) (value : Z) (fs : gmap string FlagValue)
  : string * gmap string FlagValue := (name, <[name := FInt value]> fs).

(** [*p] *)
Definition deref_String (p : string) (fs : gmap string FlagValue) : string :=
  match fs !! p with Some (FString s) => s | _ => "" end.
Definition deref_Bool (p : string) (fs : gmap string FlagValue) : bool :=
  match fs !! p with Some (FBool b) => b | _ => false end.
Definition deref_Int (p : string) (fs : gmap string FlagValue) : Z :=
  match fs !! p with Some (FInt z) => z | _ => 0 end.

(** One flag of the command line is stored.  A flag that was not
    defined, or a value that is not of the kind of the flag (for an int
    flag: not an integer of 64 bits), is an error. *)
Definition set_flag (fs : gmap string FlagValue) (name : string) (v : FlagValue)
  : option (gmap string FlagValue) :=
  match fs !! name, v with
  | Some (FString _), FString s => Some (<[name := FString s]> fs)
  | Some (FBool _), FBool b => Some (<[name := FBool b]> fs)
  | Some (FInt _), FInt z => if in_int z then Some (<[name := FInt z]> fs) else None
  | _, _ => None
  end.

(** [flag.Parse()]; [args] is the command line as the package has split
    it: the flags given, in their order, each with its value. *)
Fixpoint flag_Parse (args : list (string * FlagValue)) (fs : gmap string FlagValue)
  : option (gmap string FlagValue) :=
  match args with
  | [] => Some fs
  | (name, v) :: args' =>
      match set_flag fs name v with
      | Some fs' => flag_Parse args' fs'
      | None => None
      end
  end.

(** *** The process and what it shows *)

Inductive Arg := AInt (z : Z) | AString (s : string) | ADuration (ns : Z).

(** A call of [fmt.Printf]/[fmt.Println] or of [log.Printf], with its
    format and its arguments. *)
Inductive Output :=
  | Stdout (format : string) (args : list Arg)
  | Log (format : string) (args : list Arg).

Module Req.
(** The request [client.Do] is given. *)
Record t := mk { Method : string; URL : string; Header : list (string * string) }.
End Req.

Module Resp.
Record t := mk { Status : string; StatusCode : Z }.
End Resp.

Module Transport.
Record t := mk {
  MaxIdleConns : Z;
  MaxConnsPerHost : Z;
  IdleConnTimeout : Z;
  DisableKeepAlives : bool
}.
End Transport.

Module Client.
Record t := mk { Transport : Transport.t; Timeout : Z }.
End Client.

Record World := mkWorld {
  now : Z;                      (* clock, nanoseconds *)
  output : list Output;         (* oldest first *)
  drawn : nat;                  (* UUIDs drawn from the random source *)
  wire : list Req.t             (* requests given to [client.Do], oldest first *)
}.

Definition print (o : Output) (w : World) : World :=
  mkWorld (now w) (output w ++ [o]) (drawn w) (wire w).

Definition advance (dt : Z) (w : World) : World :=
  mkWorld (now w + Z.max 0 dt) (output w) (drawn w) (wire w).

(** How [client.Do] and the read of the body end: [err] is the text of
    the error value. *)
Inductive DoResult :=
  | DoError (err : string)
  | DoResponse (resp : Resp.t) (copy_err : option string).

(** What a request has logged when it ends. *)
Inductive Report :=
  | ReportError (err : string)
  | ReportBodyError (err : string)
  | ReportFinished (status : string).

(** What [main] has set up before its loop. *)
Record Setup := mkSetup { client : Client.t; url : string; numRequests : Z }.

Inductive PC :=
  | Launching (i : Z)          (* in the inner [for], about to test [i < *numRequests] *)
  | Waiting                    (* in [wg.Wait()] *)
  | Dead.                      (* the process died of a panic *)

Inductive Phase := Spawned | InFlight.

(** A goroutine running [makeRequest].  [g_turn] tells which WaitGroup
    its [wg] points to: the one of the turn of the loop that started it;
    [g_batch] is the value [batchNumber] had then. *)
Record Goroutine := mkG { g_turn : nat; g_batch : Z; g_id : Z; g_phase : Phase }.

Record State := mkState {
  world : World;
  batchNumber : Z;
  turn : nat;                  (* turns of the outer [for] completed *)
  pc : PC;
  wg : Z;                      (* the counter of the WaitGroup of this turn *)
  start : Z;
  goroutines : list Goroutine
}.

Inductive Process :=
  | Exited (code : Z)
  | Running (setup : Setup) (s : State).

Section Main.
(** Library functions the repository does not define: whether
    [http.NewRequest("GET", url, nil)] accepts the URL, and the random
    source behind [uuid.New()] (its n-th draw). *)
Variable NewRequest_ok : string → bool.
Variable uuids : nat → string.

(** [main] down to the inner [for] of the first turn. *)
Definition main (args : list (string * FlagValue)) (w : World) : Process :=
  let fs : gmap string FlagValue := ∅ in
  let '(url, fs) := flag_String "url" "http://localhost:8080" fs in
  let '(keepalive, fs) := flag_Bool "keepalive" false fs in
  let '(numRequests, fs) := flag_Int "n" 10 fs in
  let '(ms, fs) := flag_Int "ms" 2000 fs in
  let duration := wrap (deref_Int ms fs * Millisecond) in
  match flag_Parse args fs with
  | None => Exited 2
  | Some fs =>
      let w := print (Stdout "Starting %d parallel requests to %s...\n"
                        [AInt (deref_Int numRequests fs); AString (deref_String url fs)]) w in
      let client :=
        Client.mk
          (Transport.mk (deref_Int numRequests fs) (deref_Int numRequests fs)
             (wrap (30 * Second)) (negb (deref_Bool keepalive fs)))
          duration in
      let w := print (Stdout "Starting request loop. Press Ctrl+C to stop.\n" []) w in
      let batchNumber := 1 in
      let w := print (Stdout "\n--- Starting Batch %d ---\n" [AInt batchNumber]) w in
      Running (mkSetup client (deref_String url fs) (deref_Int numRequests fs))
              (mkState w batchNumber 0 (Launching 0) 0 (now w) [])
  end.

Variable setup : Setup.

(** [makeRequest] up to the call of [client.Do]; [None] is the panic of
    [req.Header] on the nil request that [http.NewRequest] returns with
    its error. *)
Definition makeRequest_begin (id : Z) (w : World) : option World :=
  let w := print (Log "[Request %d] Starting...\n" [AInt id]) w in
  if NewRequest_ok (url setup) then
    let header := [("x-mgc-test-id", uuids (drawn w))] in
    let req := Req.mk "GET" (url setup) header in
    Some (mkWorld (now w) (output w) (S (drawn w)) (wire w ++ [req]))
  else None.

(** [makeRequest] from the return of [client.Do] to its end. *)
Definition makeRequest_end (id : Z) (r : DoResult) (w : World) : World * Report :=
  match r with
  | DoError err =>
      (print (Log "[Request %d] ERROR: %v\n" [AInt id; AString err]) w, ReportError err)
  | DoResponse resp (Some err) =>
      (print (Log "[Request %d] ERROR reading body: %v\n" [AInt id; AString err]) w,
       ReportBodyError err)
  | DoResponse resp None =>
      (print (Log "[Request %d] Finished with status: %s\n"
                [AInt id; AString (Resp.Status resp)]) w,
       ReportFinished (Resp.Status resp))
  end.

(** [wg.Done()] of a goroutine started in turn [t]. *)
Definition Done (t : nat) (s : State) : Z :=
  if decide (t = turn s) then wg s - 1 else wg s.

(** [main] from the return of [wg.Wait()] to the inner [for] of the next
    turn: the batch is reported, [batchNumber++], the start of the next
    batch is printed, a new WaitGroup is made and the clock is read. *)
Definition next_turn (s : State) (dt : Z) : State :=
  let w := advance dt (world s) in
  let duration := wrap (now w - start s) in
  let w := print (Stdout "Batch %d: All %d requests completed in %v\n"
                    [AInt (batchNumber s); AInt (numRequests setup); ADuration duration]) w in
  let batchNumber' := wrap (batchNumber s + 1) in
  let w := print (Stdout "\n--- Starting Batch %d ---\n" [AInt batchNumber']) w in
  mkState w batchNumber' (S (turn s)) (Launching 0) 0 (now w) (goroutines s).

Inductive step : State → list (Event Report) → State → Prop :=
  (** [wg.Add(1); go makeRequest(client, *url, i+1, &wg); i++] *)
  | step_launch s i :
      pc s = Launching i →
      i < numRequests setup →
      step s [EvLaunch (batchNumber s) (wrap (i + 1))]
           (mkState (world s) (batchNumber s) (turn s) (Launching (wrap (i + 1)))
              (wg s + 1) (start s)
              (goroutines s ++ [mkG (turn s) (batchNumber s) (wrap (i + 1)) Spawned]))
  (** the inner [for] is left; [main] prints and calls [wg.Wait()] *)
  | step_wait s i :
      pc s = Launching i →
      ¬ i < numRequests setup →
      step s []
           (mkState (print (Stdout "Waiting for all requests in this batch to complete...\n" [])
                       (world s))
              (batchNumber s) (turn s) Waiting (wg s) (start s) (goroutines s))
  (** a goroutine runs up to [client.Do] *)
  | step_go_begin s j g dt w' :
      pc s ≠ Dead →
      goroutines s !! j = Some g →
      g_phase g = Spawned →
      makeRequest_begin (g_id g) (advance dt (world s)) = Some w' →
      step s []
           (mkState w' (batchNumber s) (turn s) (pc s) (wg s) (start s)
              (<[j := mkG (g_turn g) (g_batch g) (g_id g) InFlight]> (goroutines s)))
  (** a goroutine panics: the process dies *)
  | step_go_panic s j g dt :
      pc s ≠ Dead →
      goroutines s !! j = Some g →
      g_phase g = Spawned →
      makeRequest_begin (g_id g) (advance dt (world s)) = None →
      step s []
           (mkState (advance dt (world s)) (batchNumber s) (turn s) Dead (wg s) (start s)
              (goroutines s))
  (** [client.Do] returns in a goroutine, which runs to its end *)
  | step_go_end s j g dt r w' rep :
      pc s ≠ Dead →
      goroutines s !! j = Some g →
      g_phase g = InFlight →
      makeRequest_end (g_id g) r (advance dt (world s)) = (w', rep) →
      step s [EvSettle (g_batch g) (g_id g) rep]
           (mkState w' (batchNumber s) (turn s) (pc s) (Done (g_turn g) s) (start s)
              (delete j (goroutines s)))
  (** the counter is zero: [wg.Wait()] returns, [main] reports the batch
      and begins the next turn *)
  | step_join s dt :
      pc s = Waiting →
      wg s = 0 →
      step s [EvJoin (batchNumber s); EvStart (wrap (batchNumber s + 1))] (next_turn s dt).
End Main.
End GoRequest.

(** ** Vocabulary of the statements, and sample inputs *)

(** A signal ended the request: before the response, or while the body
    was read. *)
Definition aborted (net : FetchResult) : Prop :=
  net = FetchAborted ∨ ∃ response, net = FetchResolves response TextAborted.

(** An empty world, and the signal of a 5000 ms timeout. *)
Definition world0 : World := mkWorld 0 [] 0 [].

Definition signal5000 : AbortSignal.t :=
  AbortSignal.mk 5000 (DOMException "The operation was aborted due to timeout" "TimeoutError").

(** The Go client tells that a request failed by one of its two ERROR
    lines, with the text of the error. *)
Definition go_failed_with (rep : GoRequest.Report) (reason : string) : Prop :=
  rep = GoRequest.ReportError reason ∨ rep = GoRequest.ReportBodyError reason.

(** The classification of C3, read on the Go client: a response that was
    read in full and whose status is not 2xx ends as a failure with the
    reason "HTTP <status>". *)
Definition go_classifies_by_status : Prop :=
  ∀ id resp w,
    ¬ (200 ≤ GoRequest.Resp.StatusCode resp ≤ 299) →
    go_failed_with (GoRequest.makeRequest_end id (GoRequest.DoResponse resp None) w).2
      ("HTTP " +:+ pretty (GoRequest.Resp.StatusCode resp)).

Definition go_world0 : GoRequest.World := GoRequest.mkWorld 0 [] 0 [].

(** The fail-fast rule of C6, read on the Go client: flags with a
    non-positive [-n] or [-ms] end the process before the loop. *)
Definition go_fails_fast : Prop :=
  ∀ n ms w,
    n ≤ 0 ∨ ms ≤ 0 →
    GoRequest.in_int n = true → GoRequest.in_int ms = true →
    ∃ code,
      GoRequest.main [("n", GoRequest.FInt n); ("ms", GoRequest.FInt ms)] w
      = GoRequest.Exited code.

(** A [parseInt] for the samples: the decimal digits of a string that has
    nothing else, with a sign in front or not. *)
Fixpoint digits (s : string) (acc : Z) : option Z :=
  match s with
  | EmptyString => Some acc
  | String c s' =>
      let n := Z.of_N (Ascii.N_of_ascii c) in
      if bool_decide (48 ≤ n ≤ 57) then digits s' (10 * acc + (n - 48)) else None
  end.

Definition sample_parseInt (s : string) : Number :=
  match s with
  | EmptyString => NaN
  | String (Ascii.Ascii true false true true false true false false) s' =>
      match s' with
      | EmptyString => NaN
      | _ => match digits s' 0 with Some z => Num (- z) | None => NaN end
      end
  | _ => match digits s 0 with Some z => Num z | None => NaN end
  end.

Definition sample_new_URL (s : string) : Error.t + unit := inr ().
Definition sample_new_Request (s : string) : Error.t + Request.t := inr (Request.mk s).
Definition sample_uuids (n : nat) : string := "uuid-" +:+ pretty n.

(** *** Reading a trace *)

(** The events since the last start of a batch. *)
Definition current {R} (tr : list (Event R)) : list (Event R) :=
  foldl (λ acc e, match e with EvStart _ => [] | _ => acc ++ [e] end) [] tr.

Definition launch_id {R} (e : Event R) : option Z :=
  match e with EvLaunch _ id => Some id | _ => None end.
Definition settle_id {R} (e : Event R) : option Z :=
  match e with EvSettle _ id _ => Some id | _ => None end.
Definition start_number {R} (e : Event R) : option Z :=
  match e with EvStart k => Some k | _ => None end.

(** The ids launched, and the ids settled, in the batch a trace ends in,
    each in the order of the events. *)
Definition launched {R} (tr : list (Event R)) : list Z := omap launch_id (current tr).
Definition settled {R} (tr : list (Event R)) : list Z := omap settle_id (current tr).

(** The numbers of the batches started, in their order. *)
Definition starts {R} (tr : list (Event R)) : list Z := omap start_number tr.

(** The id a promise stands for. *)
Definition promise_id (pr : Promise) : option Z :=
  match pr with
  | PPending p => Some (p_id p)
  | PFulfilled o => Some (Outcome.id o)
  | PRejected _ => None
  end.

(** *** Runs of the clients *)

(** The Node client of src/node-request/request.js, started on the
    command line that [parsed] stands for, has emitted [tr] and is in [s],
    suspended in its loop with the configuration [config]. *)
Definition node_run (new_URL : string → Error.t + unit)
    (new_Request : string → Error.t + Request.t) (parseInt : string → Number)
    (uuids : nat → string) (parsed : Completion Values.t) (w : World)
    (config : Config.t) (tr : list (Event SettledResult)) (s : NodeLoop.State) : Prop :=
  ∃ s0 ev0,
    NodeRequest.main new_URL new_Request parseInt uuids parsed w
    = (NodeRequest.Running config s0, ev0)
    ∧ exec (NodeRequest.step new_Request uuids config) s0 ev0 tr s.

(** The Go client, started with the flags [args], has emitted [tr] and is
    in [s]. *)
Definition go_run (NewRequest_ok : string → bool) (uuids : nat → string)
    (args : list (string * GoRequest.FlagValue)) (w : GoRequest.World)
    (setup : GoRequest.Setup) (tr : list (Event GoRequest.Report)) (s : GoRequest.State) : Prop :=
  ∃ s0,
    GoRequest.main args w = GoRequest.Running setup s0
    ∧ exec (GoRequest.step NewRequest_ok uuids setup) s0
        [EvStart (GoRequest.batchNumber s0)] tr s.

(** The id of the request a call of [singleRequest] has launched. *)
Definition launched_id (l : Launched) : Z :=
  match l with Awaiting p => p_id p | Settled o => Outcome.id o end.

(** Batches do not overlap in a trace: a batch starts only right after the
    join of the batch before it, whose number it continues by [next], and
    by then every request launched in that batch has settled. *)
Definition sequenced {R} (next : Z → Z) (tr : list (Event R)) : Prop :=
  ∀ j k', tr !! S j = Some (EvStart k') →
    ∃ k, tr !! j = Some (EvJoin k)
         ∧ last (starts (take j tr)) = Some k
         ∧ k' = next k
         ∧ ∀ id, id ∈ launched (take j tr) → id ∈ settled (take j tr).

(** What holds of the trace and the state of a Node client at each of its
    [await]s. *)
Record node_inv (config : Config.t) (tr : list (Event SettledResult))
    (s : NodeLoop.State) : Prop := mk_node_inv {
  inv_length : length (NodeLoop.requests s) = Z.to_nat (Config.concurrency config);
  inv_values : NodeLoop.values s = settled_of <$> NodeLoop.requests s;
  inv_remaining :
    NodeLoop.remaining s
    = length (filter (λ p, NodeLoop.is_pending p = true) (NodeLoop.requests s));
  inv_ids : ∀ i pr, NodeLoop.requests s !! i = Some pr → promise_id pr = Some (Z.of_nat i + 1);
  inv_launched : launched tr = seqZ 1 (Config.concurrency config);
  inv_settled : ∀ i pr, NodeLoop.requests s !! i = Some pr →
                        NodeLoop.is_pending pr = false → Z.of_nat i + 1 ∈ settled tr;
  inv_batch : 1 ≤ NodeLoop.batch s;
  inv_starts : starts tr = seqZ 1 (NodeLoop.batch s);
  inv_sequenced : sequenced Z.succ tr
}.

(** The number of the batch after batch [k] in the Go client: 64-bit
    [batchNumber++]. *)
Definition go_next (k : Z) : Z := GoRequest.wrap (k + 1).

(** What holds of the trace and the state of the Go client at every
    moment. *)
Record go_inv (setup : GoRequest.Setup) (tr : list (Event GoRequest.Report))
    (s : GoRequest.State) : Prop := mk_go_inv {
  gi_pc :
    match GoRequest.pc s with
    | GoRequest.Launching i =>
        0 ≤ i ∧ (i ≤ GoRequest.numRequests setup ∨ i = 0) ∧ launched tr = seqZ 1 i
    | GoRequest.Waiting => launched tr = seqZ 1 (GoRequest.numRequests setup)
    | GoRequest.Dead => True
    end;
  gi_goroutines :
    ∀ g, g ∈ GoRequest.goroutines s →
         GoRequest.g_turn g = GoRequest.turn s ∧ GoRequest.g_batch g = GoRequest.batchNumber s;
  gi_wg : GoRequest.wg s = Z.of_nat (length (GoRequest.goroutines s));
  gi_perm : settled tr ++ (GoRequest.g_id <$> GoRequest.goroutines s) ≡ₚ launched tr;
  gi_batchNumber :
    GoRequest.batchNumber s = GoRequest.wrap (Z.of_nat (GoRequest.turn s) + 1);
  gi_starts :
    starts tr = (λ j, GoRequest.wrap (Z.of_nat j + 1)) <$> seq 0 (S (GoRequest.turn s));
  gi_sequenced : sequenced go_next tr
}.

(** *** The steps as functions, to run the clients on samples *)

Section Play.
Context {St A E : Type} (do : St → A → option (list E * St)).

(** The actions [acts] are done one after the other from [s]. *)
Fixpoint play (s : St) (acts : list A) : option (list E * St) :=
  match acts with
  | [] => Some ([], s)
  | a :: acts' =>
      match do s a with
      | Some (ev, s1) =>
          match play s1 acts' with
          | Some (tr, s2) => Some (ev ++ tr, s2)
          | None => None
          end
      | None => None
      end
  end.
End Play.

(** What the environment and the scheduler can do to a Node client. *)
Inductive NodeAction :=
  | Settle (i : nat) (dt : Z) (net : FetchResult)
  | Join (dt : Z).

Definition node_do (new_Request : string → Error.t + Request.t) (uuids : nat → string)
    (config : Config.t) (s : NodeLoop.State) (a : NodeAction)
  : option (list (Event SettledResult) * NodeLoop.State) :=
  match a with
  | Settle i dt net =>
      match NodeLoop.requests s !! i with
      | Some (PPending p) =>
          let '(c, w') :=
            NodeRequest.singleRequest_resume p net (advance dt (NodeLoop.world s)) in
          match promise_of c with
          | Some pr =>
              match settled_of pr with
              | Some r =>
                  Some ([EvSettle (NodeLoop.batch s) (Z.of_nat i + 1) r],
                        NodeLoop.mkState w' (NodeLoop.batch s)
                          (<[i:=pr]> (NodeLoop.requests s))
                          (<[i:=Some r]> (NodeLoop.values s))
                          (pred (NodeLoop.remaining s)) (NodeLoop.totalStartTime s))
              | None => None
              end
          | None => None
          end
      | _ => None
      end
  | Join dt =>
      if decide (NodeLoop.remaining s = 0%nat) then
        match NodeLoop.end_batch s (advance dt (NodeLoop.world s)) with
        | (Return _, w1) =>
            match NodeLoop.begin_batch (NodeRequest.singleRequest_begin new_Request uuids)
                    config (NodeLoop.batch s + 1) w1 with
            | (Return s', _) =>
                Some (EvJoin (NodeLoop.batch s) :: EvStart (NodeLoop.batch s + 1)
                      :: NodeLoop.launch_events (NodeLoop.batch s + 1) (NodeLoop.requests s'),
                      s')
            | _ => None
            end
        | _ => None
        end
      else None
  end.

(** What the scheduler and the environment can do to the Go client. *)
Inductive GoAction :=
  | GoLaunch
  | GoWait
  | GoBegin (j : nat) (dt : Z)
  | GoEnd (j : nat) (dt : Z) (r : GoRequest.DoResult)
  | GoJoin (dt : Z).

Definition go_alive (s : GoRequest.State) : bool :=
  match GoRequest.pc s with GoRequest.Dead => false | _ => true end.

Definition go_do (NewRequest_ok : string → bool) (uuids : nat → string)
    (setup : GoRequest.Setup) (s : GoRequest.State) (a : GoAction)
  : option (list (Event GoRequest.Report) * GoRequest.State) :=
  match a with
  | GoLaunch =>
      match GoRequest.pc s with
      | GoRequest.Launching i =>
          if decide (i < GoRequest.numRequests setup) then
            Some ([EvLaunch (GoRequest.batchNumber s) (GoRequest.wrap (i + 1))],
                  GoRequest.mkState (GoRequest.world s) (GoRequest.batchNumber s)
                    (GoRequest.turn s) (GoRequest.Launching (GoRequest.wrap (i + 1)))
                    (GoRequest.wg s + 1) (GoRequest.start s)
                    (GoRequest.goroutines s
                     ++ [GoRequest.mkG (GoRequest.turn s) (GoRequest.batchNumber s)
                           (GoRequest.wrap (i + 1)) GoRequest.Spawned]))
          else None
      | _ => None
      end
  | GoWait =>
      match GoRequest.pc s with
      | GoRequest.Launching i =>
          if decide (i < GoRequest.numRequests setup) then None
          else
            Some ([],
                  GoRequest.mkState
                    (GoRequest.print
                       (GoRequest.Stdout
                          "Waiting for all requests in this batch to complete...\n" [])
                       (GoRequest.world s))
                    (GoRequest.batchNumber s) (GoRequest.turn s) GoRequest.Waiting
                    (GoRequest.wg s) (GoRequest.start s) (GoRequest.goroutines s))
      | _ => None
      end
  | GoBegin j dt =>
      match GoRequest.goroutines s !! j with
      | Some g =>
          match GoRequest.g_phase g with
          | GoRequest.Spawned =>
              if go_alive s then
                match GoRequest.makeRequest_begin NewRequest_ok uuids setup (GoRequest.g_id g)
                        (GoRequest.advance dt (GoRequest.world s)) with
                | Some w' =>
                    Some ([],
                          GoRequest.mkState w' (GoRequest.batchNumber s) (GoRequest.turn s)
                            (GoRequest.pc s) (GoRequest.wg s) (GoRequest.start s)
                            (<[j := GoRequest.mkG (GoRequest.g_turn g) (GoRequest.g_batch g)
                                      (GoRequest.g_id g) GoRequest.InFlight]>
                               (GoRequest.goroutines s)))
                | None =>
                    Some ([],
                          GoRequest.mkState (GoRequest.advance dt (GoRequest.world s))
                            (GoRequest.batchNumber s) (GoRequest.turn s) GoRequest.Dead
                            (GoRequest.wg s) (GoRequest.start s) (GoRequest.goroutines s))
                end
              else None
          | GoRequest.InFlight => None
          end
      | None => None
      end
  | GoEnd j dt r =>
      match GoRequest.goroutines s !! j with
      | Some g =>
          match GoRequest.g_phase g with
          | GoRequest.InFlight =>
              if go_alive s then
                let '(w', rep) :=
                  GoRequest.makeRequest_end (GoRequest.g_id g) r
                    (GoRequest.advance dt (GoRequest.world s)) in
                Some ([EvSettle (GoRequest.g_batch g) (GoRequest.g_id g) rep],
                      GoRequest.mkState w' (GoRequest.batchNumber s) (GoRequest.turn s)
                        (GoRequest.pc s) (GoRequest.Done (GoRequest.g_turn g) s)
                        (GoRequest.start s) (delete j (GoRequest.goroutines s)))
              else None
          | GoRequest.Spawned => None
          end
      | None => None
      end
  | GoJoin dt =>
      match GoRequest.pc s with
      | GoRequest.Waiting =>
          if decide (GoRequest.wg s = 0) then
            Some ([EvJoin (GoRequest.batchNumber s);
                   EvStart (GoRequest.wrap (GoRequest.batchNumber s + 1))],
                  GoRequest.next_turn setup s dt)
          else None
      | _ => None
      end
  end.

(** *** A sample run of each client *)

(** The Node client with two requests: the second is aborted by its signal
    after 7 ms, the first gets a 200 two ms later; then the batch is
    joined. *)
Definition sample_values : Values.t :=
  Values.mk (Some "http://localhost:8080") "2" "5000" false.

Definition sample_config : Config.t := Config.mk "http://localhost:8080" 2 5000 false.

Definition sample_node_actions : list NodeAction :=
  [Settle 1 7000000 FetchAborted;
   Settle 0 2000000 (FetchResolves (Response.mk 200) (TextResolves "ok"))].

Definition sample_node_start : NodeRequest.Process * list (Event SettledResult) :=
  Eval vm_compute in
    NodeRequest.main sample_new_URL sample_new_Request sample_parseInt sample_uuids
      (Return sample_values) world0.

Definition sample_node_s0 : NodeLoop.State :=
  Eval vm_compute in
    match sample_node_start.1 with
    | NodeRequest.Running _ s => s
    | _ => NodeLoop.mkState world0 0 [] [] 0 0
    end.

Definition sample_node_played : option (list (Event SettledResult) * NodeLoop.State) :=
  Eval vm_compute in
    play (node_do sample_new_Request sample_uuids sample_config)
      sample_node_s0 sample_node_actions.

Definition sample_node_tr : list (Event SettledResult) :=
  Eval vm_compute in
    sample_node_start.2 ++ match sample_node_played with Some (tr, _) => tr | None => [] end.

Definition sample_node_s : NodeLoop.State :=
  Eval vm_compute in
    match sample_node_played with Some (_, s) => s | None => sample_node_s0 end.

Definition sample_node_joined : option (list (Event SettledResult) * NodeLoop.State) :=
  Eval vm_compute in
    node_do sample_new_Request sample_uuids sample_config sample_node_s (Join 1000000).

(** The Go client with [-n=2]: both requests are launched and sent, the
    second runs into the timeout of the client, the first gets a 500; then
    the batch is joined. *)
Definition sample_NewRequest_ok (url : string) : bool := true.

Definition sample_go_args : list (string * GoRequest.FlagValue) := [("n", GoRequest.FInt 2)].

Definition sample_go_actions : list GoAction :=
  [GoLaunch; GoLaunch; GoWait; GoBegin 0 1000; GoBegin 1 1000;
   GoEnd 1 2000000000 (GoRequest.DoError "context deadline exceeded");
   GoEnd 0 1000000
     (GoRequest.DoResponse (GoRequest.Resp.mk "500 Internal Server Error" 500) None)].

Definition sample_go_start : GoRequest.Process :=
  Eval vm_compute in GoRequest.main sample_go_args go_world0.

Definition sample_go_setup : GoRequest.Setup :=
  Eval vm_compute in
    match sample_go_start with
    | GoRequest.Running setup _ => setup
    | _ => GoRequest.mkSetup
             (GoRequest.Client.mk (GoRequest.Transport.mk 0 0 0 false) 0) "" 0
    end.

Definition sample_go_s0 : GoRequest.State :=
  Eval vm_compute in
    match sample_go_start with
    | GoRequest.Running _ s => s
    | _ => GoRequest.mkState go_world0 0 0 GoRequest.Dead 0 0 []
    end.

Definition sample_go_played : option (list (Event GoRequest.Report) * GoRequest.State) :=
  Eval vm_compute in
    play (go_do sample_NewRequest_ok sample_uuids sample_go_setup)
      sample_go_s0 sample_go_actions.

Definition sample_go_tr : list (Event GoRequest.Report) :=
  Eval vm_compute in
    EvStart 1 :: match sample_go_played with Some (tr, _) => tr | None => [] end.

Definition sample_go_s : GoRequest.State :=
  Eval vm_compute in
    match sample_go_played with Some (_, s) => s | None => sample_go_s0 end.

(** The Go client with a URL that [http.NewRequest] refuses: the first
    goroutine to run panics. *)
Definition sample_go_bad_url : option (list (Event GoRequest.Report) * GoRequest.State) :=
  Eval vm_compute in
    play (go_do (λ _, false) sample_uuids sample_go_setup) sample_go_s0
      [GoLaunch; GoBegin 0 1000].

(** *** The correlation header *)

(** The headers of the requests sent so far are the header
    ["x-mgc-test-id"] with the draws [js] of the random source, no draw
    used twice. *)
Definition test_ids_fresh {Req} (uuids : nat → string) (headers : Req → list (string * string))
    (wire : list Req) (drawn : nat) : Prop :=
  ∃ js : list nat,
    headers <$> wire = (λ j, [("x-mgc-test-id", uuids j)]) <$> js
    ∧ NoDup js
    ∧ ∀ j, j ∈ js → (j < drawn)%nat.

Definition node_fresh (uuids : nat → string) (w : World) : Prop :=
  test_ids_fresh uuids w_headers (wire w) (drawn w).

Definition go_fresh (uuids : nat → string) (w : GoRequest.World) : Prop :=
  test_ids_fresh uuids GoRequest.Req.Header (GoRequest.wire w) (GoRequest.drawn w).


(** * The rest of the code *)

(** ** src/unnamed/part_000: [getArgs] and [main] *)

Module Part000Main.
(** An entry of the table [options]. *)
Record OptionSpec := mkOption {
  opt_key : string;
  opt_type : string;
  opt_short : string;
  opt_default : option JsVal;        (* [url] has none *)
  opt_help : string
}.

(** [Object.entries(options)], in the order of the literal. *)
Definition options : list OptionSpec :=
  [mkOption "url" "string" "u" None "The URL to request";
   mkOption "concurrency" "string" "c" (Some (VStr "10")) "Number of parallel requests";
   mkOption "timeout" "string" "t" (Some (VStr "5000")) "Request timeout in milliseconds";
   mkOption "keepalive" "boolean" "k" (Some (VBool false)) "Use HTTP Keep-Alive"].

(** [if (x)] and [`${x}`] for the values the table holds. *)
Definition truthy (v : option JsVal) : bool :=
  match v with
  | Some (VStr s) => negb (bool_decide (s = ""))
  | Some (VBool b) => b
  | Some _ => true
  | None => false
  end.

Definition to_text (v : option JsVal) : string :=
  match v with
  | Some (VStr s) => s
  | Some (VBool b) => show_bool b
  | Some _ => "[object Object]"
  | None => "undefined"
  end.

Definition tab : string := String (Ascii.ascii_of_nat 9) EmptyString.
Definition newline : string := String (Ascii.ascii_of_nat 10) EmptyString.

(** The line of one option in the usage text. *)
Definition usage_line (o : OptionSpec) : string :=
  let line := "  --" +:+ opt_key o in
  let line := if bool_decide (opt_short o = "") then line else line +:+ ", -" +:+ opt_short o in
  let line := line +:+ tab +:+ opt_help o in
  if truthy (opt_default o) then line +:+ " (default: " +:+ to_text (opt_default o) +:+ ")"
  else line.

(** [values.help]: [parseArgs] returns the options that [options]
    declares, and [help] is not one of them, so the property is
    undefined. *)
Definition values_help (values : Values.t) : option JsVal := None.

Section Client.
Variable new_URL : string → Error.t + unit.
Variable new_Request : string → Error.t + Request.t.
Variable parseInt : string → Number.

(** [getArgs()] of part_000: as in src/node-request/request.js, with a
    branch for [values.help] in front. *)
Definition getArgs (parsed : Completion Values.t) : M Config.t :=
  try_catch
    (let* values := lift parsed in
     let* _ :=
       if truthy (values_help values) then
         let* _ := console_log "Parallel HTTP Request Client" in
         let* _ := console_log ("Usage: node parallel-client.js --url <URL> [OPTIONS]"
                                +:+ newline) in
         let* _ := console_log "Options:" in
         let* _ := for_each (λ _ o, console_log (usage_line o)) options () in
         process_exit 0
       else ret () in
     let* url :=
       match Values.url values with
       | Some u => if decide (u = "") then throw (Error.mk "Error" "--url is a required argument.")
                   else ret u
       | None => throw (Error.mk "Error" "--url is a required argument.")
       end in
     let* _ := try_catch (lift_sum (new_URL url))
                 (λ e, throw (Error.mk "Error" ("Invalid URL provided: " +:+ url))) in
     let concurrency := parseInt (Values.concurrency values) in
     let timeout := parseInt (Values.timeout values) in
     let keepAlive := Values.keepalive values in
     let* _ := if isNaN concurrency || Number_lt concurrency 1
               then throw (Error.mk "Error" "--concurrency must be a number greater than 0.")
               else ret () in
     let* _ := if isNaN timeout || Number_lt timeout 1
               then throw (Error.mk "Error" "--timeout must be a number greater than 0.")
               else ret () in
     ret (Config.mk url (Number_value concurrency) (Number_value timeout) keepAlive))
    (λ err,
     let* _ := console_log ("Error: " +:+ Error.message err) in
     let* _ := console_log "Run with --help for usage information." in
     process_exit 1).

(** [main()] of part_000 up to its first [await]. *)
Definition main (parsed : Completion Values.t) (w : World)
  : NodeRequest.Process * list (Event SettledResult) :=
  match getArgs parsed w with
  | (Return config, w1) =>
      match NodeLoop.begin_batch (Part000.singleRequest_begin new_Request) config 1 w1 with
      | (Return s, _) =>
          (NodeRequest.Running config s,
           EvStart 1 :: NodeLoop.launch_events 1 (NodeLoop.requests s))
      | (Throw e, w2) => (NodeRequest.Crashed e w2, [])
      | (Exit c, w2) => (NodeRequest.Exited c w2, [])
      end
  | (Throw e, w1) => (NodeRequest.Crashed e w1, [])
  | (Exit c, w1) => (NodeRequest.Exited c w1, [])
  end.
End Client.
End Part000Main.

(** ** package metrics (the end of src/request/request.go) and
       src/response/response.go *)

Module Http.
(** *** net/http, as far as the server uses it *)

(** What the server reads of a [*http.Request]: [r.Method] and
    [r.URL.Path]. *)
Record Request := mkRequest { Method : string; Path : string }.

Definition StatusOK : Z := 200.

(** The interface [http.ResponseWriter].  [Header()] returns the map of
    the header, which the server only uses to set a key; [Write] returns
    the number of bytes written and an error; [WriteHeader] panics on a
    code that is not a status code ([None]). *)
Class ResponseWriter (W : Type) := {
  Header_Set : string → string → W → W;
  Write : string → W → (Z * option string) * W;
  WriteHeader : Z → W → option W
}.

(** What a handler does to the [ResponseWriter] it is given, call by
    call; what it does next may depend on what [Write] returned. *)
Inductive Handler :=
  | Done                                                   (* the handler returns *)
  | Panic                                                  (* the handler panics *)
  | DoHeaderSet (key value : string) (k : Handler)         (* w.Header().Set(key, value) *)
  | DoWriteHeader (code : Z) (k : Handler)                 (* w.WriteHeader(code) *)
  | DoWrite (data : string) (k : Z * option string → Handler).    (* w.Write(data) *)

(** [h.ServeHTTP(w, r)] for the handler that acts as [h] on [r]: the
    writer when it returns, or [None] when it panics. *)
Fixpoint ServeHTTP {W} `{ResponseWriter W} (h : Handler) (w : W) : option W :=
  match h with
  | Done => Some w
  | Panic => None
  | DoHeaderSet key value k => ServeHTTP k (Header_Set key value w)
  | DoWriteHeader code k =>
      match WriteHeader code w with
      | Some w' => ServeHTTP k w'
      | None => None
      end
  | DoWrite data k => let '(r, w') := Write data w in ServeHTTP (k r) w'
  end.

(** The [ResponseWriter] of the package itself ([*http.response]), as
    its documentation has it: any number of 1xx headers may be written,
    followed by at most one other; a later [WriteHeader] is logged as
    superfluous and dropped; the first [Write] writes the header with
    status 200 if none was written; the header is the map as it is at
    that moment; a HEAD request and the statuses 1xx, 204 and 304 have no
    body.  Keys are taken as given, the server sets one that is in
    canonical form; a declared Content-Length is left out, the server
    declares none. *)
Record response := mkResponse {
  head : bool;                                  (* the request is a HEAD *)
  handlerHeader : gmap string string;           (* the map [Header()] returns *)
  informational : list Z;                       (* the 1xx headers sent *)
  wroteHeader : bool;
  status : Z;
  header : gmap string string;                  (* the header that was written *)
  body : string;
  superfluous : nat                             (* calls of WriteHeader dropped *)
}.

Definition new_response (r : Request) : response :=
  mkResponse (bool_decide (Method r = "HEAD")) ∅ [] false 0 ∅ "" 0.

Definition bodyAllowedForStatus (status : Z) : bool :=
  if bool_decide (100 ≤ status ≤ 199) then false
  else if bool_decide (status = 204) then false
  else if bool_decide (status = 304) then false
  else true.

Definition response_WriteHeader (code : Z) (w : response) : option response :=
  if wroteHeader w then
    Some (mkResponse (head w) (handlerHeader w) (informational w) true (status w)
            (header w) (body w) (S (superfluous w)))
  else if bool_decide (code < 100 ∨ 999 < code) then None
  else if bool_decide (100 ≤ code ≤ 199 ∧ code ≠ 101) then
    Some (mkResponse (head w) (handlerHeader w) (informational w ++ [code]) false (status w)
            (header w) (body w) (superfluous w))
  else
    Some (mkResponse (head w) (handlerHeader w) (informational w) true code
            (handlerHeader w) (body w) (superfluous w)).

Definition response_Write (data : string) (w : response) : (Z * option string) * response :=
  let w := if wroteHeader w then w
           else mkResponse (head w) (handlerHeader w) (informational w) true StatusOK
                  (handlerHeader w) (body w) (superfluous w) in
  if bool_decide (data = "") then ((0, None), w)
  else if negb (bodyAllowedForStatus (status w)) then
    ((0, Some "http: request method or response status code does not allow body"), w)
  else if head w then ((Z.of_nat (String.length data), None), w)
  else ((Z.of_nat (String.length data), None),
        mkResponse (head w) (handlerHeader w) (informational w) true (status w)
          (header w) (body w +:+ data) (superfluous w)).

#[global] Instance response_writer : ResponseWriter response := {
  Header_Set key value w :=
    mkResponse (head w) (<[key := value]> (handlerHeader w)) (informational w)
      (wroteHeader w) (status w) (header w) (body w) (superfluous w);
  Write := response_Write;
  WriteHeader := response_WriteHeader
}.

(** What the client gets when the handler has returned: if nothing was
    written, the server writes the header with status 200. *)
Definition finish (w : response) : response :=
  if wroteHeader w then w
  else mkResponse (head w) (handlerHeader w) (informational w) true StatusOK
         (handlerHeader w) (body w) (superfluous w).
End Http.

Module Metrics.
Import Http.

(** [time.Since(startTime)]: the difference of two readings of the
    monotonic clock, kept within the range of a [time.Duration]. *)
Definition Since (startTime now : Z) : Z :=
  Z.max (- 2 ^ 63) (Z.min (2 ^ 63 - 1) (now - startTime)).

(** The process of the server, as far as the package sees it: the clock,
    the log, and the two collectors.  [httpRequestsTotal] has a counter
    for every triple of label values it was asked for, [handler], [method]
    and [code]; [httpRequestDuration] has for every pair [handler],
    [method] the durations observed, newest last (in nanoseconds: the
    conversion to seconds and the buckets are left out).  A counter is a
    natural number here; the server's is a float64, exact up to 2^53. *)
Record World := mkWorld {
  now : Z;
  output : list GoRequest.Output;
  httpRequestsTotal : gmap (string * string * string) N;
  httpRequestDuration : gmap (string * string) (list Z)
}.

(** The [var] block: [promauto.NewCounterVec] and
    [promauto.NewHistogramVec] make the two collectors, which are empty;
    [t] is the clock then. *)
Definition new_World (t : Z) : World := mkWorld t [] ∅ ∅.

Definition log_Printf (format : string) (args : list GoRequest.Arg) (w : World) : World :=
  mkWorld (now w) (output w ++ [GoRequest.Log format args])
    (httpRequestsTotal w) (httpRequestDuration w).

Definition advance (dt : Z) (w : World) : World :=
  mkWorld (now w + Z.max 0 dt) (output w) (httpRequestsTotal w) (httpRequestDuration w).

(** [httpRequestsTotal.WithLabelValues(handler, method, code).Inc()] *)
Definition Inc (labels : string * string * string) (w : World) : World :=
  mkWorld (now w) (output w)
    (<[labels := (default 0%N (httpRequestsTotal w !! labels) + 1)%N]> (httpRequestsTotal w))
    (httpRequestDuration w).

(** [httpRequestDuration.WithLabelValues(handler, method).Observe(d)] *)
Definition Observe (labels : string * string) (d : Z) (w : World) : World :=
  mkWorld (now w) (output w) (httpRequestsTotal w)
    (<[labels := default [] (httpRequestDuration w !! labels) ++ [d]]> (httpRequestDuration w)).

(** [strconv.Itoa] *)
Definition Itoa (i : Z) : string := pretty i.

(** [type statusResponseWriter struct { http.ResponseWriter; statusCode int }] *)
Record statusResponseWriter (W : Type) := mkSRW {
  ResponseWriter_ : W;                   (* the embedded interface value *)
  statusCode : Z
}.
Arguments mkSRW {W} _ _.
Arguments ResponseWriter_ {W} _.
Arguments statusCode {W} _.

Definition newStatusResponseWriter {W} (w : W) : statusResponseWriter W :=
  mkSRW w StatusOK.

(** The methods of [*statusResponseWriter]: [Header] and [Write] are
    those of the embedded writer, [WriteHeader] is its own. *)
#[global] Instance statusResponseWriter_writer {W} `{ResponseWriter W}
  : ResponseWriter (statusResponseWriter W) := {
  Header_Set key value srw :=
    mkSRW (Header_Set key value (ResponseWriter_ srw)) (statusCode srw);
  Write data srw :=
    let '(r, w') := Write data (ResponseWriter_ srw) in (r, mkSRW w' (statusCode srw));
  WriteHeader code srw :=
    (* srw.statusCode = code; srw.ResponseWriter.WriteHeader(code) *)
    match WriteHeader code (ResponseWriter_ srw) with
    | Some w' => Some (mkSRW w' code)
    | None => None
    end
}.

(** The handler that [PrometheusMiddleware(next, handlerLabel)] returns,
    on the request [r] with the writer [rw], in two parts: down to the
    call of [next.ServeHTTP], which gives the reading of the clock, and
    from that call on.  The writer is [None] when [next] panics: then
    nothing after the call is run. *)
Definition PrometheusMiddleware_begin (r : Request) (w : World) : Z * World :=
  let w := log_Printf "Received request: %s %s"
             [GoRequest.AString (Method r); GoRequest.AString (Path r)] w in
  let startTime := now w in
  (startTime, w).

(** From the call of [next.ServeHTTP] to the second line of the log: the
    wrapped writer as [next] leaves it, with the duration. *)
Definition PrometheusMiddleware_handled {W} `{ResponseWriter W}
    (next : Request → Handler)
    (r : Request) (startTime : Z) (rw : W) (w : World)
  : option (statusResponseWriter W * Z) * World :=
  let srw := newStatusResponseWriter rw in
  match ServeHTTP (next r) srw with
  | None => (None, w)
  | Some srw =>
      let duration := Since startTime (now w) in
      let w := log_Printf "Request handled: Method=%s, Path=%s, Latency=%s"
                 [GoRequest.AString (Method r); GoRequest.AString (Path r);
                  GoRequest.ADuration duration] w in
      (Some (srw, duration), w)
  end.

(** The labels of the counter and of the histogram. *)
Definition counter_labels {W} (handlerLabel : string) (r : Request)
    (srw : statusResponseWriter W) : string * string * string :=
  let method := Method r in
  let code := Itoa (statusCode srw) in
  (handlerLabel, method, code).

Definition histogram_labels (handlerLabel : string) (r : Request) : string * string :=
  (handlerLabel, Method r).

Definition PrometheusMiddleware_end {W} `{ResponseWriter W}
    (next : Request → Handler) (handlerLabel : string)
    (r : Request) (startTime : Z) (rw : W) (w : World) : option W * World :=
  match PrometheusMiddleware_handled next r startTime rw w with
  | (None, w) => (None, w)
  | (Some (srw, duration), w) =>
      let w := Inc (counter_labels handlerLabel r srw) w in
      let w := Observe (histogram_labels handlerLabel r) duration w in
      (Some (ResponseWriter_ srw), w)
  end.

(** The whole handler, when [next] takes [dt] nanoseconds. *)
Definition PrometheusMiddleware {W} `{ResponseWriter W}
    (next : Request → Handler) (handlerLabel : string)
    (r : Request) (dt : Z) (rw : W) (w : World) : option W * World :=
  let '(startTime, w) := PrometheusMiddleware_begin r w in
  PrometheusMiddleware_end next handlerLabel r startTime rw (advance dt w).
End Metrics.

Module MockServer.
Import Http.

(** [init]: the mock response is marshalled once; [marshalled] is what
    [json.Marshal(mockResp)] returns, the bytes or the text of an error.
    With an error [log.Fatalf] ends the process. *)
Definition init (marshalled : string + string) (w : Metrics.World)
  : option string * Metrics.World :=
  match marshalled with
  | inr mockResponseBytes => (Some mockResponseBytes, w)
  | inl err =>
      (None, Metrics.log_Printf "Fatal Error: Failed to marshal mock response: %v"
               [GoRequest.AString err] w)
  end.

(** [mockHandler]; [mockResponseBytes] is what [init] has stored. *)
Definition mockHandler (mockResponseBytes : string) (r : Request) : Handler :=
  DoHeaderSet "Content-Type" "application/json"
    (DoWriteHeader StatusOK
       (DoWrite mockResponseBytes (λ _, Done))).

(** Where the goroutine of a request is: inside [next.ServeHTTP]; past
    the second line of the log, with the writer, the code and the
    duration it has; or past [Inc()]. *)
Inductive Phase :=
  | Handling
  | Handled (rw : response) (labels : string * string * string) (duration : Z)
  | Counted (rw : response) (duration : Z).

Record Conn := mkConn { c_request : Request; c_startTime : Z; c_phase : Phase }.

Record State := mkState {
  world : Metrics.World;
  mockResponseBytes : string;
  conns : list Conn
}.

Inductive Process :=
  | Exited (code : Z) (w : Metrics.World)
  | Serving (s : State).

(** The process from its start down to [http.ListenAndServe], which is
    taken to get the port: the packages are initialised at the time [t],
    [init] runs, then [main]. *)
Definition main (marshalled : string + string) (t : Z) : Process :=
  match init marshalled (Metrics.new_World t) with
  | (None, w) => Exited 1 w
  | (Some bytes, w) =>
      let port := ":8080" in
      let w := Metrics.mkWorld (Metrics.now w)
                 (Metrics.output w
                  ++ [GoRequest.Stdout
                        "Starting high-performance mock server on http://localhost%s\n"
                        [GoRequest.AString port]])
                 (Metrics.httpRequestsTotal w) (Metrics.httpRequestDuration w) in
      Serving (mkState w bytes [])
  end.

(** What the server does for the pattern "/": every request is handled
    in a goroutine of its own by
    [metrics.PrometheusMiddleware(http.HandlerFunc(mockHandler), "root")];
    the goroutines are interleaved at their calls of the logger and of the
    collectors.  The event of a step is the request that was answered,
    with what its client got ([None]: the connection was dropped after a
    panic). *)
Inductive step : State → list (Request * option response) → State → Prop :=
  (** a request arrives [dt] nanoseconds later; its goroutine runs down
      to the call of [next.ServeHTTP] *)
  | step_accept s r dt startTime w' :
      Metrics.PrometheusMiddleware_begin r (Metrics.advance dt (world s)) = (startTime, w') →
      step s [] (mkState w' (mockResponseBytes s) (conns s ++ [mkConn r startTime Handling]))
  (** [next] returns; the goroutine reads the clock and logs *)
  | step_handled s j c dt srw duration w' :
      conns s !! j = Some c →
      c_phase c = Handling →
      Metrics.PrometheusMiddleware_handled (mockHandler (mockResponseBytes s))
        (c_request c) (c_startTime c) (new_response (c_request c))
        (Metrics.advance dt (world s)) = (Some (srw, duration), w') →
      step s []
           (mkState w' (mockResponseBytes s)
              (<[j := mkConn (c_request c) (c_startTime c)
                        (Handled (Metrics.ResponseWriter_ srw)
                           (Metrics.counter_labels "root" (c_request c) srw) duration)]>
                 (conns s)))
  (** [next] panics: the goroutine ends, the connection is dropped *)
  | step_panic s j c dt w' :
      conns s !! j = Some c →
      c_phase c = Handling →
      Metrics.PrometheusMiddleware_handled (mockHandler (mockResponseBytes s))
        (c_request c) (c_startTime c) (new_response (c_request c))
        (Metrics.advance dt (world s)) = (None, w') →
      step s [(c_request c, None)] (mkState w' (mockResponseBytes s) (delete j (conns s)))
  (** [httpRequestsTotal.WithLabelValues(...).Inc()] *)
  | step_inc s j c dt rw labels duration :
      conns s !! j = Some c →
      c_phase c = Handled rw labels duration →
      step s []
           (mkState (Metrics.Inc labels (Metrics.advance dt (world s))) (mockResponseBytes s)
              (<[j := mkConn (c_request c) (c_startTime c) (Counted rw duration)]> (conns s)))
  (** [httpRequestDuration.WithLabelValues(...).Observe(...)]; the
      handler returns and the response is complete *)
  | step_observe s j c dt rw duration :
      conns s !! j = Some c →
      c_phase c = Counted rw duration →
      step s [(c_request c, Some (finish rw))]
           (mkState (Metrics.Observe (Metrics.histogram_labels "root" (c_request c)) duration
                       (Metrics.advance dt (world s)))
              (mockResponseBytes s) (delete j (conns s))).
End MockServer.

(** ** Vocabulary of the further statements, and sample inputs *)

(** *** The Node clients *)

(** The Node client of src/unnamed/part_000 has emitted [tr] and is in
    [s]. *)
Definition part000_run (new_URL : string → Error.t + unit)
    (new_Request : string → Error.t + Request.t) (parseInt : string → Number)
    (parsed : Completion Values.t) (w : World)
    (config : Config.t) (tr : list (Event SettledResult)) (s : NodeLoop.State) : Prop :=
  ∃ s0 ev0,
    Part000Main.main new_URL new_Request parseInt parsed w
    = (NodeRequest.Running config s0, ev0)
    ∧ exec (Part000.step new_Request config) s0 ev0 tr s.

(** What a promise tells about the clock at [t]: a pending request has
    started by then, a fulfilled one has a duration that is not
    negative. *)
Definition promise_timed (t : Z) (pr : Promise) : Prop :=
  match pr with
  | PPending p => p_startTime p ≤ t
  | PFulfilled o => 0 ≤ Outcome.duration o
  | PRejected _ => True
  end.

(** No outcome in the trace has a negative duration. *)
Definition settled_durations (tr : list (Event SettledResult)) : Prop :=
  ∀ k id o, EvSettle k id (fulfilled o) ∈ tr → 0 ≤ Outcome.duration o.

(** The signal that [AbortSignal.timeout(ms)] makes. *)
Definition timeout_signal (ms : Z) : AbortSignal.t :=
  AbortSignal.mk ms (DOMException "The operation was aborted due to timeout" "TimeoutError").

(** A request as src/node-request/request.js hands it to the transport
    for the [Request] object [req]. *)
Definition node_sent (config : Config.t) (req : Request.t) (r : WireRequest) : Prop :=
  w_url r = Request.url req
  ∧ w_method r = "GET"
  ∧ w_signal r = Some (timeout_signal (Config.timeout config))
  ∧ w_keepalive r = false
  ∧ ∃ uuid, w_headers r = [("x-mgc-test-id", uuid)].

(** The outcome of a request that failed before it was sent, with the
    error [e]. *)
Definition failed_at_launch (e : Error.t) (id : Z) : Outcome.t :=
  Outcome.mk Outcome.failed id None
    (Some (if decide (Error.name e = "AbortError") then "Timeout" else Error.message e)) 0.

(** A [new Request] that refuses a URL with credentials in it, as the
    Fetch standard has it, and a command line with such a URL. *)
Definition sample_refusing_Request (url : string) : Error.t + Request.t :=
  inl (TypeError ("Request cannot be constructed from a URL that includes credentials: "
                  +:+ url)).

Definition sample_values_credentials : Values.t :=
  Values.mk (Some "http://user:pw@localhost:8080") "2" "5000" false.

Definition sample_config_credentials : Config.t :=
  Config.mk "http://user:pw@localhost:8080" 2 5000 false.

Definition sample_refused_start : NodeRequest.Process * list (Event SettledResult) :=
  Eval vm_compute in
    NodeRequest.main sample_new_URL sample_refusing_Request sample_parseInt sample_uuids
      (Return sample_values_credentials) world0.

Definition sample_refused_s0 : NodeLoop.State :=
  Eval vm_compute in
    match sample_refused_start.1 with
    | NodeRequest.Running _ s => s
    | _ => NodeLoop.mkState world0 0 [] [] 0 0
    end.

(** The client of src/unnamed/part_000 on the sample command line. *)
Definition sample_part000_start : NodeRequest.Process * list (Event SettledResult) :=
  Eval vm_compute in
    Part000Main.main sample_new_URL sample_new_Request sample_parseInt
      (Return sample_values) world0.

Definition sample_part000_s0 : NodeLoop.State :=
  Eval vm_compute in
    match sample_part000_start.1 with
    | NodeRequest.Running _ s => s
    | _ => NodeLoop.mkState world0 0 [] [] 0 0
    end.

(** *** The Go client *)

(** The requests that have ended in a trace, over all its batches. *)
Definition ended {R} (tr : list (Event R)) : nat := length (omap settle_id tr).

(** The goroutines that are inside [client.Do]. *)
Definition is_in_flight (g : GoRequest.Goroutine) : bool :=
  match GoRequest.g_phase g with GoRequest.InFlight => true | GoRequest.Spawned => false end.

Definition in_flight (gs : list GoRequest.Goroutine) : list GoRequest.Goroutine :=
  filter (λ g, is_in_flight g = true) gs.

(** A request as the Go client gives it to [client.Do]. *)
Definition go_sent (setup : GoRequest.Setup) (r : GoRequest.Req.t) : Prop :=
  GoRequest.Req.Method r = "GET"
  ∧ GoRequest.Req.URL r = GoRequest.url setup
  ∧ ∃ uuid, GoRequest.Req.Header r = [("x-mgc-test-id", uuid)].

(** *** The server *)

(** The calls a handler makes on the writer [w], in their order. *)
Inductive Call :=
  | CHeaderSet (key value : string)
  | CWriteHeader (code : Z)
  | CWrite (data : string).

Fixpoint calls {W} `{Http.ResponseWriter W} (h : Http.Handler) (w : W) : list Call :=
  match h with
  | Http.Done | Http.Panic => []
  | Http.DoHeaderSet key value k =>
      CHeaderSet key value :: calls k (Http.Header_Set key value w)
  | Http.DoWriteHeader code k =>
      CWriteHeader code ::
      match Http.WriteHeader code w with
      | Some w' => calls k w'
      | None => []
      end
  | Http.DoWrite data k =>
      CWrite data :: let '(r, w') := Http.Write data w in calls (k r) w'
  end.

(** The codes that [WriteHeader] was called with. *)
Definition written_codes (cs : list Call) : list Z :=
  omap (λ c, match c with CWriteHeader code => Some code | _ => None end) cs.

(** The server, started at the time [t], has answered the requests of
    [tr], oldest first, and is in [s]. *)
Definition server_run (marshalled : string + string) (t : Z)
    (tr : list (Http.Request * option Http.response)) (s : MockServer.State) : Prop :=
  ∃ s0, MockServer.main marshalled t = MockServer.Serving s0
        ∧ exec MockServer.step s0 [] tr s.

(** The requests of a trace that were made with the method [m]. *)
Definition with_method (m : string) (tr : list (Http.Request * option Http.response))
  : list (Http.Request * option Http.response) :=
  filter (λ ev, Http.Method ev.1 = m) tr.

(** What the client of the mock server gets for the request [r]. *)
Definition mock_response (mockResponseBytes : string) (r : Http.Request) : Http.response :=
  Http.mkResponse (bool_decide (Http.Method r = "HEAD"))
    {[ "Content-Type" := "application/json" ]} [] true 200
    {[ "Content-Type" := "application/json" ]}
    (if bool_decide (Http.Method r = "HEAD") then "" else mockResponseBytes) 0.

(** The requests with the method [m] whose goroutine is between [Inc()]
    and [Observe()]. *)
Definition is_counted (m : string) (c : MockServer.Conn) : bool :=
  bool_decide (Http.Method (MockServer.c_request c) = m)
  && match MockServer.c_phase c with MockServer.Counted _ _ => true | _ => false end.

Definition counted (m : string) (cs : list MockServer.Conn) : list MockServer.Conn :=
  filter (λ c, is_counted m c = true) cs.

(** What holds of the goroutine of a request of the mock server at the
    time [t]: it began in the past; past [next] it holds the response of
    the mock server, the labels of code 200 and a duration that is not
    negative. *)
Definition conn_ok (mockResponseBytes : string) (t : Z) (c : MockServer.Conn) : Prop :=
  MockServer.c_startTime c ≤ t
  ∧ match MockServer.c_phase c with
    | MockServer.Handling => True
    | MockServer.Handled rw labels d =>
        rw = mock_response mockResponseBytes (MockServer.c_request c)
        ∧ labels = ("root", Http.Method (MockServer.c_request c), "200")
        ∧ 0 ≤ d
    | MockServer.Counted rw d =>
        rw = mock_response mockResponseBytes (MockServer.c_request c) ∧ 0 ≤ d
    end.

(** What the scheduler and the clients can do to the server. *)
Inductive ServerAction :=
  | Accept (r : Http.Request) (dt : Z)
  | Next (j : nat) (dt : Z)          (* [next] ends in the goroutine [j] *)
  | DoInc (j : nat) (dt : Z)
  | DoObserve (j : nat) (dt : Z).

Definition server_do (s : MockServer.State) (a : ServerAction)
  : option (list (Http.Request * option Http.response) * MockServer.State) :=
  match a with
  | Accept r dt =>
      let '(startTime, w') :=
        Metrics.PrometheusMiddleware_begin r (Metrics.advance dt (MockServer.world s)) in
      Some ([], MockServer.mkState w' (MockServer.mockResponseBytes s)
                  (MockServer.conns s ++ [MockServer.mkConn r startTime MockServer.Handling]))
  | Next j dt =>
      match MockServer.conns s !! j with
      | Some c =>
          match MockServer.c_phase c with
          | MockServer.Handling =>
              match Metrics.PrometheusMiddleware_handled
                      (MockServer.mockHandler (MockServer.mockResponseBytes s))
                      (MockServer.c_request c) (MockServer.c_startTime c)
                      (Http.new_response (MockServer.c_request c))
                      (Metrics.advance dt (MockServer.world s)) with
              | (Some (srw, duration), w') =>
                  Some ([],
                        MockServer.mkState w' (MockServer.mockResponseBytes s)
                          (<[j := MockServer.mkConn (MockServer.c_request c)
                                    (MockServer.c_startTime c)
                                    (MockServer.Handled (Metrics.ResponseWriter_ srw)
                                       (Metrics.counter_labels "root"
                                          (MockServer.c_request c) srw) duration)]>
                             (MockServer.conns s)))
              | (None, w') =>
                  Some ([(MockServer.c_request c, None)],
                        MockServer.mkState w' (MockServer.mockResponseBytes s)
                          (delete j (MockServer.conns s)))
              end
          | _ => None
          end
      | None => None
      end
  | DoInc j dt =>
      match MockServer.conns s !! j with
      | Some c =>
          match MockServer.c_phase c with
          | MockServer.Handled rw labels duration =>
              Some ([],
                    MockServer.mkState
                      (Metrics.Inc labels (Metrics.advance dt (MockServer.world s)))
                      (MockServer.mockResponseBytes s)
                      (<[j := MockServer.mkConn (MockServer.c_request c)
                                (MockServer.c_startTime c) (MockServer.Counted rw duration)]>
                         (MockServer.conns s)))
          | _ => None
          end
      | None => None
      end
  | DoObserve j dt =>
      match MockServer.conns s !! j with
      | Some c =>
          match MockServer.c_phase c with
          | MockServer.Counted rw duration =>
              Some ([(MockServer.c_request c, Some (Http.finish rw))],
                    MockServer.mkState
                      (Metrics.Observe
                         (Metrics.histogram_labels "root" (MockServer.c_request c)) duration
                         (Metrics.advance dt (MockServer.world s)))
                      (MockServer.mockResponseBytes s) (delete j (MockServer.conns s)))
          | _ => None
          end
      | None => None
      end
  end.

(** A server to run: the mock response is a short text; a GET and a HEAD
    arrive, the HEAD is answered first, and the GET is between [Inc()] and
    [Observe()] at the end. *)
Definition sample_server_start : MockServer.Process :=
  Eval vm_compute in MockServer.main (inr "{}") 0.

Definition sample_server_s0 : MockServer.State :=
  Eval vm_compute in
    match sample_server_start with
    | MockServer.Serving s => s
    | _ => MockServer.mkState (Metrics.new_World 0) "" []
    end.

Definition sample_server_actions : list ServerAction :=
  [Accept (Http.mkRequest "GET" "/") 1000; Accept (Http.mkRequest "HEAD" "/x") 500;
   Next 1 2000; Next 0 3000; DoInc 1 10; DoObserve 1 10; DoInc 0 10].

Definition sample_server_played
  : option (list (Http.Request * option Http.response) * MockServer.State) :=
  Eval vm_compute in play server_do sample_server_s0 sample_server_actions.

Definition sample_server_tr : list (Http.Request * option Http.response) :=
  Eval vm_compute in match sample_server_played with Some (tr, _) => tr | None => [] end.

Definition sample_server_s : MockServer.State :=
  Eval vm_compute in
    match sample_server_played with Some (_, s) => s | None => sample_server_s0 end.

(** * Properties *)

(** ** Requests of the Node clients *)

Ltac run :=
  unfold NodeRequest.singleRequest, NodeRequest.singleRequest_begin,
    NodeRequest.singleRequest_resume, NodeRequest.catch_block,
    Part000.singleRequest, Part000.singleRequest_begin,
    Part000.singleRequest_resume, Part000.catch_block,
    await_fetch, await_text, NodeRequest.randomUUID,
    try_catch, bind, ret, throw, lift, lift_sum, hrtime_bigint, console_log, send;
  simpl.

Lemma timeout_signal_reason ms signal :
  AbortSignal.timeout ms = Return signal →
  AbortSignal.reason signal
  = DOMException "The operation was aborted due to timeout" "TimeoutError".
Proof.
  unfold AbortSignal.timeout. case_bool_decide; [|done].
  intros [= <-]. done.
Qed.

(** The catch block names the failure "Timeout" for an error whose name is
    AbortError, and hands on the message of every other error. *)
Lemma catch_block_reason id startTime error w :
  ∃ w' d,
    NodeRequest.catch_block id startTime error w
    = (Return (Outcome.mk Outcome.failed id None
                 (Some (if decide (Error.name error = "AbortError")
                        then "Timeout" else Error.message error)) d), w').
Proof. run. eauto. Qed.

Lemma resume_aborted p net w :
  aborted net →
  NodeRequest.singleRequest_resume p net w
  = NodeRequest.catch_block (p_id p) (p_startTime p) (AbortSignal.reason (p_signal p)) w.
Proof. intros [-> | [response ->]]; run; done. Qed.

(** C2, at the code: in src/node-request/request.js a request that its
    timeout signal aborts, before the response or during the read of the
    body, resolves to a failed outcome whose reason is the message of the
    signal's TimeoutError, "The operation was aborted due to timeout", and
    not "Timeout": the catch block tests for the name AbortError. *)
Theorem C2_timeout_reason_is_signal_message ms p net w :
  AbortSignal.timeout ms = Return (p_signal p) →
  aborted net →
  ∃ w' d,
    NodeRequest.singleRequest_resume p net w
    = (Return (Outcome.mk Outcome.failed (p_id p) None
                 (Some "The operation was aborted due to timeout") d), w').
Proof.
  intros Hsig Hab. rewrite resume_aborted by done.
  destruct (catch_block_reason (p_id p) (p_startTime p)
              (AbortSignal.reason (p_signal p)) w) as (w' & d & ->).
  rewrite (timeout_signal_reason _ _ Hsig). simpl. eauto.
Qed.

Lemma C2_timeout_reason_witness :
  ∃ w' d,
    NodeRequest.singleRequest_resume (mkPending 1 0 signal5000) FetchAborted
      (advance 5000000000 world0)
    = (Return (Outcome.mk Outcome.failed 1 None
                 (Some "The operation was aborted due to timeout") d), w').
Proof.
  apply (C2_timeout_reason_is_signal_message 5000 (mkPending 1 0 signal5000)).
  - reflexivity.
  - left. reflexivity.
Defined.

Lemma call_timeout_AbortSignal ms :
  call_timeout "AbortSignal" ms = AbortSignal.timeout ms.
Proof. reflexivity. Qed.

Lemma call_timeout_AbortController ms :
  call_timeout "AbortController" ms
  = Throw (TypeError "AbortController.timeout is not a function").
Proof. reflexivity. Qed.

Lemma resume_response p response body w :
  ∃ w' d,
    NodeRequest.singleRequest_resume p (FetchResolves response (TextResolves body)) w
    = (Return
         (if bool_decide (200 ≤ Response.status response ≤ 299)
          then Outcome.mk Outcome.success (p_id p) (Some (Response.status response)) None d
          else Outcome.mk Outcome.failed (p_id p) None
                 (Some ("HTTP " +:+ pretty (Response.status response))) d), w').
Proof.
  run. unfold Response.ok. case_bool_decide; simpl; eauto.
Qed.

Lemma part000_resume_response p response body w :
  ∃ w' d,
    Part000.singleRequest_resume p (FetchResolves response (TextResolves body)) w
    = (Return
         (if bool_decide (200 ≤ Response.status response ≤ 299)
          then Outcome.mk Outcome.success (p_id p) (Some (Response.status response)) None d
          else Outcome.mk Outcome.failed (p_id p) None
                 (Some ("HTTP " +:+ pretty (Response.status response))) d), w').
Proof.
  run. unfold Response.ok. case_bool_decide; simpl; eauto.
Qed.

Lemma go_end_response id resp w :
  GoRequest.makeRequest_end id (GoRequest.DoResponse resp None) w
  = (GoRequest.print
       (GoRequest.Log "[Request %d] Finished with status: %s\n"
          [GoRequest.AInt id; GoRequest.AString (GoRequest.Resp.Status resp)]) w,
     GoRequest.ReportFinished (GoRequest.Resp.Status resp)).
Proof. reflexivity. Qed.



(** A request to a target that answers 500 settles as failed with the
    reason "HTTP 500" in the Node client. *)
Example node_http_500 :
  (NodeRequest.singleRequest_resume (mkPending 1 0 signal5000)
     (FetchResolves (Response.mk 500) (TextResolves "")) (advance 3000000 world0)).1
  = Return (Outcome.mk Outcome.failed 1 None (Some "HTTP 500") 3).
Proof. reflexivity. Qed.

(** The synchronous part of a request of src/node-request/request.js ends
    in a pending or a fulfilled promise when the timeout is not negative. *)
Lemma node_begin_returns new_Request uuids id url config w :
  0 ≤ Config.timeout config →
  ∃ l w', NodeRequest.singleRequest_begin new_Request uuids id url config w = (Return l, w')
          ∧ match l with
            | Awaiting p =>
                p_id p = id
                ∧ AbortSignal.timeout (Config.timeout config) = Return (p_signal p)
            | Settled o => Outcome.id o = id ∧ Outcome.status o = Outcome.failed
            end.
Proof.
  intros Ht. unfold NodeRequest.singleRequest_begin.
  rewrite call_timeout_AbortSignal. unfold AbortSignal.timeout.
  rewrite bool_decide_eq_true_2 by done.
  run. destruct (new_Request url); simpl;
    (eexists _, _; split; [reflexivity | simpl; auto]).
Qed.

(** What is left of a request after its [await] always ends in an
    outcome that carries the id of the request. *)
Lemma node_resume_returns p net w :
  ∃ o w', NodeRequest.singleRequest_resume p net w = (Return o, w')
          ∧ Outcome.id o = p_id p.
Proof.
  run. destruct net as [e | | response [body | e |]]; simpl;
    try (eexists _, _; split; [reflexivity | done]).
  destruct (negb (Response.ok response)); simpl;
    (eexists _, _; split; [reflexivity | done]).
Qed.

Lemma node_singleRequest_returns new_Request uuids id url config dt net w :
  0 ≤ Config.timeout config →
  ∃ o w', NodeRequest.singleRequest new_Request uuids id url config dt net w = (Return o, w')
          ∧ Outcome.id o = id.
Proof.
  intros Ht. unfold NodeRequest.singleRequest, bind.
  destruct (node_begin_returns new_Request uuids id url config w Ht) as (l & w1 & -> & Hl).
  destruct l as [p | o].
  - destruct Hl as [<- _]. apply node_resume_returns.
  - destruct Hl as [<- _]. unfold ret. eauto.
Qed.

Lemma part000_begin_rejects new_Request id url config w :
  call_async (Part000.singleRequest_begin new_Request id url config) w
  = (Return (PRejected (TypeError "AbortController.timeout is not a function")), w).
Proof.
  unfold call_async, Part000.singleRequest_begin.
  rewrite call_timeout_AbortController. reflexivity.
Qed.

Lemma part000_for_each_rejected new_Request config xs acc w :
  for_each
    (λ requests i,
     let* p := call_async (Part000.singleRequest_begin new_Request (i + 1)
                             (Config.url config) config) in
     ret (requests ++ [p])) xs acc w
  = (Return (acc ++ replicate (length xs)
               (PRejected (TypeError "AbortController.timeout is not a function"))), w).
Proof.
  revert acc. induction xs as [|x xs IH]; intros acc; simpl.
  - by rewrite app_nil_r.
  - unfold bind at 1. unfold bind at 1.
    rewrite part000_begin_rejects. simpl.
    rewrite IH. by rewrite <- app_assoc.
Qed.

(** In src/unnamed/part_000 a whole batch is launched without a request
    being sent: all its promises are rejected at once. *)
Lemma part000_launch_all_rejected new_Request config w :
  NodeLoop.launch (Part000.singleRequest_begin new_Request) config w
  = (Return (replicate (Z.to_nat (Config.concurrency config))
               (PRejected (TypeError "AbortController.timeout is not a function"))), w).
Proof.
  unfold NodeLoop.launch. rewrite part000_for_each_rejected. by rewrite length_seqZ.
Qed.

(** C5, at the code: in src/unnamed/part_000 every call of
    [singleRequest] throws the TypeError of the call of the undefined
    [AbortController.timeout], before the [try] block is entered; the
    promise the caller gets is rejected and no request is sent. *)
Theorem C5_part000_singleRequest_rejects new_Request id url config w :
  call_async (Part000.singleRequest_begin new_Request id url config) w
  = (Return (PRejected (TypeError "AbortController.timeout is not a function")), w).
Proof.
  unfold call_async, Part000.singleRequest_begin, bind at 1.
  unfold hrtime_bigint at 1. unfold bind at 1.
  rewrite call_timeout_AbortController. unfold lift. reflexivity.
Qed.

(** ** The configuration *)

(** The signal of every request of src/node-request/request.js that is
    sent carries the configured timeout as its delay. *)
Lemma node_request_signal_delay new_Request uuids id url config w p w' :
  NodeRequest.singleRequest_begin new_Request uuids id url config w = (Return (Awaiting p), w') →
  AbortSignal.delay (p_signal p) = Config.timeout config.
Proof.
  unfold NodeRequest.singleRequest_begin.
  rewrite call_timeout_AbortSignal. unfold AbortSignal.timeout.
  case_bool_decide; run; [|done].
  destruct (new_Request url); simpl; intros [= <- <-]. done.
Qed.

(** In the Go client the flag [-ms] is read before [flag.Parse()] has run:
    what is read is its default. *)
Lemma go_ms_read_before_parse :
  GoRequest.deref_Int "ms"
    (GoRequest.flag_Int "ms" 2000
       (GoRequest.flag_Int "n" 10
          (GoRequest.flag_Bool "keepalive" false
             (GoRequest.flag_String "url" "http://localhost:8080" ∅).2).2).2).2
  = 2000.
Proof. reflexivity. Qed.

(** C4, at the code: whatever the command line of the Go client says,
    also about [-ms], the timeout of its HTTP client is 2000 ms: [*ms] is
    read before [flag.Parse()]. *)
Theorem C4_go_timeout_ignores_flag args w setup s :
  GoRequest.main args w = GoRequest.Running setup s →
  GoRequest.Client.Timeout (GoRequest.client setup) = 2000 * GoRequest.Millisecond.
Proof.
  unfold GoRequest.main. simpl.
  destruct (GoRequest.flag_Parse args _) as [fs|]; [|done].
  intros [= <- _]. reflexivity.
Qed.

Lemma C4_go_timeout_witness :
  ∃ setup s,
    GoRequest.main [("ms", GoRequest.FInt 500)] go_world0 = GoRequest.Running setup s
    ∧ GoRequest.Client.Timeout (GoRequest.client setup) = 2000000000.
Proof.
  eexists _, _. split; [reflexivity|].
  eapply (C4_go_timeout_ignores_flag [("ms", GoRequest.FInt 500)] go_world0).
  reflexivity.
Defined.

Example sample_parseInt_values :
  sample_parseInt "10" = Num 10 ∧ sample_parseInt "0" = Num 0
  ∧ sample_parseInt "-5" = Num (-5) ∧ sample_parseInt "abc" = NaN.
Proof. repeat split; reflexivity. Qed.

(** [getArgs] ends the process with code 1 when the concurrency or the
    timeout it has parsed is an integer below 1. *)
Lemma getArgs_rejects new_URL parseInt values w :
  (∃ z, parseInt (Values.concurrency values) = Num z ∧ z ≤ 0)
  ∨ (∃ z, parseInt (Values.timeout values) = Num z ∧ z ≤ 0) →
  ∃ w', NodeRequest.getArgs new_URL parseInt (Return values) w = (Exit 1, w').
Proof.
  intros Hbad. unfold NodeRequest.getArgs.
  unfold try_catch, bind, lift, lift_sum, ret, throw, process_exit, console_log; simpl.
  destruct (Values.url values) as [u|]; simpl; [|eauto].
  destruct (decide (u = "")); simpl; [eauto|].
  destruct (new_URL u); simpl; [eauto|].
  destruct Hbad as [(z & -> & Hz) | (z & Hz1 & Hz)]; simpl.
  - rewrite bool_decide_eq_true_2 by lia. simpl. eauto.
  - destruct (isNaN _ || Number_lt _ 1); simpl; [eauto|].
    rewrite Hz1. simpl. rewrite bool_decide_eq_true_2 by lia. simpl. eauto.
Qed.

(** The Go client stores whatever integers [-n] and [-ms] give and goes on
    to its loop. *)
Lemma go_main_runs n ms w :
  GoRequest.in_int n = true → GoRequest.in_int ms = true →
  ∃ setup s,
    GoRequest.main [("n", GoRequest.FInt n); ("ms", GoRequest.FInt ms)] w
    = GoRequest.Running setup s
    ∧ GoRequest.numRequests setup = n
    ∧ GoRequest.batchNumber s = 1
    ∧ GoRequest.pc s = GoRequest.Launching 0
    ∧ last (GoRequest.output (GoRequest.world s))
      = Some (GoRequest.Stdout "\n--- Starting Batch %d ---\n" [GoRequest.AInt 1]).
Proof.
  intros Hn Hms. unfold GoRequest.main. simpl.
  unfold GoRequest.set_flag.
  rewrite lookup_insert_ne by done. rewrite lookup_insert_eq. rewrite Hn.
  rewrite lookup_insert_ne by done. rewrite lookup_insert_eq. rewrite Hms.
  eexists _, _. split; [reflexivity|]. simpl.
  split; [|split; [done|split; [done|]]].
  - unfold GoRequest.deref_Int.
    rewrite lookup_insert_ne by done. by rewrite lookup_insert_eq.
  - by rewrite last_snoc.
Qed.

(** C6, as the claim has it, fails on the Go client: with [-n=0] it prints
    that batch 1 starts and is in its loop. *)
Lemma C6_go_starts_the_loop : ¬ go_fails_fast.
Proof.
  intros H. destruct (H 0 2000 go_world0) as [code Hcode]; [lia|done|done|].
  discriminate Hcode.
Qed.

(** C6, amended: when the concurrency or the timeout that [getArgs] has
    parsed is an integer below 1, the Node client ends with exit code 1
    before any batch is launched; the Go client checks neither value and
    enters its loop with them. *)
Theorem C6_node_fails_fast_go_does_not :
  (∀ new_URL new_Request parseInt uuids values w,
     (∃ z, parseInt (Values.concurrency values) = Num z ∧ z ≤ 0)
     ∨ (∃ z, parseInt (Values.timeout values) = Num z ∧ z ≤ 0) →
     ∃ w', NodeRequest.main new_URL new_Request parseInt uuids (Return values) w
           = (NodeRequest.Exited 1 w', []))
  ∧ (∀ n ms w,
     GoRequest.in_int n = true → GoRequest.in_int ms = true →
     ∃ setup s,
       GoRequest.main [("n", GoRequest.FInt n); ("ms", GoRequest.FInt ms)] w
       = GoRequest.Running setup s
       ∧ GoRequest.numRequests setup = n
       ∧ GoRequest.batchNumber s = 1
       ∧ GoRequest.pc s = GoRequest.Launching 0
       ∧ last (GoRequest.output (GoRequest.world s))
         = Some (GoRequest.Stdout "\n--- Starting Batch %d ---\n" [GoRequest.AInt 1])).
Proof.
  split.
  - intros new_URL new_Request parseInt uuids values w Hbad.
    destruct (getArgs_rejects new_URL parseInt values w Hbad) as [w' Hw'].
    exists w'. unfold NodeRequest.main. by rewrite Hw'.
  - apply go_main_runs.
Qed.

Lemma C6_witness :
  (∃ w', NodeRequest.main sample_new_URL sample_new_Request sample_parseInt sample_uuids
           (Return (Values.mk (Some "http://localhost:8080") "0" "5000" false)) world0
         = (NodeRequest.Exited 1 w', []))
  ∧ (∃ setup s,
       GoRequest.main [("n", GoRequest.FInt 0); ("ms", GoRequest.FInt (-5))] go_world0
       = GoRequest.Running setup s
       ∧ GoRequest.numRequests setup = 0
       ∧ GoRequest.batchNumber s = 1
       ∧ GoRequest.pc s = GoRequest.Launching 0
       ∧ last (GoRequest.output (GoRequest.world s))
         = Some (GoRequest.Stdout "\n--- Starting Batch %d ---\n" [GoRequest.AInt 1])).
Proof.
  split.
  - apply (proj1 C6_node_fails_fast_go_does_not).
    left. exists 0. split; [reflexivity | lia].
  - apply (proj2 C6_node_fails_fast_go_does_not); reflexivity.
Defined.

(** ** Traces and the loops *)

(** *** Traces *)

Lemma current_snoc {R} (tr : list (Event R)) e :
  current (tr ++ [e]) = match e with EvStart _ => [] | _ => current tr ++ [e] end.
Proof. unfold current. by rewrite foldl_app. Qed.

Lemma current_app_quiet {R} (tr ev : list (Event R)) :
  omap start_number ev = [] →
  current (tr ++ ev) = current tr ++ ev.
Proof.
  induction ev as [|e ev IH] using rev_ind; intros Hq.
  - by rewrite !app_nil_r.
  - rewrite omap_app in Hq. apply app_eq_nil in Hq as [Hq1 Hq2].
    rewrite app_assoc, current_snoc, IH by done.
    destruct e; simpl in *; try done; by rewrite app_assoc.
Qed.

Lemma current_app_start {R} (tr pre post : list (Event R)) k :
  omap start_number post = [] →
  current (tr ++ pre ++ EvStart k :: post) = post.
Proof.
  intros Hq.
  replace (tr ++ pre ++ EvStart k :: post) with (((tr ++ pre) ++ [EvStart k]) ++ post)
    by (by rewrite <- !app_assoc).
  rewrite current_app_quiet by done. by rewrite current_snoc.
Qed.

Lemma current_start {R} (pre post : list (Event R)) k :
  omap start_number post = [] →
  current (pre ++ EvStart k :: post) = post.
Proof. apply (current_app_start []). Qed.

(** *** The loop of the Node clients *)

Lemma launch_events_snoc k reqs pr :
  NodeLoop.launch_events k (reqs ++ [pr])
  = NodeLoop.launch_events k reqs
    ++ EvLaunch k (Z.of_nat (length reqs) + 1)
       :: match settled_of pr with
          | Some r => [EvSettle k (Z.of_nat (length reqs) + 1) r]
          | None => []
          end.
Proof.
  unfold NodeLoop.launch_events. rewrite imap_app, join_app. simpl.
  by rewrite Nat.add_0_r, app_nil_r.
Qed.

Lemma launch_events_quiet k reqs :
  omap start_number (NodeLoop.launch_events k reqs) = [].
Proof.
  induction reqs as [|pr reqs IH] using rev_ind; [done|].
  rewrite launch_events_snoc, omap_app, IH. simpl.
  by destruct (settled_of pr).
Qed.

Lemma launch_events_launched k reqs :
  omap launch_id (NodeLoop.launch_events k reqs) = seqZ 1 (Z.of_nat (length reqs)).
Proof.
  induction reqs as [|pr reqs IH] using rev_ind; [done|].
  rewrite launch_events_snoc, omap_app, IH, length_app. simpl.
  replace (length reqs + 1)%nat with (S (length reqs)) by lia.
  rewrite seqZ_S. f_equal.
  destruct (settled_of pr); simpl; f_equal; lia.
Qed.

Lemma launch_events_settled k reqs i pr :
  reqs !! i = Some pr → NodeLoop.is_pending pr = false →
  Z.of_nat i + 1 ∈ omap settle_id (NodeLoop.launch_events k reqs).
Proof.
  induction reqs as [|pr' reqs IH] using rev_ind; [done|].
  intros Hi Hp. rewrite launch_events_snoc, omap_app, elem_of_app.
  apply lookup_app_Some in Hi as [Hi | [Hlen Hi]].
  - left. by apply IH.
  - right. apply list_lookup_singleton_Some in Hi as [Hi ->].
    replace i with (length reqs) by lia.
    destruct pr; simpl in *; [done| |]; constructor.
Qed.

Lemma quiet_no_start {R} (ev : list (Event R)) j k :
  omap start_number ev = [] → ev !! j = Some (EvStart k) → False.
Proof.
  intros Hq Hj. assert (k ∈ omap start_number ev) as Hin.
  { apply list_elem_of_omap. exists (EvStart k). split; [|done].
    by eapply list_elem_of_lookup_2. }
  rewrite Hq in Hin. by apply not_elem_of_nil in Hin.
Qed.

Lemma launched_app_quiet {R} (tr ev : list (Event R)) :
  omap start_number ev = [] →
  launched (tr ++ ev) = launched tr ++ omap launch_id ev.
Proof. intros. unfold launched. by rewrite current_app_quiet, omap_app. Qed.

Lemma settled_app_quiet {R} (tr ev : list (Event R)) :
  omap start_number ev = [] →
  settled (tr ++ ev) = settled tr ++ omap settle_id ev.
Proof. intros. unfold settled. by rewrite current_app_quiet, omap_app. Qed.

Lemma starts_app {R} (tr ev : list (Event R)) :
  starts (tr ++ ev) = starts tr ++ starts ev.
Proof. apply omap_app. Qed.

Lemma sequenced_app_quiet {R} next (tr ev : list (Event R)) :
  omap start_number ev = [] → tr ≠ [] →
  sequenced next tr → sequenced next (tr ++ ev).
Proof.
  intros Hq Hne Hseq j k' Hj.
  apply lookup_app_Some in Hj as [Hj | [_ Hj]].
  - destruct (Hseq j k' Hj) as (k & H1 & H2 & H3 & H4).
    assert (j < length tr)%nat by (apply lookup_lt_Some in Hj; lia).
    exists k. rewrite lookup_app_l by done.
    rewrite take_app_le by lia. done.
  - by apply quiet_no_start in Hj.
Qed.

(** The step that joins a batch and starts the next keeps batches apart. *)
Lemma sequenced_app_join {R} next (tr post : list (Event R)) k :
  omap start_number post = [] → tr ≠ [] →
  last (starts tr) = Some k →
  (∀ id, id ∈ launched tr → id ∈ settled tr) →
  sequenced next tr →
  sequenced next (tr ++ EvJoin k :: EvStart (next k) :: post).
Proof.
  intros Hq Hne Hlast Hall Hseq j k' Hj.
  apply lookup_app_Some in Hj as [Hj | [Hlen Hj]].
  - destruct (Hseq j k' Hj) as (k0 & H1 & H2 & H3 & H4).
    assert (j < length tr)%nat by (apply lookup_lt_Some in Hj; lia).
    exists k0. rewrite lookup_app_l by done.
    rewrite take_app_le by lia. done.
  - destruct (S j - length tr)%nat as [|[|n]] eqn:Hn; simpl in Hj.
    + done.
    + injection Hj as <-. assert (j = length tr) as -> by lia.
      exists k. rewrite list_lookup_middle by done.
      rewrite take_app_length. done.
    + by apply quiet_no_start in Hj.
Qed.

Lemma sequenced_first {R} next (post : list (Event R)) k :
  omap start_number post = [] → sequenced next (EvStart k :: post).
Proof. intros Hq j k' Hj. simpl in Hj. by apply quiet_no_start in Hj. Qed.

Lemma filter_insert_count {A} (P : A → Prop) `{∀ x, Decision (P x)} (l : list A) i x y :
  l !! i = Some x → P x → ¬ P y →
  length (filter P (<[i:=y]> l)) = pred (length (filter P l)).
Proof.
  intros Hi Hx Hy.
  rewrite <- (take_drop_middle l i x Hi) at 2.
  rewrite insert_take_drop by (by eapply lookup_lt_Some).
  rewrite !filter_app, !length_app.
  rewrite filter_cons_False, filter_cons_True by done. simpl. lia.
Qed.

Lemma filter_none_pending reqs i pr :
  length (filter (λ p, NodeLoop.is_pending p = true) reqs) = 0%nat →
  reqs !! i = Some pr → NodeLoop.is_pending pr = false.
Proof.
  intros Hlen Hi. apply length_zero_iff_nil in Hlen.
  destruct (NodeLoop.is_pending pr) eqn:Hp; [|done].
  assert (pr ∈ filter (λ p, NodeLoop.is_pending p = true) reqs) as Hin.
  { apply list_elem_of_filter. split; [done|]. by eapply list_elem_of_lookup_2. }
  rewrite Hlen in Hin. by apply not_elem_of_nil in Hin.
Qed.

Lemma starts_start_quiet {R} (pre post : list (Event R)) k :
  omap start_number post = [] →
  starts (pre ++ EvStart k :: post) = starts pre ++ [k].
Proof.
  intros Hq. unfold starts. rewrite omap_app.
  change (omap start_number (EvStart k :: post)) with (k :: omap start_number post).
  by rewrite Hq.
Qed.

Lemma seqZ_of_to_nat m c : seqZ m (Z.of_nat (Z.to_nat c)) = seqZ m c.
Proof. unfold seqZ. by rewrite Nat2Z.id. Qed.

Lemma last_seqZ_1 k : 1 ≤ k → last (seqZ 1 k) = Some k.
Proof.
  intros Hk. replace k with (Z.of_nat (S (Z.to_nat (k - 1)))) at 1 by lia.
  rewrite seqZ_S, last_snoc. f_equal. lia.
Qed.

Lemma seqZ_1_succ k : 0 ≤ k → seqZ 1 (Z.succ k) = seqZ 1 k ++ [Z.succ k].
Proof.
  intros Hk. replace (Z.succ k) with (Z.of_nat (S (Z.to_nat k))) at 1 by lia.
  rewrite seqZ_S, seqZ_of_to_nat. do 2 f_equal. lia.
Qed.

Section NodeLoopFacts.
Context (begin : Z → string → Config.t → M Launched)
        (resume : Pending → FetchResult → M Outcome.t)
        (config : Config.t).
Hypothesis begin_ok : ∀ id w, ∃ l w',
  begin id (Config.url config) config w = (Return l, w') ∧ launched_id l = id.
Hypothesis resume_ok : ∀ p net w, ∃ o w',
  resume p net w = (Return o, w') ∧ Outcome.id o = p_id p.

Lemma call_async_begin id w :
  ∃ pr w', call_async (begin id (Config.url config) config) w = (Return pr, w')
           ∧ promise_id pr = Some id.
Proof.
  destruct (begin_ok id w) as (l & w' & Hl & Hid).
  unfold call_async. rewrite Hl. destruct l; simpl in *; subst; eauto.
Qed.

Lemma for_each_launch xs acc w :
  ∃ rs w',
    for_each
      (λ requests i,
       let* p := call_async (begin (i + 1) (Config.url config) config) in
       ret (requests ++ [p])) xs acc w
    = (Return (acc ++ rs), w')
    ∧ Forall2 (λ x pr, promise_id pr = Some (x + 1)) xs rs.
Proof.
  revert acc w. induction xs as [|x xs IH]; intros acc w; simpl.
  - exists [], w. by rewrite app_nil_r.
  - unfold bind at 1. unfold bind at 1.
    destruct (call_async_begin (x + 1) w) as (pr & w1 & -> & Hid). simpl.
    destruct (IH (acc ++ [pr]) w1) as (rs & w' & -> & Hrs).
    exists (pr :: rs), w'. rewrite <- app_assoc. split; [done|].
    by constructor.
Qed.

Lemma launch_spec w :
  ∃ reqs w',
    NodeLoop.launch begin config w = (Return reqs, w')
    ∧ length reqs = Z.to_nat (Config.concurrency config)
    ∧ ∀ i pr, reqs !! i = Some pr → promise_id pr = Some (Z.of_nat i + 1).
Proof.
  unfold NodeLoop.launch.
  destruct (for_each_launch (seqZ 0 (Config.concurrency config)) [] w)
    as (rs & w' & -> & Hrs).
  exists rs, w'. split; [done|]. split.
  - apply Forall2_length in Hrs. by rewrite <- Hrs, length_seqZ.
  - intros i pr Hi.
    destruct (Forall2_lookup_r _ _ _ _ _ Hrs Hi) as (x & Hx & Hid).
    apply lookup_seqZ in Hx as [-> _]. rewrite Hid. f_equal; lia.
Qed.

Lemma begin_batch_spec k w :
  ∃ s w',
    NodeLoop.begin_batch begin config k w = (Return s, w')
    ∧ NodeLoop.batch s = k
    ∧ length (NodeLoop.requests s) = Z.to_nat (Config.concurrency config)
    ∧ NodeLoop.values s = settled_of <$> NodeLoop.requests s
    ∧ NodeLoop.remaining s
      = length (filter (λ p, NodeLoop.is_pending p = true) (NodeLoop.requests s))
    ∧ ∀ i pr, NodeLoop.requests s !! i = Some pr → promise_id pr = Some (Z.of_nat i + 1).
Proof.
  unfold NodeLoop.begin_batch, bind at 1.
  destruct (launch_spec w) as (reqs & w1 & -> & Hlen & Hids).
  unfold bind, hrtime_bigint. eexists _, _. split; [reflexivity|]. simpl. auto.
Qed.

(** A batch that has just been launched, after any earlier trace. *)
Lemma node_inv_fresh pre k s :
  NodeLoop.batch s = k →
  length (NodeLoop.requests s) = Z.to_nat (Config.concurrency config) →
  NodeLoop.values s = settled_of <$> NodeLoop.requests s →
  NodeLoop.remaining s
  = length (filter (λ p, NodeLoop.is_pending p = true) (NodeLoop.requests s)) →
  (∀ i pr, NodeLoop.requests s !! i = Some pr → promise_id pr = Some (Z.of_nat i + 1)) →
  1 ≤ k →
  starts pre = seqZ 1 (k - 1) →
  sequenced Z.succ (pre ++ EvStart k :: NodeLoop.launch_events k (NodeLoop.requests s)) →
  node_inv config (pre ++ EvStart k :: NodeLoop.launch_events k (NodeLoop.requests s)) s.
Proof.
  intros Hb Hlen Hval Hrem Hids Hk Hst Hseq.
  pose proof (launch_events_quiet k (NodeLoop.requests s)) as Hq.
  split; try done.
  - unfold launched.
    rewrite current_start by done.
    by rewrite launch_events_launched, Hlen, seqZ_of_to_nat.
  - intros i pr Hi Hp. unfold settled.
    rewrite current_start by done.
    by eapply launch_events_settled.
  - lia.
  - rewrite starts_start_quiet by done. rewrite Hst, Hb.
    replace k with (Z.succ (k - 1)) at 2 3 by lia.
    rewrite seqZ_1_succ by lia. done.
Qed.

Lemma node_inv_ne tr s : node_inv config tr s → tr ≠ [].
Proof.
  intros [_ _ _ _ _ _ Hb Hst _] ->. unfold starts in Hst. simpl in Hst.
  rewrite seqZ_cons in Hst by lia. done.
Qed.

Lemma node_inv_step tr s ev s' :
  node_inv config tr s →
  NodeLoop.step begin resume config s ev s' →
  node_inv config (tr ++ ev) s'.
Proof.
  intros Hinv Hstep. pose proof (node_inv_ne _ _ Hinv) as Hne.
  destruct Hinv as [Hlen Hval Hrem Hids Hla Hse Hb Hst Hseq].
  destruct Hstep as [s i p dt net c w' pr r Hi Hres Hpr Hr | s dt w1 s' w2 Hz Hend Hbeg].
  - destruct (resume_ok p net (advance dt (NodeLoop.world s))) as (o & w'' & Ho & Hid).
    rewrite Ho in Hres. injection Hres as <- <-. simpl in Hpr. injection Hpr as <-.
    simpl in Hr. injection Hr as <-.
    pose proof (Hids i _ Hi) as Hpid. simpl in Hpid. injection Hpid as Hpid.
    split; simpl.
    + by rewrite length_insert.
    + by rewrite list_fmap_insert, Hval.
    + rewrite Hrem. symmetry. by eapply filter_insert_count.
    + intros j pr' Hj. destruct (decide (i = j)) as [<- | Hne'].
      * rewrite list_lookup_insert_eq in Hj by (by eapply lookup_lt_Some).
        injection Hj as <-. simpl. f_equal. lia.
      * rewrite list_lookup_insert_ne in Hj by done. eauto.
    + by rewrite launched_app_quiet, app_nil_r.
    + intros j pr' Hj Hp. rewrite settled_app_quiet by done. simpl.
      apply elem_of_app. destruct (decide (i = j)) as [<- | Hne'].
      * right. constructor.
      * rewrite list_lookup_insert_ne in Hj by done. left. eauto.
    + done.
    + by rewrite starts_app, app_nil_r.
    + by apply sequenced_app_quiet.
  - destruct (begin_batch_spec (NodeLoop.batch s + 1) w1)
      as (s'' & w'' & Hb' & Hk' & Hlen' & Hval' & Hrem' & Hids').
    rewrite Hb' in Hbeg. injection Hbeg as <- <-.
    assert (∀ id, id ∈ launched tr → id ∈ settled tr) as Hall.
    { intros id Hin. rewrite Hla in Hin. apply elem_of_seqZ in Hin.
      assert (is_Some (NodeLoop.requests s !! Z.to_nat (id - 1))) as [pr Hpr].
      { apply lookup_lt_is_Some. lia. }
      replace id with (Z.of_nat (Z.to_nat (id - 1)) + 1) by lia.
      eapply Hse; [done|]. eapply filter_none_pending; [|done]. congruence. }
    replace (tr ++ EvJoin (NodeLoop.batch s) :: EvStart (NodeLoop.batch s + 1)
               :: NodeLoop.launch_events (NodeLoop.batch s + 1) (NodeLoop.requests s''))
      with ((tr ++ [EvJoin (NodeLoop.batch s)]) ++ EvStart (NodeLoop.batch s + 1)
              :: NodeLoop.launch_events (NodeLoop.batch s + 1) (NodeLoop.requests s''))
      by (by rewrite <- app_assoc).
    apply node_inv_fresh; try done.
    + lia.
    + rewrite starts_app, app_nil_r, Hst. f_equal. lia.
    + rewrite <- app_assoc. simpl.
      apply (sequenced_app_join Z.succ); try done.
      * apply launch_events_quiet.
      * rewrite Hst. by apply last_seqZ_1.
Qed.

End NodeLoopFacts.

(** *** Runs of src/node-request/request.js *)

(** A configuration that [getArgs] returns has a concurrency and a timeout
    of at least 1. *)
Lemma getArgs_valid new_URL parseInt parsed w config w' :
  NodeRequest.getArgs new_URL parseInt parsed w = (Return config, w') →
  1 ≤ Config.concurrency config ∧ 1 ≤ Config.timeout config.
Proof.
  unfold NodeRequest.getArgs.
  unfold try_catch, bind, lift, lift_sum, ret, throw, process_exit, console_log; simpl.
  destruct parsed as [values | e | code]; simpl; try done.
  destruct (Values.url values) as [u|]; simpl; [|done].
  destruct (decide (u = "")); simpl; [done|].
  destruct (new_URL u); simpl; [done|].
  destruct (parseInt (Values.concurrency values)) as [|c]; simpl; [done|].
  case_bool_decide; simpl; [done|].
  destruct (parseInt (Values.timeout values)) as [|t]; simpl; [done|].
  case_bool_decide; simpl; [done|].
  intros [= <- _]. simpl. lia.
Qed.

Lemma node_begin_ok new_Request uuids config :
  0 ≤ Config.timeout config →
  ∀ id w, ∃ l w',
    NodeRequest.singleRequest_begin new_Request uuids id (Config.url config) config w
    = (Return l, w') ∧ launched_id l = id.
Proof.
  intros Ht id w.
  destruct (node_begin_returns new_Request uuids id (Config.url config) config w Ht)
    as (l & w' & Hl & Hid).
  exists l, w'. split; [done|]. destruct l; simpl; tauto.
Qed.

Lemma node_run_inv new_URL new_Request parseInt uuids parsed w config tr s :
  node_run new_URL new_Request parseInt uuids parsed w config tr s →
  node_inv config tr s ∧ 1 ≤ Config.concurrency config ∧ 1 ≤ Config.timeout config.
Proof.
  intros (s0 & ev0 & Hmain & Hexec).
  unfold NodeRequest.main in Hmain.
  destruct (NodeRequest.getArgs new_URL parseInt parsed w) as [[cfg | e | code] w1] eqn:Hargs;
    try done.
  destruct (getArgs_valid _ _ _ _ _ _ Hargs) as [Hc Ht].
  assert (0 ≤ Config.timeout cfg) as Ht0 by lia.
  destruct (begin_batch_spec _ cfg (node_begin_ok new_Request uuids cfg Ht0) 1 w1)
    as (s1 & w2 & Hb & Hk & Hlen & Hval & Hrem & Hids).
  rewrite Hb in Hmain. injection Hmain as -> -> <-.
  split; [|done].
  induction Hexec as [|tr s2 ev s3 Hexec IH Hstep].
  - apply (node_inv_fresh config [] 1 s0); try done.
    apply sequenced_first, launch_events_quiet.
  - eapply node_inv_step; [| |exact IH|exact Hstep].
    + by apply node_begin_ok.
    + intros p net w'. apply node_resume_returns.
Qed.

(** When no promise is pending, the array of allSettled is complete: it
    holds the fulfilled outcomes in the order of the launches. *)
Lemma node_inv_outcomes config tr s :
  node_inv config tr s →
  NodeLoop.remaining s = 0%nat →
  ∃ os, NodeLoop.outcomes s = Some (fulfilled <$> os)
        ∧ Outcome.id <$> os = seqZ 1 (Config.concurrency config).
Proof.
  intros [Hlen Hval Hrem Hids Hla Hse Hb Hst Hseq] Hz.
  rewrite Hrem in Hz.
  assert (∀ i pr, NodeLoop.requests s !! i = Some pr →
                  ∃ o, pr = PFulfilled o ∧ Outcome.id o = Z.of_nat i + 1) as Hful.
  { intros i pr Hi. pose proof (filter_none_pending _ _ _ Hz Hi) as Hp.
    pose proof (Hids _ _ Hi) as Hid.
    destruct pr; simpl in *; try done. injection Hid as Hid. eauto. }
  exists (omap (λ pr, match pr with PFulfilled o => Some o | _ => None end)
            (NodeLoop.requests s)).
  unfold NodeLoop.outcomes. rewrite Hval.
  rewrite <- (seqZ_of_to_nat 1 (Config.concurrency config)), <- Hlen.
  clear Hlen Hval Hrem Hids Hla Hse Hb Hst Hseq Hz.
  induction (NodeLoop.requests s) as [|pr reqs IH] using rev_ind; [done|].
  assert (∀ i pr0, reqs !! i = Some pr0 →
                   ∃ o, pr0 = PFulfilled o ∧ Outcome.id o = Z.of_nat i + 1) as Hful'.
  { intros i pr0 Hi. apply (Hful i). by apply lookup_app_l_Some. }
  destruct (IH Hful') as [IH1 IH2].
  destruct (Hful (length reqs) pr) as (o & -> & Ho).
  { by rewrite list_lookup_middle. }
  rewrite !fmap_app, omap_app, !fmap_app. simpl.
  rewrite length_app. simpl. replace (length reqs + 1)%nat with (S (length reqs)) by lia.
  rewrite seqZ_S, IH2, Ho. split; [|f_equal; f_equal; lia].
  apply mapM_Some. apply Forall2_app; [by apply mapM_Some|]. by repeat constructor.
Qed.

Lemma filter_all_false {A} (P : A → Prop) `{∀ x, Decision (P x)} (l : list A) :
  (∀ x, x ∈ l → ¬ P x) → filter P l = [].
Proof.
  induction l as [|x l IH]; intros Hall; [done|].
  rewrite filter_cons_False by (apply Hall; constructor).
  apply IH. intros y Hy. apply Hall. by constructor.
Qed.

Lemma end_batch_returns s w :
  ∃ w', NodeLoop.end_batch s w = (Return (), w').
Proof. unfold NodeLoop.end_batch, bind, hrtime_bigint, console_log. simpl. eauto. Qed.

(** However the environment ends a pending request, the loop takes the
    outcome and stays in the same batch. *)
Lemma node_settle_enabled new_Request uuids config tr s i p (dt : Z) (net : FetchResult) :
  node_inv config tr s →
  NodeLoop.requests s !! i = Some (PPending p) →
  ∃ o s',
    NodeRequest.step new_Request uuids config s
      [EvSettle (NodeLoop.batch s) (Z.of_nat i + 1) (fulfilled o)] s'
    ∧ NodeRequest.singleRequest_resume p net (advance dt (NodeLoop.world s))
      = (Return o, NodeLoop.world s')
    ∧ Outcome.id o = Z.of_nat i + 1
    ∧ NodeLoop.batch s' = NodeLoop.batch s.
Proof.
  intros Hinv Hi.
  destruct (node_resume_returns p net (advance dt (NodeLoop.world s))) as (o & w' & Ho & Hid).
  pose proof (inv_ids _ _ _ Hinv _ _ Hi) as Hp. simpl in Hp. injection Hp as Hp.
  eexists o, _. split; [|split; [|split; [congruence|]]].
  - unfold NodeRequest.step. eapply NodeLoop.step_settle; [exact Hi|exact Ho|done|done].
  - done.
  - done.
Qed.

(** Once every request of the batch has settled, with whatever outcome,
    [main] goes on to the next batch. *)
Lemma node_join_enabled new_Request uuids config tr s (dt : Z) :
  0 ≤ Config.timeout config →
  node_inv config tr s →
  (∀ pr, pr ∈ NodeLoop.requests s → NodeLoop.is_pending pr = false) →
  ∃ ev s',
    NodeRequest.step new_Request uuids config s
      (EvJoin (NodeLoop.batch s) :: EvStart (NodeLoop.batch s + 1) :: ev) s'
    ∧ NodeLoop.batch s' = NodeLoop.batch s + 1.
Proof.
  intros Ht Hinv Hall.
  destruct (end_batch_returns s (advance dt (NodeLoop.world s))) as [w1 Hend].
  destruct (begin_batch_spec _ config (node_begin_ok new_Request uuids config Ht)
              (NodeLoop.batch s + 1) w1) as (s' & w2 & Hb & Hk & _).
  eexists _, s'. split; [|done].
  unfold NodeRequest.step. eapply NodeLoop.step_join; [|exact Hend|exact Hb].
  rewrite (inv_remaining _ _ _ Hinv).
  rewrite filter_all_false; [done|].
  intros pr Hpr. rewrite (Hall pr Hpr). done.
Qed.

(** The loop is never stuck. *)
Lemma node_progress new_Request uuids config tr s :
  0 ≤ Config.timeout config →
  node_inv config tr s →
  ∃ ev s', NodeRequest.step new_Request uuids config s ev s'.
Proof.
  intros Ht Hinv.
  destruct (filter (λ p, NodeLoop.is_pending p = true) (NodeLoop.requests s))
    as [|pr l] eqn:Hf.
  - destruct (node_join_enabled new_Request uuids config tr s 0 Ht Hinv) as (ev & s' & Hs & _).
    + intros pr Hpr. destruct (NodeLoop.is_pending pr) eqn:Hp; [|done].
      by destruct (filter_nil_not_elem_of _ _ _ Hf Hp).
    + eauto.
  - assert (pr ∈ filter (λ p, NodeLoop.is_pending p = true) (NodeLoop.requests s)) as Hin.
    { rewrite Hf. constructor. }
    apply list_elem_of_filter in Hin as [Hp Hin].
    apply list_elem_of_lookup_1 in Hin as [i Hi].
    destruct pr as [p| |]; try done.
    destruct (node_settle_enabled new_Request uuids config tr s i p 0
                (FetchRejects (TypeError "fetch failed")) Hinv Hi) as (o & s' & Hs & _).
    eauto.
Qed.

(** *** The loop of the Go client *)

Lemma wrap_id z : - 2 ^ 63 ≤ z < 2 ^ 63 → GoRequest.wrap z = z.
Proof. intros Hz. unfold GoRequest.wrap. rewrite Z.mod_small; lia. Qed.

Lemma wrap_wrap_add a b : GoRequest.wrap (GoRequest.wrap a + b) = GoRequest.wrap (a + b).
Proof.
  unfold GoRequest.wrap.
  replace ((a + 2 ^ 63) `mod` 2 ^ 64 - 2 ^ 63 + b + 2 ^ 63)
    with ((a + 2 ^ 63) `mod` 2 ^ 64 + b) by lia.
  rewrite Zplus_mod_idemp_l. do 2 f_equal. lia.
Qed.

Lemma in_int_spec z : GoRequest.in_int z = true ↔ - 2 ^ 63 ≤ z < 2 ^ 63.
Proof. unfold GoRequest.in_int. by rewrite bool_decide_eq_true. Qed.

Lemma current_join_start {R} (tr : list (Event R)) k k' :
  current (tr ++ [EvJoin k; EvStart k']) = [].
Proof.
  replace (tr ++ [EvJoin k; EvStart k']) with ((tr ++ [EvJoin k]) ++ EvStart k' :: [])
    by (by rewrite <- app_assoc).
  by rewrite current_start.
Qed.

Lemma go_starts_next t b :
  b = GoRequest.wrap (Z.of_nat t + 1) →
  ((λ j, GoRequest.wrap (Z.of_nat j + 1)) <$> seq 0 (S t)) ++ [GoRequest.wrap (b + 1)]
  = (λ j, GoRequest.wrap (Z.of_nat j + 1)) <$> seq 0 (S (S t)).
Proof.
  intros ->. rewrite (seq_S (S t)), fmap_app. f_equal. simpl.
  rewrite wrap_wrap_add. do 2 f_equal. lia.
Qed.

Lemma go_inv_ne setup tr s : go_inv setup tr s → tr ≠ [].
Proof. intros [_ _ _ _ _ Hst _] ->. done. Qed.

Lemma go_inv_last_start setup tr s :
  go_inv setup tr s → last (starts tr) = Some (GoRequest.batchNumber s).
Proof.
  intros [_ _ _ _ Hb Hst _]. rewrite Hst, seq_S, fmap_app. simpl.
  by rewrite last_snoc, Hb.
Qed.

Lemma go_inv_step NewRequest_ok uuids setup tr s ev s' :
  GoRequest.in_int (GoRequest.numRequests setup) = true →
  go_inv setup tr s →
  GoRequest.step NewRequest_ok uuids setup s ev s' →
  go_inv setup (tr ++ ev) s'.
Proof.
  intros Hn%in_int_spec Hinv Hstep.
  pose proof (go_inv_ne _ _ _ Hinv) as Hne.
  pose proof (go_inv_last_start _ _ _ Hinv) as Hlast.
  destruct Hinv as [Hpc Hg Hwg Hperm Hb Hst Hseq].
  destruct Hstep as [s i Hi Hlt | s i Hi Hge | s j g dt w' Hd Hj Hph Hbeg
                     | s j g dt Hd Hj Hph Hbeg | s j g dt r w' rep Hd Hj Hph Hend
                     | s dt Hw Hz]; simpl.
  - rewrite Hi in Hpc. destruct Hpc as (H0 & Hle & Hla).
    rewrite wrap_id by lia.
    split; simpl.
    + split; [lia|]. split; [lia|].
      rewrite launched_app_quiet by done. simpl. rewrite Hla.
      replace (i + 1) with (Z.succ i) by lia. by rewrite seqZ_1_succ.
    + intros g' [Hg' | ->%list_elem_of_singleton]%elem_of_app; [by apply Hg|done].
    + rewrite length_app. simpl. lia.
    + rewrite launched_app_quiet, settled_app_quiet by done. simpl.
      rewrite app_nil_r, fmap_app, app_assoc. simpl. by rewrite Hperm.
    + done.
    + by rewrite starts_app, app_nil_r.
    + by apply sequenced_app_quiet.
  - rewrite Hi in Hpc. destruct Hpc as (H0 & Hle & Hla).
    rewrite app_nil_r. split; simpl; try done.
    rewrite Hla. destruct Hle as [Hle | ->].
    + by replace i with (GoRequest.numRequests setup) by lia.
    + by rewrite !seqZ_nil by lia.
  - rewrite app_nil_r. split; simpl; try done.
    + intros g' Hg'. apply list_elem_of_lookup_1 in Hg' as [j' Hj'].
      destruct (decide (j = j')) as [<- | Hne'].
      * rewrite list_lookup_insert_eq in Hj' by (by eapply lookup_lt_Some).
        injection Hj' as <-. simpl. apply Hg. by eapply list_elem_of_lookup_2.
      * rewrite list_lookup_insert_ne in Hj' by done.
        apply Hg. by eapply list_elem_of_lookup_2.
    + by rewrite length_insert.
    + rewrite list_fmap_insert. simpl.
      rewrite list_insert_id; [done|]. by rewrite list_lookup_fmap, Hj.
  - rewrite app_nil_r. split; simpl; try done.
  - assert (g ∈ GoRequest.goroutines s) as Hin by (by eapply list_elem_of_lookup_2).
    destruct (Hg g Hin) as [Ht Hgb].
    split; simpl.
    + destruct (GoRequest.pc s) as [i| |]; try done.
      * destruct Hpc as (H0 & Hle & Hla). repeat split; try done.
        by rewrite launched_app_quiet, app_nil_r.
      * by rewrite launched_app_quiet, app_nil_r.
    + intros g' Hg'. apply Hg. apply list_elem_of_lookup_1 in Hg' as [j' Hj'].
      rewrite list_lookup_delete in Hj'. case_decide; by eapply list_elem_of_lookup_2.
    + unfold GoRequest.Done. rewrite decide_True by done.
      rewrite length_delete by eauto.
      apply lookup_lt_Some in Hj. lia.
    + rewrite launched_app_quiet, settled_app_quiet, app_nil_r by done. simpl.
      rewrite <- Hperm, <- app_assoc. apply Permutation_app_head. simpl.
      rewrite list_fmap_delete.
      symmetry. apply delete_Permutation. by rewrite list_lookup_fmap, Hj.
    + done.
    + by rewrite starts_app, app_nil_r.
    + by apply sequenced_app_quiet.
  - rewrite Hw in Hpc.
    assert (GoRequest.goroutines s = []) as Hnil.
    { apply nil_length_inv. lia. }
    rewrite Hnil in *. simpl in Hperm. rewrite app_nil_r in Hperm.
    split; simpl.
    + split; [done|]. split; [by right|].
      unfold launched. by rewrite current_join_start.
    + intros g Hg'. rewrite Hnil in Hg'. by apply not_elem_of_nil in Hg'.
    + by rewrite Hnil.
    + rewrite Hnil. unfold launched, settled. by rewrite !current_join_start.
    + rewrite Hb, wrap_wrap_add. f_equal. lia.
    + replace (tr ++ [EvJoin (GoRequest.batchNumber s);
                      EvStart (GoRequest.wrap (GoRequest.batchNumber s + 1))])
        with ((tr ++ [EvJoin (GoRequest.batchNumber s)])
              ++ EvStart (GoRequest.wrap (GoRequest.batchNumber s + 1)) :: [])
        by (by rewrite <- app_assoc).
      rewrite starts_start_quiet by done.
      rewrite starts_app, app_nil_r, Hst.
      by apply go_starts_next.
    + apply (sequenced_app_join go_next); try done.
      intros id Hid. by rewrite Hperm.
Qed.

(** Every int flag holds a 64-bit integer, before and after
    [flag.Parse()]. *)
Lemma set_flag_ints fs name v fs' :
  (∀ n z, fs !! n = Some (GoRequest.FInt z) → GoRequest.in_int z = true) →
  GoRequest.set_flag fs name v = Some fs' →
  ∀ n z, fs' !! n = Some (GoRequest.FInt z) → GoRequest.in_int z = true.
Proof.
  intros Hfs Hset n z Hn. unfold GoRequest.set_flag in Hset.
  destruct (fs !! name) as [[s0|b0|z0]|] eqn:Hname; destruct v as [s1|b1|z1]; try done.
  - injection Hset as <-. apply lookup_insert_Some in Hn as [[_ ?] | [_ Hn]]; [done|eauto].
  - injection Hset as <-. apply lookup_insert_Some in Hn as [[_ ?] | [_ Hn]]; [done|eauto].
  - destruct (GoRequest.in_int z1) eqn:Hz1; [|done]. injection Hset as <-.
    apply lookup_insert_Some in Hn as [[_ [= <-]] | [_ Hn]]; [done|eauto].
Qed.

Lemma flag_Parse_ints args fs fs' :
  (∀ n z, fs !! n = Some (GoRequest.FInt z) → GoRequest.in_int z = true) →
  GoRequest.flag_Parse args fs = Some fs' →
  ∀ n z, fs' !! n = Some (GoRequest.FInt z) → GoRequest.in_int z = true.
Proof.
  revert fs. induction args as [|[name v] args IH]; intros fs Hfs Hparse; simpl in Hparse.
  - by injection Hparse as <-.
  - destruct (GoRequest.set_flag fs name v) as [fs1|] eqn:Hset; [|done].
    eapply IH; [|done]. by eapply set_flag_ints.
Qed.

(** What [main] hands to its loop. *)
Lemma go_main_running args w setup s0 :
  GoRequest.main args w = GoRequest.Running setup s0 →
  GoRequest.in_int (GoRequest.numRequests setup) = true
  ∧ GoRequest.batchNumber s0 = 1 ∧ GoRequest.turn s0 = 0%nat
  ∧ GoRequest.pc s0 = GoRequest.Launching 0 ∧ GoRequest.wg s0 = 0
  ∧ GoRequest.goroutines s0 = [].
Proof.
  unfold GoRequest.main. simpl.
  destruct (GoRequest.flag_Parse args _) as [fs|] eqn:Hparse; [|done].
  intros [= <- <-]. simpl. split; [|done].
  unfold GoRequest.deref_Int.
  destruct (fs !! "n") as [[s1|b1|z1]|] eqn:Hn; try done.
  eapply (flag_Parse_ints args); [|exact Hparse|exact Hn].
  intros n z Hz.
  apply lookup_insert_Some in Hz as [[_ [= <-]] | [_ Hz]]; [done|].
  apply lookup_insert_Some in Hz as [[_ [= <-]] | [_ Hz]]; [done|].
  apply lookup_insert_Some in Hz as [[_ ?] | [_ Hz]]; [done|].
  apply lookup_insert_Some in Hz as [[_ ?] | [_ Hz]]; [done|].
  done.
Qed.

Lemma go_run_inv NewRequest_ok uuids args w setup tr s :
  go_run NewRequest_ok uuids args w setup tr s →
  go_inv setup tr s ∧ GoRequest.in_int (GoRequest.numRequests setup) = true.
Proof.
  intros (s0 & Hmain & Hexec).
  destruct (go_main_running _ _ _ _ Hmain) as (Hn & Hb & Ht & Hpc & Hwg & Hg).
  split; [|done].
  induction Hexec as [|tr s2 ev s3 Hexec IH Hstep].
  - rewrite Hb. split.
    + rewrite Hpc. split; [done|]. split; [by right|done].
    + rewrite Hg. intros g Hin. by apply not_elem_of_nil in Hin.
    + by rewrite Hwg, Hg.
    + by rewrite Hg.
    + by rewrite Hb, Ht.
    + by rewrite Ht.
    + by apply sequenced_first.
  - by eapply go_inv_step.
Qed.

(** *** Executions *)

Lemma exec_extends {St E} (step : St → list E → St → Prop) s0 tr0 tr s :
  exec step s0 tr0 tr s → ∃ rest, tr = tr0 ++ rest.
Proof.
  induction 1 as [|tr s1 ev s2 _ [rest ->] _].
  - exists []. by rewrite app_nil_r.
  - exists (rest ++ ev). by rewrite app_assoc.
Qed.

(** An execution can be built from its first step on. *)
Lemma exec_front {St E} (step : St → list E → St → Prop) s0 tr0 ev s1 tr s :
  step s0 ev s1 → exec step s1 (tr0 ++ ev) tr s → exec step s0 tr0 tr s.
Proof.
  intros Hstep Hexec. induction Hexec as [|tr s2 ev' s3 _ IH Hstep'].
  - eapply exec_step; [apply exec_nil|done].
  - eapply exec_step; [exact IH|done].
Qed.

Lemma node_run_head new_URL new_Request parseInt uuids parsed w config tr s :
  node_run new_URL new_Request parseInt uuids parsed w config tr s →
  head tr = Some (EvStart 1).
Proof.
  intros (s0 & ev0 & Hmain & Hexec).
  apply exec_extends in Hexec as [rest ->].
  unfold NodeRequest.main in Hmain.
  destruct (NodeRequest.getArgs _ _ _ _) as [[cfg | e | code] w1]; try done.
  destruct (NodeLoop.begin_batch _ _ _ _) as [[s1 | e | code] w2]; try done.
  by injection Hmain as _ _ <-.
Qed.

Lemma go_run_head NewRequest_ok uuids args w setup tr s :
  go_run NewRequest_ok uuids args w setup tr s →
  head tr = Some (EvStart 1).
Proof.
  intros (s0 & Hmain & Hexec).
  apply exec_extends in Hexec as [rest ->].
  destruct (go_main_running _ _ _ _ Hmain) as (_ & -> & _). done.
Qed.

(** With a URL that [http.NewRequest] accepts no goroutine panics. *)
Lemma go_run_alive NewRequest_ok uuids args w setup tr s :
  go_run NewRequest_ok uuids args w setup tr s →
  NewRequest_ok (GoRequest.url setup) = true →
  GoRequest.pc s ≠ GoRequest.Dead.
Proof.
  intros (s0 & Hmain & Hexec) Hurl.
  destruct (go_main_running _ _ _ _ Hmain) as (_ & _ & _ & Hpc & _).
  induction Hexec as [|tr s2 ev s3 Hexec IH Hstep].
  - by rewrite Hpc.
  - destruct Hstep; simpl; try done.
    unfold GoRequest.makeRequest_begin in *. by rewrite Hurl in *.
Qed.

Lemma go_end_enabled NewRequest_ok uuids setup s j g (dt : Z) (r : GoRequest.DoResult) :
  GoRequest.pc s ≠ GoRequest.Dead →
  GoRequest.goroutines s !! j = Some g →
  GoRequest.g_phase g = GoRequest.InFlight →
  ∃ rep s',
    GoRequest.step NewRequest_ok uuids setup s
      [EvSettle (GoRequest.g_batch g) (GoRequest.g_id g) rep] s'
    ∧ GoRequest.makeRequest_end (GoRequest.g_id g) r (GoRequest.advance dt (GoRequest.world s))
      = (GoRequest.world s', rep)
    ∧ GoRequest.pc s' = GoRequest.pc s
    ∧ GoRequest.batchNumber s' = GoRequest.batchNumber s.
Proof.
  intros Hd Hj Hph.
  destruct (GoRequest.makeRequest_end (GoRequest.g_id g) r
              (GoRequest.advance dt (GoRequest.world s))) as [w' rep] eqn:Hend.
  eexists rep, _. split; [|split; [|split]].
  - eapply GoRequest.step_go_end; [exact Hd|exact Hj|exact Hph|exact Hend].
  - done.
  - done.
  - done.
Qed.

Lemma go_join_enabled NewRequest_ok uuids setup tr s (dt : Z) :
  go_inv setup tr s →
  GoRequest.pc s = GoRequest.Waiting →
  GoRequest.goroutines s = [] →
  GoRequest.step NewRequest_ok uuids setup s
    [EvJoin (GoRequest.batchNumber s); EvStart (GoRequest.wrap (GoRequest.batchNumber s + 1))]
    (GoRequest.next_turn setup s dt)
  ∧ GoRequest.pc (GoRequest.next_turn setup s dt) = GoRequest.Launching 0
  ∧ GoRequest.batchNumber (GoRequest.next_turn setup s dt)
    = GoRequest.wrap (GoRequest.batchNumber s + 1).
Proof.
  intros Hinv Hpc Hg. split; [|done].
  apply GoRequest.step_join; [done|].
  by rewrite (gi_wg _ _ _ Hinv), Hg.
Qed.

Lemma go_progress NewRequest_ok uuids setup tr s :
  go_inv setup tr s →
  NewRequest_ok (GoRequest.url setup) = true →
  GoRequest.pc s ≠ GoRequest.Dead →
  ∃ ev s', GoRequest.step NewRequest_ok uuids setup s ev s'.
Proof.
  intros Hinv Hurl Hd.
  destruct (GoRequest.pc s) as [i| |] eqn:Hpc; [| |done].
  - destruct (decide (i < GoRequest.numRequests setup)).
    + eexists _, _. by eapply GoRequest.step_launch.
    + eexists _, _. by eapply GoRequest.step_wait.
  - destruct (GoRequest.goroutines s) as [|g gs] eqn:Hg.
    + destruct (go_join_enabled NewRequest_ok uuids setup tr s 0 Hinv Hpc Hg) as [Hs _].
      eauto.
    + assert (GoRequest.pc s ≠ GoRequest.Dead) as Hd' by (by rewrite Hpc).
      assert (GoRequest.goroutines s !! 0%nat = Some g) as Hj by (by rewrite Hg).
      destruct (GoRequest.g_phase g) eqn:Hph.
      * eexists _, _. eapply (GoRequest.step_go_begin _ _ _ s 0 g 0); try done.
        unfold GoRequest.makeRequest_begin. by rewrite Hurl.
      * destruct (go_end_enabled NewRequest_ok uuids setup s 0 g 0
                    (GoRequest.DoError "connection refused") Hd' Hj Hph)
          as (rep & s' & Hs & _).
        eauto.
Qed.

(** ** The batch, the loop and the claims about them *)

Lemma node_join_inv new_Request uuids config s k ev s' :
  NodeRequest.step new_Request uuids config s (EvJoin k :: ev) s' →
  NodeLoop.remaining s = 0%nat ∧ k = NodeLoop.batch s.
Proof. inversion 1; subst. done. Qed.

Lemma go_join_inv NewRequest_ok uuids setup s k ev s' :
  GoRequest.step NewRequest_ok uuids setup s (EvJoin k :: ev) s' →
  GoRequest.pc s = GoRequest.Waiting ∧ GoRequest.wg s = 0 ∧ k = GoRequest.batchNumber s.
Proof. inversion 1; subst. done. Qed.




(** *** The functions of the steps agree with the steps *)

Lemma play_exec {St A E} (do : St → A → option (list E * St))
    (step : St → list E → St → Prop)
    acts s0 tr0 tr s :
  (∀ s a ev s', do s a = Some (ev, s') → step s ev s') →
  play do s0 acts = Some (tr, s) →
  exec step s0 tr0 (tr0 ++ tr) s.
Proof.
  intros Hdo. revert s0 tr0 tr. induction acts as [|a acts IH]; intros s0 tr0 tr; simpl.
  - intros [= <- <-]. rewrite app_nil_r. apply exec_nil.
  - destruct (do s0 a) as [[ev s1]|] eqn:Ha; [|done].
    destruct (play do s1 acts) as [[tr1 s2]|] eqn:Hp; [|done].
    intros [= <- <-]. eapply exec_front; [by eapply Hdo|].
    rewrite app_assoc. by apply IH.
Qed.

Lemma node_do_step new_Request uuids config s a ev s' :
  node_do new_Request uuids config s a = Some (ev, s') →
  NodeRequest.step new_Request uuids config s ev s'.
Proof.
  destruct a as [i dt net | dt]; unfold node_do.
  - destruct (NodeLoop.requests s !! i) as [[p| |]|] eqn:Hi; try done.
    destruct (NodeRequest.singleRequest_resume p net _) as [c w'] eqn:Hres.
    destruct (promise_of c) as [pr|] eqn:Hpr; [|done].
    destruct (settled_of pr) as [r|] eqn:Hr; [|done].
    intros [= <- <-]. by eapply NodeLoop.step_settle.
  - case_decide; [|done].
    destruct (NodeLoop.end_batch s (advance dt (NodeLoop.world s))) as [[[]| |] w1] eqn:Hend;
      try done.
    destruct (NodeLoop.begin_batch (NodeRequest.singleRequest_begin new_Request uuids) config
                (NodeLoop.batch s + 1) w1) as [[s1| |] w2] eqn:Hbeg;
      try done.
    intros [= <- <-]. by eapply NodeLoop.step_join.
Qed.

Lemma go_do_step NewRequest_ok uuids setup s a ev s' :
  go_do NewRequest_ok uuids setup s a = Some (ev, s') →
  GoRequest.step NewRequest_ok uuids setup s ev s'.
Proof.
  assert (go_alive s = true → GoRequest.pc s ≠ GoRequest.Dead) as Halive.
  { unfold go_alive. by destruct (GoRequest.pc s). }
  destruct a as [| | j dt | j dt r | dt]; unfold go_do.
  - destruct (GoRequest.pc s) as [i| |] eqn:Hpc; try done.
    case_decide; [|done]. intros [= <- <-]. by apply GoRequest.step_launch.
  - destruct (GoRequest.pc s) as [i| |] eqn:Hpc; try done.
    case_decide; [done|]. intros [= <- <-]. by eapply GoRequest.step_wait.
  - destruct (GoRequest.goroutines s !! j) as [g|] eqn:Hj; [|done].
    destruct (GoRequest.g_phase g) eqn:Hph; [|done].
    destruct (go_alive s) eqn:Ha; [|done].
    destruct (GoRequest.makeRequest_begin _ _ _ _ _) as [w'|] eqn:Hbeg; intros [= <- <-].
    + eapply GoRequest.step_go_begin; eauto.
    + eapply GoRequest.step_go_panic; eauto.
  - destruct (GoRequest.goroutines s !! j) as [g|] eqn:Hj; [|done].
    destruct (GoRequest.g_phase g) eqn:Hph; [done|].
    destruct (go_alive s) eqn:Ha; [|done].
    destruct (GoRequest.makeRequest_end _ _ _) as [w' rep] eqn:Hend.
    intros [= <- <-]. eapply GoRequest.step_go_end; eauto.
  - destruct (GoRequest.pc s) as [i| |] eqn:Hpc; try done.
    case_decide; [|done]. intros [= <- <-]. by apply GoRequest.step_join.
Qed.

(** *** The sample runs are runs *)

Lemma sample_node_run :
  node_run sample_new_URL sample_new_Request sample_parseInt sample_uuids
    (Return sample_values) world0 sample_config sample_node_tr sample_node_s.
Proof.
  exists sample_node_s0, sample_node_start.2. split; [vm_compute; reflexivity|].
  change sample_node_tr
    with (sample_node_start.2 ++ [EvSettle 1 2 (fulfilled (Outcome.mk Outcome.failed 2 None
                                     (Some "The operation was aborted due to timeout") 7));
                                  EvSettle 1 1 (fulfilled (Outcome.mk Outcome.success 1
                                     (Some 200) None 9))]).
  apply (play_exec (node_do sample_new_Request sample_uuids sample_config) _
           sample_node_actions).
  - apply node_do_step.
  - vm_compute. reflexivity.
Defined.

Lemma sample_node_join :
  ∃ ev s',
    NodeRequest.step sample_new_Request sample_uuids sample_config sample_node_s
      (EvJoin 1 :: ev) s'.
Proof.
  eexists _, _. apply node_do_step with (a := Join 1000000).
  change (node_do sample_new_Request sample_uuids sample_config sample_node_s (Join 1000000))
    with sample_node_joined.
  reflexivity.
Defined.

Lemma sample_go_run :
  go_run sample_NewRequest_ok sample_uuids sample_go_args go_world0
    sample_go_setup sample_go_tr sample_go_s.
Proof.
  exists sample_go_s0. split; [vm_compute; reflexivity|].
  change sample_go_tr
    with ([EvStart (GoRequest.batchNumber sample_go_s0)]
          ++ [EvLaunch 1 1; EvLaunch 1 2;
              EvSettle 1 2 (GoRequest.ReportError "context deadline exceeded");
              EvSettle 1 1 (GoRequest.ReportFinished "500 Internal Server Error")]).
  apply (play_exec (go_do sample_NewRequest_ok sample_uuids sample_go_setup) _
           sample_go_actions).
  - apply go_do_step.
  - vm_compute. reflexivity.
Defined.

Lemma sample_go_join :
  GoRequest.step sample_NewRequest_ok sample_uuids sample_go_setup sample_go_s
    [EvJoin 1; EvStart 2] (GoRequest.next_turn sample_go_setup sample_go_s 1000).
Proof. apply (GoRequest.step_join _ _ _ sample_go_s 1000); reflexivity. Defined.




(** ** The correlation header of the requests *)

Lemma test_ids_fresh_send {Req} uuids (headers : Req → list (string * string)) wire drawn r :
  test_ids_fresh uuids headers wire drawn →
  headers r = [("x-mgc-test-id", uuids drawn)] →
  test_ids_fresh uuids headers (wire ++ [r]) (S drawn).
Proof.
  intros (js & Hh & Hnd & Hlt) Hr. exists (js ++ [drawn]). split; [|split].
  - rewrite !fmap_app, Hh. simpl. by rewrite Hr.
  - apply NoDup_app. split; [done|]. split; [|apply NoDup_singleton].
    intros j Hj ->%list_elem_of_singleton. apply Hlt in Hj. lia.
  - intros j [Hj | ->%list_elem_of_singleton]%elem_of_app; [apply Hlt in Hj|]; lia.
Qed.

Lemma test_ids_fresh_draw {Req} uuids (headers : Req → list (string * string)) wire d d' :
  test_ids_fresh uuids headers wire d → (d ≤ d')%nat →
  test_ids_fresh uuids headers wire d'.
Proof.
  intros (js & Hh & Hnd & Hlt) Hd. exists js. split; [done|]. split; [done|].
  intros j Hj. apply Hlt in Hj. lia.
Qed.

Lemma test_ids_fresh_distinct {Req} uuids (headers : Req → list (string * string)) wire drawn :
  test_ids_fresh uuids headers wire drawn →
  (∀ r, r ∈ wire → ∃ j, headers r = [("x-mgc-test-id", uuids j)])
  ∧ ((∀ i j, uuids i = uuids j → i = j) → NoDup (headers <$> wire)).
Proof.
  intros (js & Hh & Hnd & Hlt). split.
  - intros r Hr.
    assert (headers r ∈ headers <$> wire) as Hin by (by apply list_elem_of_fmap_2).
    rewrite Hh in Hin. apply list_elem_of_fmap in Hin as (j & Hj & _). eauto.
  - intros Hinj. rewrite Hh. apply NoDup_fmap_2_strong; [|done].
    intros i j _ _ [= Hij]. by apply Hinj.
Qed.

Lemma node_begin_fresh new_Request uuids id url config w c w' :
  node_fresh uuids w →
  NodeRequest.singleRequest_begin new_Request uuids id url config w = (c, w') →
  node_fresh uuids w'.
Proof.
  unfold node_fresh. intros Hw. unfold NodeRequest.singleRequest_begin.
  rewrite call_timeout_AbortSignal. unfold AbortSignal.timeout.
  case_bool_decide; run.
  - destruct (new_Request url) as [e | req]; simpl; intros [= <- <-]; simpl.
    + by eapply test_ids_fresh_draw; [|apply Nat.le_succ_diag_r].
    + by apply test_ids_fresh_send.
  - intros [= <- <-]. simpl. by eapply test_ids_fresh_draw; [|apply Nat.le_succ_diag_r].
Qed.

Lemma node_resume_wire p net w c w' :
  NodeRequest.singleRequest_resume p net w = (c, w') →
  wire w' = wire w ∧ drawn w' = drawn w.
Proof.
  run. destruct net as [e | | response [body | e |]]; simpl; try (by intros [= <- <-]).
  destruct (negb (Response.ok response)); simpl; by intros [= <- <-].
Qed.

Lemma node_launch_fresh new_Request uuids config xs acc w c w' :
  node_fresh uuids w →
  for_each
    (λ requests i,
     let* p := call_async (NodeRequest.singleRequest_begin new_Request uuids (i + 1)
                             (Config.url config) config) in
     ret (requests ++ [p])) xs acc w = (c, w') →
  node_fresh uuids w'.
Proof.
  revert acc w. induction xs as [|x xs IH]; intros acc w Hw; simpl.
  - by intros [= <- <-].
  - unfold bind at 1. unfold bind at 1. unfold call_async.
    destruct (NodeRequest.singleRequest_begin new_Request uuids (x + 1)
                (Config.url config) config w) as [[l | e | code] w1] eqn:Hb.
    + destruct l; simpl; apply IH; by eapply node_begin_fresh.
    + simpl. apply IH. by eapply node_begin_fresh.
    + intros [= <- <-]. by eapply node_begin_fresh.
Qed.

Lemma node_begin_batch_fresh new_Request uuids config k w s w' :
  node_fresh uuids w →
  NodeLoop.begin_batch (NodeRequest.singleRequest_begin new_Request uuids) config k w
  = (Return s, w') →
  node_fresh uuids (NodeLoop.world s).
Proof.
  intros Hw. unfold NodeLoop.begin_batch, NodeLoop.launch. unfold bind at 1.
  destruct (for_each _ _ _ w) as [[reqs | e | code] w1] eqn:Hl; try done.
  apply node_launch_fresh in Hl; [|done].
  unfold bind, hrtime_bigint. by intros [= <- <-].
Qed.

Lemma node_step_fresh new_Request uuids config s ev s' :
  node_fresh uuids (NodeLoop.world s) →
  NodeRequest.step new_Request uuids config s ev s' →
  node_fresh uuids (NodeLoop.world s').
Proof.
  intros Hw Hstep.
  destruct Hstep as [s i p dt net c w' pr r Hi Hres Hpr Hr | s dt w1 s' w2 Hz Hend Hbeg]; simpl.
  - apply node_resume_wire in Hres as [Hwire Hdrawn].
    unfold node_fresh in *. by rewrite Hwire, Hdrawn.
  - eapply node_begin_batch_fresh; [|exact Hbeg].
    unfold NodeLoop.end_batch, bind, hrtime_bigint, console_log in Hend. simpl in Hend.
    by injection Hend as <-.
Qed.

Lemma getArgs_world new_URL parseInt parsed w config w' :
  NodeRequest.getArgs new_URL parseInt parsed w = (Return config, w') → w' = w.
Proof.
  unfold NodeRequest.getArgs.
  unfold try_catch, bind, lift, lift_sum, ret, throw, process_exit, console_log; simpl.
  destruct parsed as [values | e | code]; simpl; try done.
  destruct (Values.url values) as [u|]; simpl; [|done].
  destruct (decide (u = "")); simpl; [done|].
  destruct (new_URL u); simpl; [done|].
  destruct (isNaN _ || Number_lt _ 1); simpl; [done|].
  destruct (isNaN _ || Number_lt _ 1); simpl; [done|].
  by intros [= _ <-].
Qed.

Lemma node_run_fresh new_URL new_Request parseInt uuids parsed w config tr s :
  wire w = [] →
  node_run new_URL new_Request parseInt uuids parsed w config tr s →
  node_fresh uuids (NodeLoop.world s).
Proof.
  intros Hw (s0 & ev0 & Hmain & Hexec).
  assert (node_fresh uuids (NodeLoop.world s0)) as H0.
  { unfold NodeRequest.main in Hmain.
    destruct (NodeRequest.getArgs new_URL parseInt parsed w) as [[cfg | e | code] w1] eqn:Ha;
      try done.
    apply getArgs_world in Ha as ->.
    destruct (NodeLoop.begin_batch _ cfg 1 w) as [[s1 | e | code] w2] eqn:Hb; try done.
    injection Hmain as <- <- _.
    eapply node_begin_batch_fresh; [|exact Hb].
    exists []. rewrite Hw. split; [done|]. split; [constructor|].
    intros j Hj. by apply not_elem_of_nil in Hj. }
  induction Hexec as [|tr s2 ev s3 Hexec IH Hstep]; [done|].
  by eapply node_step_fresh.
Qed.

Lemma go_step_fresh NewRequest_ok uuids setup s ev s' :
  go_fresh uuids (GoRequest.world s) →
  GoRequest.step NewRequest_ok uuids setup s ev s' →
  go_fresh uuids (GoRequest.world s').
Proof.
  intros Hw Hstep.
  destruct Hstep as [s i Hi Hlt | s i Hi Hge | s j g dt w' Hd Hj Hph Hbeg
                     | s j g dt Hd Hj Hph Hbeg | s j g dt r w' rep Hd Hj Hph Hend
                     | s dt Hpc Hz]; simpl; try done.
  - unfold GoRequest.makeRequest_begin in Hbeg.
    destruct (NewRequest_ok (GoRequest.url setup)); [|done].
    injection Hbeg as <-. unfold go_fresh in *. simpl. by apply test_ids_fresh_send.
  - unfold GoRequest.makeRequest_end in Hend.
    destruct r as [err | resp [err|]]; by injection Hend as <- _.
Qed.

Lemma go_run_fresh NewRequest_ok uuids args w setup tr s :
  GoRequest.wire w = [] →
  go_run NewRequest_ok uuids args w setup tr s →
  go_fresh uuids (GoRequest.world s).
Proof.
  intros Hw (s0 & Hmain & Hexec).
  assert (go_fresh uuids (GoRequest.world s0)) as H0.
  { unfold GoRequest.main in Hmain. simpl in Hmain.
    destruct (GoRequest.flag_Parse args _) as [fs|]; [|done].
    injection Hmain as _ <-. unfold go_fresh. simpl.
    exists []. rewrite Hw. split; [done|]. split; [constructor|].
    intros j Hj. by apply not_elem_of_nil in Hj. }
  induction Hexec as [|tr s2 ev s3 Hexec IH Hstep]; [done|].
  by eapply go_step_fresh.
Qed.


Lemma sample_uuids_inj i j : sample_uuids i = sample_uuids j → i = j.
Proof.
  unfold sample_uuids. intros H. apply (inj (String.app "uuid-")) in H.
  by apply (inj pretty) in H.
Qed.


(** ** The keep-alive flag *)

(** The Go client turns the flag [-keepalive] into the setting of the one
    transport that all its requests share. *)
Lemma go_keepalive_governs_transport b w :
  ∃ setup s,
    GoRequest.main [("keepalive", GoRequest.FBool b)] w = GoRequest.Running setup s
    ∧ GoRequest.Transport.DisableKeepAlives
        (GoRequest.Client.Transport (GoRequest.client setup)) = negb b.
Proof. eexists _, _. split; reflexivity. Qed.

(** The flag reaches the options of the Node client only under the key
    [agent]. *)
Lemma node_fetchOptions_agent signal keepAlive uuid :
  NodeRequest.fetchOptions signal keepAlive uuid !! "agent" = Some (VAgent keepAlive)
  ∧ NodeRequest.fetchOptions signal keepAlive uuid !! "keepalive" = None.
Proof. split; reflexivity. Qed.

Lemma node_fetch_request_ignores_agent req signal uuid k1 k2 :
  fetch_request req (NodeRequest.fetchOptions signal k1 uuid)
  = fetch_request req (NodeRequest.fetchOptions signal k2 uuid).
Proof. reflexivity. Qed.

(** C9, at the code: in src/node-request/request.js the flag has no
    effect on what is handed to the transport.  Two configurations that
    differ in [keepAlive] only send the same requests: the flag goes into
    an [http.Agent] under the key [agent] of the options, which [fetch]
    does not read. *)
Theorem C9_node_keepAlive_does_not_reach_the_transport
    new_Request uuids id url concurrency timeout w :
  wire (NodeRequest.singleRequest_begin new_Request uuids id url
          (Config.mk url concurrency timeout true) w).2
  = wire (NodeRequest.singleRequest_begin new_Request uuids id url
            (Config.mk url concurrency timeout false) w).2.
Proof.
  unfold NodeRequest.singleRequest_begin. simpl.
  rewrite call_timeout_AbortSignal. unfold AbortSignal.timeout.
  case_bool_decide; run; [|done].
  destruct (new_Request url); simpl; [done|].
  by rewrite (node_fetch_request_ignores_agent _ _ _ true false).
Qed.

(** ** A URL that the Go client cannot parse *)

(** [http.NewRequest] returns a nil request with its error for such a
    URL; [makeRequest] drops the error and the use of the request ends the
    process.  The statements about the loop of the Go client are about
    URLs that parse. *)
Example go_bad_url_panics :
  ∃ tr s,
    exec (GoRequest.step (λ _, false) sample_uuids sample_go_setup) sample_go_s0
      [EvStart 1] ([EvStart 1] ++ tr) s
    ∧ GoRequest.pc s = GoRequest.Dead.
Proof.
  destruct sample_go_bad_url as [[tr s]|] eqn:Hplay; [|discriminate Hplay].
  exists tr, s. split.
  - apply (play_exec (go_do (λ _, false) sample_uuids sample_go_setup) _
             [GoLaunch; GoBegin 0 1000]); [apply go_do_step|].
    rewrite <- Hplay. vm_compute. reflexivity.
  - by injection Hplay as _ <-.
Qed.

(** * More of the code *)

(** ** [getArgs] of the Node clients *)

Ltac run_args :=
  unfold NodeRequest.getArgs, Part000Main.getArgs, Part000Main.values_help,
    try_catch, bind, lift, lift_sum, ret, throw, process_exit, console_log;
  simpl.


(** X2: [getArgs] never throws.  When the command line has been parsed and
    a check fails, the process ends with code 1 after two lines on the
    console, the first with the message of the first check that fails, in
    the order: URL missing or empty, URL refused by [new URL] (whose own
    error is replaced), concurrency, timeout.  Clock, random source and
    transport are untouched. *)
Theorem getArgs_reports_first_failure new_URL parseInt values w :
  (∀ config, NodeRequest.getArgs new_URL parseInt (Return values) w ≠ (Return config, w)) →
  ∃ msg,
    NodeRequest.getArgs new_URL parseInt (Return values) w
    = (Exit 1, mkWorld (now w)
                 (console w ++ ["Error: " +:+ msg; "Run with --help for usage information."])
                 (drawn w) (wire w))
    ∧ msg =
      match Values.url values with
      | None => "--url is a required argument."
      | Some u =>
          if decide (u = "") then "--url is a required argument."
          else match new_URL u with
               | inl _ => "Invalid URL provided: " +:+ u
               | inr _ =>
                   match parseInt (Values.concurrency values) with
                   | Num c =>
                       if decide (1 ≤ c)
                       then "--timeout must be a number greater than 0."
                       else "--concurrency must be a number greater than 0."
                   | NaN => "--concurrency must be a number greater than 0."
                   end
               end
      end.
Proof.
  intros Hno. eexists. split; [|reflexivity].
  revert Hno. run_args.
  destruct (Values.url values) as [u|]; simpl; [|by rewrite <- app_assoc].
  destruct (decide (u = "")); simpl; [by rewrite <- app_assoc|].
  destruct (new_URL u) as [e | []]; simpl; [by rewrite <- app_assoc|].
  destruct (parseInt (Values.concurrency values)) as [|c]; simpl;
    [by rewrite <- app_assoc|].
  destruct (decide (1 ≤ c)).
  - rewrite bool_decide_eq_false_2 by lia. simpl.
    destruct (parseInt (Values.timeout values)) as [|t]; simpl;
      [by rewrite <- app_assoc|].
    case_bool_decide; simpl; [by rewrite <- app_assoc|].
    intros Hno. by destruct (Hno (Config.mk u c t (Values.keepalive values))).
  - rewrite bool_decide_eq_true_2 by lia. simpl. by rewrite <- app_assoc.
Qed.

Lemma getArgs_reports_first_failure_witness :
  ∃ msg,
    NodeRequest.getArgs sample_new_URL sample_parseInt
      (Return (Values.mk (Some "http://localhost:8080") "0" "5000" false)) world0
    = (Exit 1, mkWorld 0 ["Error: " +:+ msg; "Run with --help for usage information."] 0 [])
    ∧ msg = "--concurrency must be a number greater than 0.".
Proof.
  apply (getArgs_reports_first_failure sample_new_URL sample_parseInt
           (Values.mk (Some "http://localhost:8080") "0" "5000" false) world0).
  intros config. vm_compute. discriminate.
Defined.


(** ** Outcomes of a request *)

(** X4: what a request of either Node client resolves to after its
    [await].  It is a success exactly when [fetch] resolved, the body was
    read and the status is 2xx; a success carries the status and no
    reason, a failure carries a reason and no status. *)
Theorem node_outcome_well_formed p net w :
  ∃ o w' o' w'',
    NodeRequest.singleRequest_resume p net w = (Return o, w')
    ∧ Part000.singleRequest_resume p net w = (Return o', w'')
    ∧ o' = o
    ∧ Outcome.id o = p_id p
    ∧ (Outcome.status o = Outcome.success
       ↔ ∃ response body,
           net = FetchResolves response (TextResolves body)
           ∧ 200 ≤ Response.status response ≤ 299)
    ∧ match Outcome.status o with
      | Outcome.success =>
          Outcome.reason o = None
          ∧ ∃ st, Outcome.httpStatus o = Some st ∧ 200 ≤ st ≤ 299
      | Outcome.failed =>
          Outcome.httpStatus o = None ∧ ∃ reason, Outcome.reason o = Some reason
      end.
Proof.
  destruct net as [e | | response [body | e |]]; run;
    try (eexists _, _, _, _; repeat split; simpl; eauto;
         first [done | intros (? & ? & ? & _); discriminate]).
  unfold Response.ok.
  destruct (decide (200 ≤ Response.status response ≤ 299)) as [Hok | Hok].
  - rewrite !bool_decide_eq_true_2 by done. simpl.
    eexists _, _, _, _. repeat split; simpl; eauto; lia.
  - rewrite !bool_decide_eq_false_2 by done. simpl.
    eexists _, _, _, _. repeat split; simpl; eauto; try done.
    intros (? & ? & [= <- _] & ?). done.
Qed.

(** X5: a request of either Node client whose [fetch], or whose read of
    the body, rejects with the error [e] resolves to a failure with the
    message of [e] as its reason, renamed to "Timeout" only if [e] is
    named AbortError, and with the time since the start of the request,
    in whole milliseconds, as its duration.  The client of
    src/node-request/request.js writes the message on the console before;
    the one of src/unnamed/part_000 writes nothing. *)
Theorem node_rejection_reason p net e w :
  net = FetchRejects e ∨ (∃ response, net = FetchResolves response (TextRejects e)) →
  ∃ o,
    o = Outcome.mk Outcome.failed (p_id p) None
          (Some (if decide (Error.name e = "AbortError") then "Timeout" else Error.message e))
          ((now w - p_startTime p) `quot` 1000000)
    ∧ NodeRequest.singleRequest_resume p net w
      = (Return o, mkWorld (now w) (console w ++ ["Error: " +:+ Error.message e])
                     (drawn w) (wire w))
    ∧ Part000.singleRequest_resume p net w = (Return o, w).
Proof.
  intros [-> | [response ->]]; eexists; (split; [reflexivity|]); run; by destruct w.
Qed.

Lemma node_rejection_reason_witness :
  ∃ o,
    o = Outcome.mk Outcome.failed 1 None (Some "fetch failed") 3
    ∧ NodeRequest.singleRequest_resume (mkPending 1 0 signal5000)
        (FetchRejects (TypeError "fetch failed")) (advance 3000000 world0)
      = (Return o, mkWorld 3000000 ["Error: fetch failed"] 0 [])
    ∧ Part000.singleRequest_resume (mkPending 1 0 signal5000)
        (FetchRejects (TypeError "fetch failed")) (advance 3000000 world0)
      = (Return o, advance 3000000 world0).
Proof.
  apply (node_rejection_reason (mkPending 1 0 signal5000)
           (FetchRejects (TypeError "fetch failed")) (TypeError "fetch failed")
           (advance 3000000 world0)).
  left. reflexivity.
Defined.

(** ** The clock of the Node clients *)

(** What a promise tells about the clock at [t]: a pending request has
    started by then, a fulfilled one has a duration that is not negative. *)
Lemma node_begin_clock new_Request uuids id url config w c w' :
  NodeRequest.singleRequest_begin new_Request uuids id url config w = (c, w') →
  now w' = now w
  ∧ match c with
    | Return (Awaiting p) => p_startTime p = now w
    | Return (Settled o) => Outcome.duration o = 0
    | _ => True
    end.
Proof.
  unfold NodeRequest.singleRequest_begin.
  rewrite call_timeout_AbortSignal. unfold AbortSignal.timeout.
  case_bool_decide; run; [|by intros [= <- <-]].
  destruct (new_Request url); simpl; intros [= <- <-]; simpl; [|done].
  by rewrite Z.sub_diag.
Qed.

Lemma node_resume_clock p net w o w' :
  NodeRequest.singleRequest_resume p net w = (Return o, w') →
  now w' = now w ∧ Outcome.duration o = (now w - p_startTime p) `quot` 1000000.
Proof.
  run. destruct net as [e | | response [body | e |]]; simpl; try (by intros [= <- <-]).
  destruct (negb (Response.ok response)); simpl; by intros [= <- <-].
Qed.

Lemma duration_nonneg (start finish : Z) :
  start ≤ finish → 0 ≤ (finish - start) `quot` 1000000.
Proof. intros H. apply Z.quot_pos; lia. Qed.

Lemma promise_timed_mono t t' pr : t ≤ t' → promise_timed t pr → promise_timed t' pr.
Proof. destruct pr; simpl; lia. Qed.

Lemma node_launch_clock new_Request uuids config xs acc w reqs w' :
  Forall (promise_timed (now w)) acc →
  for_each
    (λ requests i,
     let* p := call_async (NodeRequest.singleRequest_begin new_Request uuids (i + 1)
                             (Config.url config) config) in
     ret (requests ++ [p])) xs acc w = (Return reqs, w') →
  now w' = now w ∧ Forall (promise_timed (now w)) reqs.
Proof.
  revert acc w. induction xs as [|x xs IH]; intros acc w Hacc; simpl.
  - by intros [= <- <-].
  - unfold bind at 1. unfold bind at 1. unfold call_async.
    destruct (NodeRequest.singleRequest_begin new_Request uuids (x + 1)
                (Config.url config) config w) as [[l | e | code] w1] eqn:Hb; [| |done];
      apply node_begin_clock in Hb as [Hnow Hl].
    + destruct l as [p | o]; simpl; intros Hfor;
        (apply IH in Hfor; [by rewrite <- Hnow|]); rewrite Hnow;
        (apply Forall_app; split; [done|]); repeat constructor; simpl; lia.
    + simpl. intros Hfor. apply IH in Hfor; [by rewrite <- Hnow|]. rewrite Hnow.
      apply Forall_app; split; [done|]. by repeat constructor.
Qed.

Lemma node_begin_batch_clock new_Request uuids config k w s w' :
  NodeLoop.begin_batch (NodeRequest.singleRequest_begin new_Request uuids) config k w
  = (Return s, w') →
  now (NodeLoop.world s) = now w
  ∧ NodeLoop.totalStartTime s = now w
  ∧ Forall (promise_timed (now w)) (NodeLoop.requests s).
Proof.
  unfold NodeLoop.begin_batch, NodeLoop.launch. unfold bind at 1.
  destruct (for_each _ _ _ w) as [[reqs | e | code] w1] eqn:Hl; try done.
  apply node_launch_clock in Hl as [Hnow Hreqs]; [|constructor].
  unfold bind, hrtime_bigint. intros [= <- <-]. simpl. by rewrite Hnow.
Qed.

Lemma launch_events_settle_inv k reqs k' id r :
  EvSettle k' id r ∈ NodeLoop.launch_events k reqs →
  ∃ pr, pr ∈ reqs ∧ settled_of pr = Some r.
Proof.
  induction reqs as [|pr reqs IH] using rev_ind.
  - by intros ?%elem_of_nil.
  - rewrite launch_events_snoc. rewrite elem_of_app. intros [Hin | Hin].
    + destruct (IH Hin) as (pr' & Hpr' & Hr). exists pr'. split; [|done].
      apply elem_of_app. by left.
    + exists pr. split; [apply elem_of_app; right; constructor|].
      apply elem_of_cons in Hin as [[=] | Hin].
      destruct (settled_of pr) as [r'|]; [|by apply elem_of_nil in Hin].
      apply list_elem_of_singleton in Hin. by injection Hin as _ _ ->.
Qed.

Lemma settled_durations_app tr ev :
  settled_durations tr → settled_durations ev → settled_durations (tr ++ ev).
Proof. intros Htr Hev k id o [Hin | Hin]%elem_of_app; eauto. Qed.

Lemma settled_durations_launch k reqs t :
  Forall (promise_timed t) reqs →
  settled_durations (NodeLoop.launch_events k reqs).
Proof.
  intros Hreqs k' id o Hin.
  apply launch_events_settle_inv in Hin as (pr & Hpr & Hr).
  rewrite Forall_forall in Hreqs. specialize (Hreqs _ Hpr).
  destruct pr; simpl in *; try done. by injection Hr as <-.
Qed.

Lemma node_step_clock new_Request uuids config tr s ev s' :
  settled_durations tr →
  Forall (promise_timed (now (NodeLoop.world s))) (NodeLoop.requests s) →
  NodeRequest.step new_Request uuids config s ev s' →
  settled_durations (tr ++ ev)
  ∧ Forall (promise_timed (now (NodeLoop.world s'))) (NodeLoop.requests s').
Proof.
  intros Htr Hreqs Hstep.
  destruct Hstep as [s i p dt net c w' pr r Hi Hres Hpr Hr | s dt w1 s' w2 Hz Hend Hbeg].
  - destruct (node_resume_returns p net (advance dt (NodeLoop.world s)))
      as (o & w'' & Ho & _).
    rewrite Ho in Hres. injection Hres as <- <-.
    simpl in Hpr. injection Hpr as <-. simpl in Hr. injection Hr as <-.
    apply node_resume_clock in Ho as [Hnow Hd]. simpl in Hnow.
    assert (0 ≤ Outcome.duration o) as Hpos.
    { rewrite Hd. apply duration_nonneg. simpl.
      rewrite Forall_forall in Hreqs.
      specialize (Hreqs _ (list_elem_of_lookup_2 _ _ _ Hi)). simpl in Hreqs. lia. }
    split.
    + apply settled_durations_app; [done|].
      intros k id o' Hin. apply list_elem_of_singleton in Hin. by injection Hin as _ _ <-.
    + simpl. apply Forall_insert; [|done].
      eapply Forall_impl; [exact Hreqs|].
      intros pr. apply promise_timed_mono. lia.
  - apply node_begin_batch_clock in Hbeg as (Hnow & _ & Hnew).
    rewrite Hnow. split; [|done].
    apply settled_durations_app; [done|].
    intros k id o [[=] | [[=] | Hin]%elem_of_cons]%elem_of_cons.
    by eapply settled_durations_launch.
Qed.

(** X6: the durations of the Node client of src/node-request/request.js
    are never negative.  In every run each outcome has a duration of at
    least 0 ms, and every request that is still pending was started at or
    before the present reading of the clock: [hrtime.bigint()] never goes
    back, and the division by 1_000_000n rounds toward zero. *)
Theorem node_durations_never_negative new_URL new_Request parseInt uuids parsed w config tr s :
  node_run new_URL new_Request parseInt uuids parsed w config tr s →
  (∀ k id o, EvSettle k id (fulfilled o) ∈ tr → 0 ≤ Outcome.duration o)
  ∧ (∀ o, PFulfilled o ∈ NodeLoop.requests s → 0 ≤ Outcome.duration o)
  ∧ (∀ p, PPending p ∈ NodeLoop.requests s → p_startTime p ≤ now (NodeLoop.world s)).
Proof.
  intros (s0 & ev0 & Hmain & Hexec).
  assert (settled_durations tr
          ∧ Forall (promise_timed (now (NodeLoop.world s))) (NodeLoop.requests s))
    as [Htr Hreqs].
  { assert (settled_durations ev0
            ∧ Forall (promise_timed (now (NodeLoop.world s0))) (NodeLoop.requests s0))
      as H0.
    { unfold NodeRequest.main in Hmain.
      destruct (NodeRequest.getArgs new_URL parseInt parsed w)
        as [[cfg | e | code] w1] eqn:Ha; try done.
      destruct (NodeLoop.begin_batch _ cfg 1 w1) as [[s1 | e | code] w2] eqn:Hb; try done.
      injection Hmain as <- <- <-.
      apply node_begin_batch_clock in Hb as (Hnow & _ & Hnew). rewrite Hnow.
      split; [|done].
      intros k id o [[=] | Hin]%elem_of_cons. by eapply settled_durations_launch. }
    induction Hexec as [|tr s2 ev s3 Hexec IH Hstep]; [done|].
    destruct IH as [IH1 IH2]. by eapply node_step_clock. }
  rewrite Forall_forall in Hreqs.
  split; [exact Htr|]. split; intros x Hx; exact (Hreqs _ Hx).
Qed.

Lemma node_durations_never_negative_witness :
  (∀ k id o, EvSettle k id (fulfilled o) ∈ sample_node_tr → 0 ≤ Outcome.duration o)
  ∧ (∀ o, PFulfilled o ∈ NodeLoop.requests sample_node_s → 0 ≤ Outcome.duration o)
  ∧ (∀ p, PPending p ∈ NodeLoop.requests sample_node_s
          → p_startTime p ≤ now (NodeLoop.world sample_node_s)).
Proof.
  exact (node_durations_never_negative _ _ _ _ _ _ _ _ _ sample_node_run).
Defined.

(** ** What the Node client sends *)

Lemma node_begin_accepted new_Request uuids id url config req w :
  0 ≤ Config.timeout config →
  new_Request url = inr req →
  ∃ w' r,
    NodeRequest.singleRequest_begin new_Request uuids id url config w
    = (Return (Awaiting (mkPending id (now w) (timeout_signal (Config.timeout config)))), w')
    ∧ now w' = now w ∧ drawn w' = S (drawn w)
    ∧ wire w' = wire w ++ [r] ∧ node_sent config req r.
Proof.
  intros Ht Hreq. unfold NodeRequest.singleRequest_begin.
  rewrite call_timeout_AbortSignal. unfold AbortSignal.timeout.
  rewrite bool_decide_eq_true_2 by done. run. rewrite Hreq. simpl.
  eexists _, _. split; [reflexivity|]. simpl. repeat split. eauto.
Qed.

Lemma node_begin_refused new_Request uuids id url config e w :
  0 ≤ Config.timeout config →
  new_Request url = inl e →
  ∃ w',
    NodeRequest.singleRequest_begin new_Request uuids id url config w
    = (Return (Settled (failed_at_launch e id)), w')
    ∧ now w' = now w ∧ drawn w' = S (drawn w) ∧ wire w' = wire w.
Proof.
  intros Ht Hreq. unfold NodeRequest.singleRequest_begin.
  rewrite call_timeout_AbortSignal. unfold AbortSignal.timeout.
  rewrite bool_decide_eq_true_2 by done. run. rewrite Hreq. simpl.
  rewrite Z.sub_diag. eexists. split; [reflexivity|done].
Qed.

Lemma node_launch_accepted new_Request uuids config req xs acc w :
  0 ≤ Config.timeout config →
  new_Request (Config.url config) = inr req →
  ∃ w' ws,
    for_each
      (λ requests i,
       let* p := call_async (NodeRequest.singleRequest_begin new_Request uuids (i + 1)
                               (Config.url config) config) in
       ret (requests ++ [p])) xs acc w
    = (Return (acc ++ ((λ x, PPending (mkPending (x + 1) (now w)
                                          (timeout_signal (Config.timeout config)))) <$> xs)),
       w')
    ∧ now w' = now w
    ∧ drawn w' = (drawn w + length xs)%nat
    ∧ wire w' = wire w ++ ws ∧ length ws = length xs ∧ Forall (node_sent config req) ws.
Proof.
  intros Ht Hreq. revert acc w. induction xs as [|x xs IH]; intros acc w; simpl.
  - exists w, []. rewrite !app_nil_r. repeat split; [lia|constructor].
  - unfold bind at 1. unfold bind at 1. unfold call_async at 1.
    destruct (node_begin_accepted new_Request uuids (x + 1) _ config req w Ht Hreq)
      as (w1 & r & -> & Hnow & Hdrawn & Hwire & Hr).
    simpl.
    destruct (IH (acc ++ [PPending (mkPending (x + 1) (now w)
                                      (timeout_signal (Config.timeout config)))]) w1)
      as (w' & ws & -> & Hnow' & Hdrawn' & Hwire' & Hlen & Hall).
    exists w', (r :: ws). rewrite Hnow, <- app_assoc. split; [done|].
    split; [congruence|]. split; [lia|]. split; [|split; [simpl; lia|by constructor]].
    by rewrite Hwire', Hwire, <- app_assoc.
Qed.

Lemma node_launch_refused new_Request uuids config e xs acc w :
  0 ≤ Config.timeout config →
  new_Request (Config.url config) = inl e →
  ∃ w',
    for_each
      (λ requests i,
       let* p := call_async (NodeRequest.singleRequest_begin new_Request uuids (i + 1)
                               (Config.url config) config) in
       ret (requests ++ [p])) xs acc w
    = (Return (acc ++ ((λ x, PFulfilled (failed_at_launch e (x + 1))) <$> xs)), w')
    ∧ now w' = now w
    ∧ drawn w' = (drawn w + length xs)%nat
    ∧ wire w' = wire w.
Proof.
  intros Ht Hreq. revert acc w. induction xs as [|x xs IH]; intros acc w; simpl.
  - exists w. rewrite !app_nil_r. repeat split. lia.
  - unfold bind at 1. unfold bind at 1. unfold call_async at 1.
    destruct (node_begin_refused new_Request uuids (x + 1) _ config e w Ht Hreq)
      as (w1 & -> & Hnow & Hdrawn & Hwire).
    simpl.
    destruct (IH (acc ++ [PFulfilled (failed_at_launch e (x + 1))]) w1)
      as (w' & -> & Hnow' & Hdrawn' & Hwire').
    exists w'. rewrite <- app_assoc. split; [done|].
    split; [congruence|]. split; [lia|congruence].
Qed.

Lemma node_begin_batch_accepted new_Request uuids config req k w :
  0 ≤ Config.timeout config →
  new_Request (Config.url config) = inr req →
  ∃ s w' ws,
    NodeLoop.begin_batch (NodeRequest.singleRequest_begin new_Request uuids) config k w
    = (Return s, w')
    ∧ NodeLoop.batch s = k
    ∧ wire (NodeLoop.world s) = wire w ++ ws
    ∧ length ws = Z.to_nat (Config.concurrency config)
    ∧ Forall (node_sent config req) ws.
Proof.
  intros Ht Hreq. unfold NodeLoop.begin_batch, NodeLoop.launch. unfold bind at 1.
  destruct (node_launch_accepted new_Request uuids config req
              (seqZ 0 (Config.concurrency config)) [] w Ht Hreq)
    as (w1 & ws & -> & _ & _ & Hwire & Hlen & Hall).
  unfold bind, hrtime_bigint. eexists _, _, ws. split; [reflexivity|]. simpl.
  rewrite length_seqZ in Hlen. done.
Qed.

Lemma node_begin_batch_refused new_Request uuids config e k w :
  0 ≤ Config.timeout config →
  new_Request (Config.url config) = inl e →
  ∃ s w',
    NodeLoop.begin_batch (NodeRequest.singleRequest_begin new_Request uuids) config k w
    = (Return s, w')
    ∧ NodeLoop.batch s = k
    ∧ wire (NodeLoop.world s) = wire w
    ∧ NodeLoop.requests s
      = (λ x, PFulfilled (failed_at_launch e (x + 1))) <$> seqZ 0 (Config.concurrency config)
    ∧ NodeLoop.remaining s = 0%nat.
Proof.
  intros Ht Hreq. unfold NodeLoop.begin_batch, NodeLoop.launch. unfold bind at 1.
  destruct (node_launch_refused new_Request uuids config e
              (seqZ 0 (Config.concurrency config)) [] w Ht Hreq)
    as (w1 & -> & _ & _ & Hwire).
  unfold bind, hrtime_bigint. eexists _, _. split; [reflexivity|]. simpl.
  repeat split; [done|].
  rewrite filter_all_false; [done|].
  intros pr (x & -> & _)%list_elem_of_fmap. done.
Qed.

Lemma end_batch_wire s w w' :
  NodeLoop.end_batch s w = (Return (), w') → wire w' = wire w.
Proof.
  unfold NodeLoop.end_batch, bind, hrtime_bigint, console_log. simpl. by intros [= <-].
Qed.

Lemma node_main_running new_URL new_Request parseInt uuids parsed w config s0 ev0 :
  NodeRequest.main new_URL new_Request parseInt uuids parsed w
  = (NodeRequest.Running config s0, ev0) →
  1 ≤ Config.concurrency config ∧ 1 ≤ Config.timeout config
  ∧ ∃ w',
      NodeLoop.begin_batch (NodeRequest.singleRequest_begin new_Request uuids) config 1 w
      = (Return s0, w').
Proof.
  unfold NodeRequest.main.
  destruct (NodeRequest.getArgs new_URL parseInt parsed w) as [[cfg | e | code] w1] eqn:Ha;
    try done.
  destruct (getArgs_valid _ _ _ _ _ _ Ha) as [Hc Ht].
  apply getArgs_world in Ha as ->.
  destruct (NodeLoop.begin_batch _ cfg 1 w) as [[s1 | e | code] w2] eqn:Hb; try done.
  intros [= <- <- _]. eauto.
Qed.




Lemma sample_refused_run :
  node_run sample_new_URL sample_refusing_Request sample_parseInt sample_uuids
    (Return sample_values_credentials) world0 sample_config_credentials
    sample_refused_start.2 sample_refused_s0.
Proof.
  exists sample_refused_s0, sample_refused_start.2. split; [vm_compute; reflexivity|].
  apply exec_nil.
Defined.


(** ** Runs of src/unnamed/part_000 *)

Lemma part000_begin_batch new_Request config k w :
  NodeLoop.begin_batch (Part000.singleRequest_begin new_Request) config k w
  = (Return
       (NodeLoop.mkState w k
          (replicate (Z.to_nat (Config.concurrency config))
             (PRejected (TypeError "AbortController.timeout is not a function")))
          (replicate (Z.to_nat (Config.concurrency config))
             (Some (rejected (TypeError "AbortController.timeout is not a function"))))
          0 (now w)), w).
Proof.
  unfold NodeLoop.begin_batch. unfold bind at 1.
  rewrite part000_launch_all_rejected. unfold bind, hrtime_bigint.
  rewrite fmap_replicate. simpl.
  rewrite filter_all_false; [done|].
  by intros pr [-> _]%elem_of_replicate.
Qed.

(** X9: the client of src/unnamed/part_000 never sends a request.  On a
    command line that [getArgs] accepts it enters the loop, and in every
    run the transport has been given nothing, every promise of the batch
    is rejected with the TypeError of the undefined
    [AbortController.timeout], [Promise.allSettled] has nothing to wait
    for and resolves to rejections only, and the only step of the loop is
    to start the next batch at once. *)
Theorem part000_never_sends new_URL new_Request parseInt parsed w config tr s :
  part000_run new_URL new_Request parseInt parsed w config tr s →
  wire (NodeLoop.world s) = wire w
  ∧ NodeLoop.requests s
    = replicate (Z.to_nat (Config.concurrency config))
        (PRejected (TypeError "AbortController.timeout is not a function"))
  ∧ NodeLoop.outcomes s
    = Some (replicate (Z.to_nat (Config.concurrency config))
              (rejected (TypeError "AbortController.timeout is not a function")))
  ∧ (∀ ev s', Part000.step new_Request config s ev s' →
              ∃ ev', ev = EvJoin (NodeLoop.batch s) :: EvStart (NodeLoop.batch s + 1) :: ev')
  ∧ ∃ ev s', Part000.step new_Request config s ev s'.
Proof.
  intros (s0 & ev0 & Hmain & Hexec).
  assert (wire (NodeLoop.world s) = wire w
          ∧ ∃ k t, s = NodeLoop.mkState (NodeLoop.world s) k
                         (replicate (Z.to_nat (Config.concurrency config))
                            (PRejected (TypeError "AbortController.timeout is not a function")))
                         (replicate (Z.to_nat (Config.concurrency config))
                            (Some (rejected
                                     (TypeError "AbortController.timeout is not a function"))))
                         0 t) as (Hwire & k & t & Hs).
  { induction Hexec as [|tr s2 ev s3 Hexec IH Hstep].
    - unfold Part000Main.main in Hmain.
      change (Part000Main.getArgs new_URL parseInt parsed w)
        with (NodeRequest.getArgs new_URL parseInt parsed w) in Hmain.
      destruct (NodeRequest.getArgs new_URL parseInt parsed w)
        as [[cfg | e | code] w1] eqn:Ha; try done.
      apply getArgs_world in Ha as ->.
      rewrite part000_begin_batch in Hmain. injection Hmain as <- <- _. simpl. eauto.
    - destruct IH as (Hwire & k & t & Hs).
      destruct Hstep as [s i p dt net c w' pr r Hi Hres Hpr Hr | s dt w1 s' w2 Hz Hend Hbeg].
      + rewrite Hs in Hi. simpl in Hi. by apply lookup_replicate in Hi as [[=] _].
      + apply end_batch_wire in Hend. simpl in Hend.
        rewrite part000_begin_batch in Hbeg. injection Hbeg as <- _. simpl.
        split; [congruence|eauto]. }
  assert (NodeLoop.requests s
          = replicate (Z.to_nat (Config.concurrency config))
              (PRejected (TypeError "AbortController.timeout is not a function")))
    as Hreqs by (by rewrite Hs).
  assert (NodeLoop.values s
          = replicate (Z.to_nat (Config.concurrency config))
              (Some (rejected (TypeError "AbortController.timeout is not a function"))))
    as Hvals by (by rewrite Hs).
  assert (NodeLoop.remaining s = 0%nat) as Hrem by (by rewrite Hs).
  clear Hs. split; [done|]. split; [done|]. split; [|split].
  - unfold NodeLoop.outcomes. rewrite Hvals. apply mapM_Some.
    by apply Forall2_replicate.
  - intros ev s' Hstep.
    destruct Hstep as [s i p dt net c w' pr r Hi Hres Hpr Hr | s dt w1 s' w2 Hz Hend Hbeg].
    + rewrite Hreqs in Hi. by apply lookup_replicate in Hi as [[=] _].
    + eauto.
  - destruct (end_batch_returns s (advance 0 (NodeLoop.world s))) as [w1 Hend].
    eexists _, _. unfold Part000.step.
    eapply NodeLoop.step_join; [exact Hrem|exact Hend|apply part000_begin_batch].
Qed.

Lemma sample_part000_run :
  part000_run sample_new_URL sample_new_Request sample_parseInt
    (Return sample_values) world0 sample_config sample_part000_start.2 sample_part000_s0.
Proof.
  exists sample_part000_s0, sample_part000_start.2. split; [vm_compute; reflexivity|].
  apply exec_nil.
Defined.

Lemma part000_never_sends_witness :
  wire (NodeLoop.world sample_part000_s0) = []
  ∧ NodeLoop.requests sample_part000_s0
    = replicate 2 (PRejected (TypeError "AbortController.timeout is not a function"))
  ∧ NodeLoop.outcomes sample_part000_s0
    = Some (replicate 2 (rejected (TypeError "AbortController.timeout is not a function")))
  ∧ (∀ ev s', Part000.step sample_new_Request sample_config sample_part000_s0 ev s' →
              ∃ ev', ev = EvJoin (NodeLoop.batch sample_part000_s0)
                          :: EvStart (NodeLoop.batch sample_part000_s0 + 1) :: ev')
  ∧ ∃ ev s', Part000.step sample_new_Request sample_config sample_part000_s0 ev s'.
Proof.
  exact (part000_never_sends _ _ _ _ _ _ _ _ sample_part000_run).
Defined.

(** ** More on the Go client *)

Lemma go_main_setup args w setup s0 :
  GoRequest.main args w = GoRequest.Running setup s0 →
  GoRequest.Transport.MaxConnsPerHost (GoRequest.Client.Transport (GoRequest.client setup))
  = GoRequest.numRequests setup
  ∧ GoRequest.Transport.MaxIdleConns (GoRequest.Client.Transport (GoRequest.client setup))
    = GoRequest.numRequests setup
  ∧ GoRequest.wire (GoRequest.world s0) = GoRequest.wire w.
Proof.
  unfold GoRequest.main. simpl.
  destruct (GoRequest.flag_Parse args _) as [fs|]; [|done].
  by intros [= <- <-].
Qed.

(** X10: the WaitGroup and the connections of the Go client.  In every
    run with a URL that parses, the counter of the WaitGroup is the number
    of goroutines that have not ended, it is never negative, and it never
    exceeds the number of requests of a batch, which is the bound
    [MaxConnsPerHost] (and [MaxIdleConns]) that [main] has set on the
    transport. *)
Theorem go_waitgroup_counts_goroutines NewRequest_ok uuids args w setup tr s :
  go_run NewRequest_ok uuids args w setup tr s →
  NewRequest_ok (GoRequest.url setup) = true →
  GoRequest.wg s = Z.of_nat (length (GoRequest.goroutines s))
  ∧ 0 ≤ GoRequest.wg s
  ∧ GoRequest.wg s
    ≤ Z.max 0 (GoRequest.Transport.MaxConnsPerHost
                 (GoRequest.Client.Transport (GoRequest.client setup)))
  ∧ GoRequest.Transport.MaxIdleConns (GoRequest.Client.Transport (GoRequest.client setup))
    = GoRequest.Transport.MaxConnsPerHost
        (GoRequest.Client.Transport (GoRequest.client setup)).
Proof.
  intros Hrun Hurl.
  pose proof (go_run_alive _ _ _ _ _ _ _ Hrun Hurl) as Halive.
  destruct (go_run_inv _ _ _ _ _ _ _ Hrun) as [[Hpc _ Hwg Hperm _ _ _] _].
  destruct Hrun as (s0 & Hmain & _).
  destruct (go_main_setup _ _ _ _ Hmain) as (-> & -> & _).
  split; [done|]. split; [lia|]. split; [|done].
  rewrite Hwg.
  apply Permutation_length in Hperm. rewrite length_app, length_fmap in Hperm.
  destruct (GoRequest.pc s) as [i| |]; [| |done].
  - destruct Hpc as (Hi & Hle & Hla). rewrite Hla, length_seqZ in Hperm. lia.
  - rewrite Hpc, length_seqZ in Hperm. lia.
Qed.

Lemma go_waitgroup_counts_goroutines_witness :
  GoRequest.wg sample_go_s = Z.of_nat (length (GoRequest.goroutines sample_go_s))
  ∧ 0 ≤ GoRequest.wg sample_go_s
  ∧ GoRequest.wg sample_go_s
    ≤ Z.max 0 (GoRequest.Transport.MaxConnsPerHost
                 (GoRequest.Client.Transport (GoRequest.client sample_go_setup)))
  ∧ GoRequest.Transport.MaxIdleConns
      (GoRequest.Client.Transport (GoRequest.client sample_go_setup))
    = GoRequest.Transport.MaxConnsPerHost
        (GoRequest.Client.Transport (GoRequest.client sample_go_setup)).
Proof.
  apply (go_waitgroup_counts_goroutines _ _ _ _ _ _ _ sample_go_run). reflexivity.
Defined.

Lemma filter_insert_count_up {A} (P : A → Prop) `{∀ x, Decision (P x)} (l : list A) i x y :
  l !! i = Some x → ¬ P x → P y →
  length (filter P (<[i:=y]> l)) = S (length (filter P l)).
Proof.
  intros Hi Hx Hy.
  rewrite <- (take_drop_middle l i x Hi) at 2.
  rewrite insert_take_drop by (by eapply lookup_lt_Some).
  rewrite !filter_app, !length_app.
  rewrite (filter_cons_True _ y), (filter_cons_False _ x) by done. simpl. lia.
Qed.

Lemma filter_delete_count {A} (P : A → Prop) `{∀ x, Decision (P x)} (l : list A) i x :
  l !! i = Some x → P x →
  S (length (filter P (delete i l))) = length (filter P l).
Proof.
  intros Hi Hx.
  rewrite <- (take_drop_middle l i x Hi) at 2.
  rewrite delete_take_drop.
  rewrite !filter_app, !length_app.
  rewrite filter_cons_True by done. simpl. lia.
Qed.

Lemma ended_app {R} (tr ev : list (Event R)) :
  ended (tr ++ ev) = (ended tr + ended ev)%nat.
Proof. unfold ended. by rewrite omap_app, length_app. Qed.

Lemma go_step_sent NewRequest_ok uuids setup s ev s' :
  GoRequest.step NewRequest_ok uuids setup s ev s' →
  ∃ rs,
    GoRequest.wire (GoRequest.world s') = GoRequest.wire (GoRequest.world s) ++ rs
    ∧ Forall (go_sent setup) rs
    ∧ (length rs + length (in_flight (GoRequest.goroutines s)))%nat
      = (ended ev + length (in_flight (GoRequest.goroutines s')))%nat.
Proof.
  intros Hstep.
  destruct Hstep as [s i Hi Hlt | s i Hi Hge | s j g dt w' Hd Hj Hph Hbeg
                     | s j g dt Hd Hj Hph Hbeg | s j g dt r w' rep Hd Hj Hph Hend
                     | s dt Hpc Hz]; simpl.
  - exists []. rewrite app_nil_r. split; [done|]. split; [constructor|].
    unfold in_flight. rewrite filter_app, length_app.
    rewrite filter_cons_False by done. simpl. lia.
  - exists []. by rewrite app_nil_r.
  - unfold GoRequest.makeRequest_begin in Hbeg.
    destruct (NewRequest_ok (GoRequest.url setup)); [|done].
    injection Hbeg as <-. simpl. eexists [_]. split; [done|]. split.
    + repeat constructor; simpl; eauto.
    + unfold in_flight. erewrite filter_insert_count_up; [simpl; lia|exact Hj| |done].
      unfold is_in_flight. by rewrite Hph.
  - exists []. by rewrite app_nil_r.
  - exists []. rewrite app_nil_r. split; [|split; [constructor|]].
    + unfold GoRequest.makeRequest_end in Hend.
      destruct r as [err | resp [err|]]; by injection Hend as <- _.
    + assert (is_in_flight g = true) as Hg by (unfold is_in_flight; by rewrite Hph).
      pose proof (filter_delete_count (λ g, is_in_flight g = true) _ _ _ Hj Hg) as Hc.
      unfold in_flight, ended. simpl. lia.
  - exists []. by rewrite app_nil_r.
Qed.

(** X11: the requests of the Go client are conserved.  Every goroutine
    gives at most one request to [client.Do] and ends only after that: in
    every run the number of requests sent is the number of requests that
    have ended plus the number of goroutines inside [client.Do]; and every
    request sent is a GET for the configured URL with the test-id
    header. *)
Theorem go_requests_are_conserved NewRequest_ok uuids args w setup tr s :
  go_run NewRequest_ok uuids args w setup tr s →
  ∃ rs,
    GoRequest.wire (GoRequest.world s) = GoRequest.wire w ++ rs
    ∧ Forall (go_sent setup) rs
    ∧ length rs = (ended tr + length (in_flight (GoRequest.goroutines s)))%nat.
Proof.
  intros (s0 & Hmain & Hexec).
  destruct (go_main_setup _ _ _ _ Hmain) as (_ & _ & Hwire0).
  destruct (go_main_running _ _ _ _ Hmain) as (_ & _ & _ & _ & _ & Hgs0).
  rewrite <- Hwire0. clear Hmain Hwire0.
  induction Hexec as [|tr s2 ev s3 Hexec IH Hstep].
  - exists []. rewrite app_nil_r, Hgs0. split; [done|]. split; [constructor|done].
  - destruct IH as (rs & Hwire & Hall & Hlen).
    destruct (go_step_sent _ _ _ _ _ _ Hstep) as (rs' & Hwire' & Hall' & Hlen').
    exists (rs ++ rs'). split; [by rewrite Hwire', Hwire, <- app_assoc|].
    split; [by apply Forall_app|].
    rewrite length_app, ended_app. lia.
Qed.

Lemma go_requests_are_conserved_witness :
  ∃ rs,
    GoRequest.wire (GoRequest.world sample_go_s) = GoRequest.wire go_world0 ++ rs
    ∧ Forall (go_sent sample_go_setup) rs
    ∧ length rs
      = (ended sample_go_tr + length (in_flight (GoRequest.goroutines sample_go_s)))%nat.
Proof.
  exact (go_requests_are_conserved _ _ _ _ _ _ _ sample_go_run).
Defined.

Lemma go_main_exec_start NewRequest_ok uuids args w setup s0 :
  GoRequest.main args w = GoRequest.Running setup s0 →
  go_run NewRequest_ok uuids args w setup [EvStart (GoRequest.batchNumber s0)] s0.
Proof. intros Hmain. exists s0. split; [done|]. apply exec_nil. Qed.

Lemma go_run_step NewRequest_ok uuids args w setup tr s ev s' :
  go_run NewRequest_ok uuids args w setup tr s →
  GoRequest.step NewRequest_ok uuids setup s ev s' →
  go_run NewRequest_ok uuids args w setup (tr ++ ev) s'.
Proof.
  intros (s0 & Hmain & Hexec) Hstep. exists s0. split; [done|]. by eapply exec_step.
Qed.

(** The invariant of a run of the Go client on a URL that
    [http.NewRequest] refuses, with at least one request in a batch. *)
Lemma go_refused_inv NewRequest_ok uuids args w setup tr s :
  go_run NewRequest_ok uuids args w setup tr s →
  NewRequest_ok (GoRequest.url setup) = false →
  1 ≤ GoRequest.numRequests setup →
  GoRequest.wire (GoRequest.world s) = GoRequest.wire w
  ∧ GoRequest.turn s = 0%nat
  ∧ settled tr = []
  ∧ Forall (λ e, ∃ k, e = EvStart k ∨ ∃ id, e = EvLaunch k id) tr
  ∧ Forall (λ g, is_in_flight g = false) (GoRequest.goroutines s).
Proof.
  intros (s0 & Hmain & Hexec) Hurl Hn.
  pose proof (go_main_exec_start NewRequest_ok uuids _ _ _ _ Hmain) as Hrun0.
  destruct (go_main_setup _ _ _ _ Hmain) as (_ & _ & Hwire0).
  destruct (go_main_running _ _ _ _ Hmain) as (_ & _ & Hturn0 & _ & _ & Hgs0).
  assert (go_run NewRequest_ok uuids args w setup tr s
          ∧ GoRequest.wire (GoRequest.world s) = GoRequest.wire w
          ∧ GoRequest.turn s = 0%nat
          ∧ settled tr = []
          ∧ Forall (λ e, ∃ k, e = EvStart k ∨ ∃ id, e = EvLaunch k id) tr
          ∧ Forall (λ g, is_in_flight g = false) (GoRequest.goroutines s)) as [_ H];
    [|exact H].
  induction Hexec as [|tr s2 ev s3 Hexec IH Hstep].
  - split; [done|]. rewrite Hgs0. repeat split; try done.
    repeat constructor. eauto.
  - destruct IH as (Hrun & Hwire & Hturn & Hse & Htr & Hgs).
    split; [by eapply go_run_step|].
    destruct (go_run_inv _ _ _ _ _ _ _ Hrun) as [[Hpc _ Hwg Hperm _ _ _] _].
    destruct Hstep as [s i Hi Hlt | s i Hi Hge | s j g dt w' Hd Hj Hph Hbeg
                       | s j g dt Hd Hj Hph Hbeg | s j g dt r w' rep Hd Hj Hph Hend
                       | s dt Hpc' Hz]; simpl.
    + split; [done|]. split; [done|].
      split; [by rewrite settled_app_quiet, Hse|].
      split; [apply Forall_app; split; [done|]; repeat constructor; eauto|].
      apply Forall_app. split; [done|]. by repeat constructor.
    + by rewrite app_nil_r.
    + unfold GoRequest.makeRequest_begin in Hbeg. by rewrite Hurl in Hbeg.
    + by rewrite app_nil_r.
    + rewrite Forall_forall in Hgs.
      specialize (Hgs _ (list_elem_of_lookup_2 _ _ _ Hj)).
      unfold is_in_flight in Hgs. by rewrite Hph in Hgs.
    + exfalso. rewrite Hpc' in Hpc.
      apply Permutation_length in Hperm.
      rewrite length_app, length_fmap, Hse, Hpc, length_seqZ in Hperm. simpl in Hperm. lia.
Qed.



(** ** The middleware of package metrics *)

Lemma srw_ServeHTTP {W} `{Http.ResponseWriter W} (h : Http.Handler) (rw : W) (code : Z) :
  Http.ServeHTTP h (Metrics.mkSRW rw code)
  = (λ rw', Metrics.mkSRW rw' (default code (last (written_codes (calls h rw)))))
      <$> Http.ServeHTTP h rw.
Proof.
  revert rw code. induction h as [| | key value k IH | c k IH | data k IH]; intros rw code.
  - done.
  - done.
  - simpl. by rewrite IH.
  - simpl. destruct (Http.WriteHeader c rw) as [rw'|] eqn:Hw; [|done].
    rewrite IH. destruct (Http.ServeHTTP k rw') as [rw''|]; [|done]. simpl.
    f_equal. f_equal. destruct (written_codes (calls k rw')) as [|z l]; [done|].
    simpl. by destruct (proj2 (last_is_Some (z :: l)) ltac:(done)) as [x ->].
  - simpl. destruct (Http.Write data rw) as [r rw'] eqn:Hw. by rewrite IH.
Qed.


(** X14: what the middleware records for a request that [next] handles
    without a panic.  The log gets the two lines of the request; exactly
    one counter goes up by one, that of the handler label, the method of
    the request and the code of the last call of [WriteHeader] that
    [next] made, or 200 if it made none; exactly one duration is added to
    the histogram, under the handler label and the method: the time
    [next] took, which is not negative.  All other counters and
    observations stay as they were. *)
Theorem middleware_counts_the_request {W} `{Http.ResponseWriter W}
    (next : Http.Request → Http.Handler) handlerLabel r dt (rw : W) w rw' :
  Http.ServeHTTP (next r) rw = Some rw' →
  ∃ code d,
    code = Metrics.Itoa (default Http.StatusOK (last (written_codes (calls (next r) rw))))
    ∧ d = Z.min (2 ^ 63 - 1) (Z.max 0 dt) ∧ 0 ≤ d
    ∧ Metrics.PrometheusMiddleware next handlerLabel r dt rw w
      = (Some rw',
         Metrics.mkWorld (Metrics.now w + Z.max 0 dt)
           (Metrics.output w
            ++ [GoRequest.Log "Received request: %s %s"
                  [GoRequest.AString (Http.Method r); GoRequest.AString (Http.Path r)];
                GoRequest.Log "Request handled: Method=%s, Path=%s, Latency=%s"
                  [GoRequest.AString (Http.Method r); GoRequest.AString (Http.Path r);
                   GoRequest.ADuration d]])
           (<[(handlerLabel, Http.Method r, code) :=
                (default 0 (Metrics.httpRequestsTotal w
                            !! (handlerLabel, Http.Method r, code)) + 1)%N]>
              (Metrics.httpRequestsTotal w))
           (<[(handlerLabel, Http.Method r) :=
                default [] (Metrics.httpRequestDuration w !! (handlerLabel, Http.Method r))
                ++ [d]]>
              (Metrics.httpRequestDuration w))).
Proof.
  intros Hnext. eexists _, _. split; [reflexivity|]. split; [reflexivity|].
  assert (0 < 2 ^ 63) as H63 by done. split; [lia|].
  unfold Metrics.PrometheusMiddleware, Metrics.PrometheusMiddleware_begin,
    Metrics.PrometheusMiddleware_end,
    Metrics.PrometheusMiddleware_handled, Metrics.counter_labels, Metrics.histogram_labels,
    Metrics.newStatusResponseWriter.
  rewrite srw_ServeHTTP, Hnext. simpl.
  unfold Metrics.Observe, Metrics.Inc, Metrics.log_Printf, Metrics.advance, Metrics.Since.
  simpl. rewrite <- app_assoc. simpl.
  replace (Z.max (- 2 ^ 63)
             (Z.min (2 ^ 63 - 1) (Metrics.now w + Z.max 0 dt - Metrics.now w)))
    with (Z.min (2 ^ 63 - 1) (Z.max 0 dt)) by lia.
  done.
Qed.

Lemma middleware_counts_the_request_witness :
  ∃ code d,
    code = Metrics.Itoa (default Http.StatusOK
                           (last (written_codes
                                    (calls (MockServer.mockHandler "{}"
                                              (Http.mkRequest "GET" "/"))
                                       (Http.new_response (Http.mkRequest "GET" "/"))))))
    ∧ d = Z.min (2 ^ 63 - 1) (Z.max 0 1000) ∧ 0 ≤ d
    ∧ Metrics.PrometheusMiddleware (MockServer.mockHandler "{}") "root"
        (Http.mkRequest "GET" "/") 1000 (Http.new_response (Http.mkRequest "GET" "/"))
        (Metrics.new_World 0)
      = (Some (mock_response "{}" (Http.mkRequest "GET" "/")),
         Metrics.mkWorld (0 + Z.max 0 1000)
           ([] ++ [GoRequest.Log "Received request: %s %s"
                     [GoRequest.AString "GET"; GoRequest.AString "/"];
                   GoRequest.Log "Request handled: Method=%s, Path=%s, Latency=%s"
                     [GoRequest.AString "GET"; GoRequest.AString "/";
                      GoRequest.ADuration d]])
           (<[("root", "GET", code) :=
                (default 0 ((∅ : gmap (string * string * string) N)
                            !! ("root", "GET", code)) + 1)%N]> ∅)
           (<[("root", "GET") :=
                default [] ((∅ : gmap (string * string) (list Z)) !! ("root", "GET"))
                ++ [d]]> ∅)).
Proof.
  apply (middleware_counts_the_request (MockServer.mockHandler "{}") "root"
           (Http.mkRequest "GET" "/") 1000 (Http.new_response (Http.mkRequest "GET" "/"))
           (Metrics.new_World 0)).
  reflexivity.
Defined.

Lemma Itoa_inj a b : Metrics.Itoa a = Metrics.Itoa b → a = b.
Proof. unfold Metrics.Itoa. apply (inj pretty). Qed.

Lemma response_Write_fresh data w :
  Http.wroteHeader w = false →
  ∃ res rw1,
    Http.response_Write data w = (res, rw1)
    ∧ Http.wroteHeader rw1 = true ∧ Http.status rw1 = 200
    ∧ Http.superfluous rw1 = Http.superfluous w.
Proof.
  intros Hw. unfold Http.response_Write. rewrite Hw. simpl.
  case_bool_decide; [by eexists _, _|].
  destruct (Http.head w); by eexists _, _.
Qed.

(** X15: the code in the metrics is the code of the last [WriteHeader],
    which need not be the status the client got.  With the writer of
    net/http, a handler that calls [WriteHeader(a)] and then
    [WriteHeader(b)] sends the status [a], and one that writes a body
    first and calls [WriteHeader(b)] after sends 200: the second call is
    dropped as superfluous by the writer, but [statusResponseWriter] has
    stored its code, and the request is counted under [b]. *)
Theorem metrics_code_is_last_written a b handlerLabel r dt data w :
  200 ≤ a ≤ 999 → 200 ≤ b ≤ 999 → a ≠ b → b ≠ 200 →
  (∃ rw' w',
     Metrics.PrometheusMiddleware
       (λ _, Http.DoWriteHeader a (Http.DoWriteHeader b Http.Done)) handlerLabel r dt
       (Http.new_response r) w = (Some rw', w')
     ∧ Http.status (Http.finish rw') = a
     ∧ Http.superfluous rw' = 1%nat
     ∧ Metrics.httpRequestsTotal w' !! (handlerLabel, Http.Method r, Metrics.Itoa b)
       = Some (default 0 (Metrics.httpRequestsTotal w
                          !! (handlerLabel, Http.Method r, Metrics.Itoa b)) + 1)%N
     ∧ Metrics.httpRequestsTotal w' !! (handlerLabel, Http.Method r, Metrics.Itoa a)
       = Metrics.httpRequestsTotal w !! (handlerLabel, Http.Method r, Metrics.Itoa a))
  ∧ (∃ rw' w',
       Metrics.PrometheusMiddleware
         (λ _, Http.DoWrite data (λ _, Http.DoWriteHeader b Http.Done)) handlerLabel r dt
         (Http.new_response r) w = (Some rw', w')
       ∧ Http.status (Http.finish rw') = 200
       ∧ Http.superfluous rw' = 1%nat
       ∧ Metrics.httpRequestsTotal w' !! (handlerLabel, Http.Method r, Metrics.Itoa b)
         = Some (default 0 (Metrics.httpRequestsTotal w
                            !! (handlerLabel, Http.Method r, Metrics.Itoa b)) + 1)%N
       ∧ Metrics.httpRequestsTotal w' !! (handlerLabel, Http.Method r, Metrics.Itoa 200)
         = Metrics.httpRequestsTotal w !! (handlerLabel, Http.Method r, Metrics.Itoa 200)).
Proof.
  intros Ha Hb Hab Hb200.
  assert (∀ c, c ≠ b →
            (handlerLabel, Http.Method r, Metrics.Itoa b)
            ≠ (handlerLabel, Http.Method r, Metrics.Itoa c)) as Hne.
  { intros c Hc [= Heq]. apply Itoa_inj in Heq. done. }
  split.
  - unfold Metrics.PrometheusMiddleware, Metrics.PrometheusMiddleware_begin,
      Metrics.PrometheusMiddleware_end,
    Metrics.PrometheusMiddleware_handled, Metrics.counter_labels, Metrics.histogram_labels,
    Metrics.newStatusResponseWriter.
    simpl. unfold Http.response_WriteHeader. simpl.
    rewrite bool_decide_eq_false_2 by lia. rewrite bool_decide_eq_false_2 by lia. simpl.
    eexists _, _. split; [reflexivity|]. simpl.
    split; [done|]. split; [done|]. split.
    + by rewrite lookup_insert_eq.
    + rewrite lookup_insert_ne; [done|]. exact (Hne a ltac:(lia)).
  - unfold Metrics.PrometheusMiddleware, Metrics.PrometheusMiddleware_begin,
      Metrics.PrometheusMiddleware_end,
    Metrics.PrometheusMiddleware_handled, Metrics.counter_labels, Metrics.histogram_labels,
    Metrics.newStatusResponseWriter.
    rewrite srw_ServeHTTP.
    destruct (response_Write_fresh data (Http.new_response r) eq_refl)
      as (res & rw1 & Hw & Hwrote & Hst & Hsup).
    cbn -[Http.response_Write Http.new_response].
    rewrite Hw. unfold Http.response_WriteHeader. rewrite Hwrote.
    cbn -[Http.response_Write Http.new_response].
    eexists _, _. split; [reflexivity|]. simpl.
    split; [done|]. split; [by rewrite Hsup|]. split.
    + by rewrite lookup_insert_eq.
    + rewrite lookup_insert_ne; [done|]. exact (Hne 200 ltac:(lia)).
Qed.

Lemma metrics_code_is_last_written_witness :
  (∃ rw' w',
     Metrics.PrometheusMiddleware
       (λ _, Http.DoWriteHeader 200 (Http.DoWriteHeader 500 Http.Done)) "root"
       (Http.mkRequest "GET" "/") 1000
       (Http.new_response (Http.mkRequest "GET" "/")) (Metrics.new_World 0) = (Some rw', w')
     ∧ Http.status (Http.finish rw') = 200
     ∧ Http.superfluous rw' = 1%nat
     ∧ Metrics.httpRequestsTotal w' !! ("root", "GET", Metrics.Itoa 500)
       = Some (default 0 (Metrics.httpRequestsTotal (Metrics.new_World 0)
                          !! ("root", "GET", Metrics.Itoa 500)) + 1)%N
     ∧ Metrics.httpRequestsTotal w' !! ("root", "GET", Metrics.Itoa 200)
       = Metrics.httpRequestsTotal (Metrics.new_World 0) !! ("root", "GET", Metrics.Itoa 200))
  ∧ (∃ rw' w',
       Metrics.PrometheusMiddleware
         (λ _, Http.DoWrite "oops" (λ _, Http.DoWriteHeader 500 Http.Done)) "root"
         (Http.mkRequest "GET" "/") 1000
         (Http.new_response (Http.mkRequest "GET" "/")) (Metrics.new_World 0)
       = (Some rw', w')
       ∧ Http.status (Http.finish rw') = 200
       ∧ Http.superfluous rw' = 1%nat
       ∧ Metrics.httpRequestsTotal w' !! ("root", "GET", Metrics.Itoa 500)
         = Some (default 0 (Metrics.httpRequestsTotal (Metrics.new_World 0)
                            !! ("root", "GET", Metrics.Itoa 500)) + 1)%N
       ∧ Metrics.httpRequestsTotal w' !! ("root", "GET", Metrics.Itoa 200)
         = Metrics.httpRequestsTotal (Metrics.new_World 0)
           !! ("root", "GET", Metrics.Itoa 200)).
Proof.
  apply (metrics_code_is_last_written 200 500 "root" (Http.mkRequest "GET" "/") 1000 "oops"
           (Metrics.new_World 0)); lia.
Defined.

(** ** The mock server *)

Lemma mockHandler_serves bytes r :
  Http.ServeHTTP (MockServer.mockHandler bytes r) (Http.new_response r)
  = Some (mock_response bytes r)
  ∧ written_codes (calls (MockServer.mockHandler bytes r) (Http.new_response r)) = [200].
Proof.
  unfold MockServer.mockHandler, mock_response, Http.new_response. simpl.
  unfold Http.response_Write. simpl.
  split; [|by destruct (if bool_decide (bytes = "") then _ else _)].
  case_bool_decide as Hb.
  - subst bytes. by case_bool_decide.
  - by case_bool_decide.
Qed.

Lemma mock_handled bytes r startTime w :
  Metrics.PrometheusMiddleware_handled (MockServer.mockHandler bytes) r startTime
    (Http.new_response r) w
  = (Some (Metrics.mkSRW (mock_response bytes r) 200, Metrics.Since startTime (Metrics.now w)),
     Metrics.log_Printf "Request handled: Method=%s, Path=%s, Latency=%s"
       [GoRequest.AString (Http.Method r); GoRequest.AString (Http.Path r);
        GoRequest.ADuration (Metrics.Since startTime (Metrics.now w))] w).
Proof.
  unfold Metrics.PrometheusMiddleware_handled, Metrics.newStatusResponseWriter.
  rewrite srw_ServeHTTP.
  destruct (mockHandler_serves bytes r) as [-> ->]. done.
Qed.

Lemma server_main_serving marshalled t s0 :
  MockServer.main marshalled t = MockServer.Serving s0 →
  marshalled = inr (MockServer.mockResponseBytes s0)
  ∧ MockServer.conns s0 = []
  ∧ Metrics.httpRequestsTotal (MockServer.world s0) = ∅
  ∧ Metrics.httpRequestDuration (MockServer.world s0) = ∅.
Proof.
  unfold MockServer.main, MockServer.init.
  destruct marshalled as [err | bytes]; [done|]. by intros [= <-].
Qed.

Lemma with_method_snoc m tr r (resp : option Http.response) :
  with_method m (tr ++ [(r, resp)])
  = with_method m tr ++ (if decide (Http.Method r = m) then [(r, resp)] else []).
Proof.
  unfold with_method. by rewrite filter_app.
Qed.

Lemma Since_nonneg startTime now : startTime ≤ now → 0 ≤ Metrics.Since startTime now.
Proof. assert (0 < 2 ^ 63) by done. unfold Metrics.Since. lia. Qed.

Lemma filter_insert_same {A} (P : A → Prop) `{∀ x, Decision (P x)} (l : list A) i x y :
  l !! i = Some x → ¬ P x → ¬ P y →
  length (filter P (<[i:=y]> l)) = length (filter P l).
Proof.
  intros Hi Hx Hy.
  rewrite <- (take_drop_middle l i x Hi) at 2.
  rewrite insert_take_drop by (by eapply lookup_lt_Some).
  rewrite !filter_app, !length_app.
  by rewrite (filter_cons_False _ y), (filter_cons_False _ x).
Qed.

Lemma filter_delete_same {A} (P : A → Prop) `{∀ x, Decision (P x)} (l : list A) i x :
  l !! i = Some x → ¬ P x →
  length (filter P (delete i l)) = length (filter P l).
Proof.
  intros Hi Hx.
  rewrite <- (take_drop_middle l i x Hi) at 2.
  rewrite delete_take_drop.
  rewrite !filter_app, !length_app.
  by rewrite (filter_cons_False _ x).
Qed.

(** What holds of a goroutine of the mock server at the time [t]. *)
Lemma conn_ok_mono bytes t t' c : t ≤ t' → conn_ok bytes t c → conn_ok bytes t' c.
Proof. intros Ht [Hs Hp]. split; [lia|done]. Qed.

Lemma conns_ok_advance bytes t dt cs :
  Forall (conn_ok bytes t) cs → Forall (conn_ok bytes (t + Z.max 0 dt)) cs.
Proof. intros Hcs. eapply Forall_impl; [exact Hcs|]. intros c. apply conn_ok_mono. lia. Qed.

Lemma conns_ok_delete bytes t j cs :
  Forall (conn_ok bytes t) cs → Forall (conn_ok bytes t) (delete j cs).
Proof.
  rewrite !Forall_forall. intros Hcs c Hc. apply Hcs. by eapply list_elem_of_delete_inv.
Qed.

(** What holds of the server and of the requests it has answered. *)
Lemma server_run_inv marshalled t tr s :
  server_run marshalled t tr s →
  marshalled = inr (MockServer.mockResponseBytes s)
  ∧ Forall (λ ev, ev.2 = Some (mock_response (MockServer.mockResponseBytes s) ev.1)) tr
  ∧ (∀ m, default 0%N (Metrics.httpRequestsTotal (MockServer.world s) !! ("root", m, "200"))
          = N.of_nat (length (with_method m tr) + length (counted m (MockServer.conns s))))
  ∧ (∀ key, is_Some (Metrics.httpRequestsTotal (MockServer.world s) !! key) →
            ∃ m, key = ("root", m, "200"))
  ∧ (∀ m, length (default [] (Metrics.httpRequestDuration (MockServer.world s) !! ("root", m)))
          = length (with_method m tr))
  ∧ (∀ key ds, Metrics.httpRequestDuration (MockServer.world s) !! key = Some ds →
               Forall (λ d, 0 ≤ d) ds ∧ ∃ m, key = ("root", m))
  ∧ Forall (conn_ok (MockServer.mockResponseBytes s) (Metrics.now (MockServer.world s)))
      (MockServer.conns s).
Proof.
  intros (s0 & Hmain & Hexec).
  destruct (server_main_serving _ _ _ Hmain) as (Hm & Hc & Ht & Hd).
  induction Hexec as [|tr s2 ev s3 Hexec IH Hstep].
  - rewrite Hc, Ht, Hd. do 3 (split; [done|]). split; [by intros key [x Hx]|].
    split; [done|]. split; [done|constructor].
  - destruct IH as (Hbytes & Hresp & Htot & Htot' & Hhist & Hhist' & Hconns).
    destruct Hstep as [s r dt startTime w' Hbeg | s j c dt srw d w' Hj Hph Hend
                       | s j c dt w' Hj Hph Hend | s j c dt rw labels d Hj Hph
                       | s j c dt rw d Hj Hph].
    + injection Hbeg as <- <-. simpl. rewrite app_nil_r.
      split; [done|]. split; [done|]. split.
      { intros m. unfold counted. rewrite filter_app, length_app.
        rewrite (filter_cons_False _ (MockServer.mkConn _ _ _)).
        - simpl. rewrite Htot. unfold counted. f_equal. lia.
        - unfold is_counted. simpl. by rewrite andb_false_r. }
      do 3 (split; [done|]).
      apply Forall_app. split; [by apply conns_ok_advance|].
      repeat constructor; simpl; lia.
    + rewrite mock_handled in Hend. injection Hend as <- <- <-. simpl. rewrite app_nil_r.
      pose proof Hconns as Hall. rewrite Forall_forall in Hall.
      destruct (Hall _ (list_elem_of_lookup_2 _ _ _ Hj)) as [Hst _].
      split; [done|]. split; [done|]. split.
      { intros m. unfold counted. erewrite filter_insert_same; [apply Htot|exact Hj| |].
        - unfold is_counted. rewrite Hph. by rewrite andb_false_r.
        - unfold is_counted. simpl. by rewrite andb_false_r. }
      do 3 (split; [done|]).
      apply Forall_insert; [by apply conns_ok_advance|].
      split; simpl; [lia|]. split; [done|]. split; [done|].
      apply Since_nonneg. lia.
    + by rewrite mock_handled in Hend.
    + simpl. rewrite app_nil_r.
      pose proof Hconns as Hall. rewrite Forall_forall in Hall.
      destruct (Hall _ (list_elem_of_lookup_2 _ _ _ Hj)) as [Hst Hp].
      rewrite Hph in Hp. destruct Hp as (-> & -> & Hd0).
      split; [done|]. split; [done|]. split; [|split].
      { intros m. destruct (decide (Http.Method (MockServer.c_request c) = m)) as [<- | Hne].
        - rewrite lookup_insert_eq. simpl. unfold counted.
          erewrite filter_insert_count_up; [|exact Hj| |].
          + rewrite Htot. unfold counted. lia.
          + unfold is_counted. rewrite Hph. by rewrite andb_false_r.
          + unfold is_counted. simpl. by rewrite bool_decide_eq_true_2.
        - rewrite lookup_insert_ne by congruence. simpl. unfold counted.
          erewrite filter_insert_same; [apply Htot|exact Hj| |].
          + unfold is_counted. rewrite Hph. by rewrite andb_false_r.
          + unfold is_counted. simpl. by rewrite bool_decide_eq_false_2. }
      { intros key Hkey.
        destruct (decide (key = ("root", Http.Method (MockServer.c_request c), "200")))
          as [-> | Hne]; [eauto|].
        rewrite lookup_insert_ne in Hkey by done. eauto. }
      do 2 (split; [done|]).
      apply Forall_insert; [by apply conns_ok_advance|].
      split; simpl; [lia|done].
    + simpl.
      pose proof Hconns as Hall. rewrite Forall_forall in Hall.
      destruct (Hall _ (list_elem_of_lookup_2 _ _ _ Hj)) as [Hst Hp].
      rewrite Hph in Hp. destruct Hp as (-> & Hd0).
      set (r := MockServer.c_request c) in *.
      split; [done|]. split; [|split; [|split; [|split; [|split]]]].
      * apply Forall_app. split; [done|]. by repeat constructor.
      * intros m. rewrite with_method_snoc, length_app. unfold counted.
        destruct (decide (Http.Method r = m)) as [<- | Hne].
        -- rewrite Htot. unfold counted.
           rewrite <- (filter_delete_count _ (MockServer.conns s) j c Hj).
           ++ simpl. f_equal. lia.
           ++ unfold is_counted. rewrite Hph. by rewrite bool_decide_eq_true_2.
        -- rewrite Htot. unfold counted.
           rewrite (filter_delete_same _ (MockServer.conns s) j c Hj).
           ++ simpl. f_equal. lia.
           ++ unfold is_counted. fold r. by rewrite bool_decide_eq_false_2.
      * done.
      * intros m. rewrite with_method_snoc, length_app. unfold Metrics.histogram_labels.
        destruct (decide (Http.Method r = m)) as [<- | Hne].
        -- rewrite lookup_insert_eq. simpl. rewrite length_app, Hhist. done.
        -- rewrite lookup_insert_ne by congruence. simpl. rewrite Hhist. lia.
      * intros key ds Hkey. unfold Metrics.histogram_labels in Hkey.
        destruct (decide (key = ("root", Http.Method r))) as [-> | Hne].
        -- rewrite lookup_insert_eq in Hkey. injection Hkey as <-. split; [|eauto].
           apply Forall_app. split; [|by repeat constructor].
           destruct (Metrics.httpRequestDuration (MockServer.world s)
                     !! ("root", Http.Method r)) as [ds|] eqn:Hds; [|constructor].
           by apply Hhist' in Hds as [? _].
        -- rewrite lookup_insert_ne in Hkey by done. eauto.
      * apply conns_ok_delete. by apply conns_ok_advance.
Qed.

Lemma server_do_step s a ev s' :
  server_do s a = Some (ev, s') → MockServer.step s ev s'.
Proof.
  destruct a as [r dt | j dt | j dt | j dt]; unfold server_do.
  - destruct (Metrics.PrometheusMiddleware_begin r _) as [startTime w'] eqn:Hbeg.
    intros [= <- <-]. by eapply MockServer.step_accept.
  - destruct (MockServer.conns s !! j) as [c|] eqn:Hj; [|done].
    destruct (MockServer.c_phase c) eqn:Hph; try done.
    destruct (Metrics.PrometheusMiddleware_handled _ _ _ _ _) as [[[srw d]|] w'] eqn:Hend;
      intros [= <- <-].
    + by eapply MockServer.step_handled.
    + by eapply MockServer.step_panic.
  - destruct (MockServer.conns s !! j) as [c|] eqn:Hj; [|done].
    destruct (MockServer.c_phase c) eqn:Hph; try done.
    intros [= <- <-]. by eapply MockServer.step_inc.
  - destruct (MockServer.conns s !! j) as [c|] eqn:Hj; [|done].
    destruct (MockServer.c_phase c) eqn:Hph; try done.
    intros [= <- <-]. by eapply MockServer.step_observe.
Qed.

Lemma sample_server_run : server_run (inr "{}") 0 sample_server_tr sample_server_s.
Proof.
  exists sample_server_s0. split; [vm_compute; reflexivity|].
  apply (play_exec server_do _ sample_server_actions _ [] sample_server_tr).
  - apply server_do_step.
  - vm_compute. reflexivity.
Defined.



(** X17: the counter of the mock server.  In every run, for every method,
    the counter with the labels handler "root", that method and code "200"
    is the number of requests with that method answered so far plus the
    number of those whose goroutine is between [Inc()] and [Observe()];
    so it is the number of requests answered whenever no request is being
    handled.  There is no counter with other labels. *)
Theorem mock_server_counts_requests marshalled t tr s :
  server_run marshalled t tr s →
  (∀ m, default 0%N (Metrics.httpRequestsTotal (MockServer.world s) !! ("root", m, "200"))
        = N.of_nat (length (with_method m tr) + length (counted m (MockServer.conns s))))
  ∧ (MockServer.conns s = [] →
     ∀ m, default 0%N (Metrics.httpRequestsTotal (MockServer.world s) !! ("root", m, "200"))
          = N.of_nat (length (with_method m tr)))
  ∧ ∀ key, (∀ m, key ≠ ("root", m, "200")) →
           Metrics.httpRequestsTotal (MockServer.world s) !! key = None.
Proof.
  intros Hrun. destruct (server_run_inv _ _ _ _ Hrun) as (_ & _ & Htot & Htot' & _).
  split; [done|]. split.
  - intros Hnil m. rewrite Htot, Hnil. simpl. f_equal. lia.
  - intros key Hkey.
    destruct (Metrics.httpRequestsTotal (MockServer.world s) !! key) as [n|] eqn:Hn; [|done].
    destruct (Htot' key) as (m & ->); [by rewrite Hn|]. by destruct (Hkey m).
Qed.

Lemma mock_server_counts_requests_witness :
  (∀ m, default 0%N (Metrics.httpRequestsTotal (MockServer.world sample_server_s)
                     !! ("root", m, "200"))
        = N.of_nat (length (with_method m sample_server_tr)
                    + length (counted m (MockServer.conns sample_server_s))))
  ∧ (MockServer.conns sample_server_s = [] →
     ∀ m, default 0%N (Metrics.httpRequestsTotal (MockServer.world sample_server_s)
                       !! ("root", m, "200"))
          = N.of_nat (length (with_method m sample_server_tr)))
  ∧ ∀ key, (∀ m, key ≠ ("root", m, "200")) →
           Metrics.httpRequestsTotal (MockServer.world sample_server_s) !! key = None.
Proof.
  exact (mock_server_counts_requests _ _ _ _ sample_server_run).
Defined.

(** X18: the histogram of the mock server.  In every run, for every
    method, the durations observed under the labels handler "root" and
    that method are as many as the requests with that method answered so
    far; none of them is negative, however long the handling took and
    however the goroutines were interleaved; there are no observations
    under other labels.  The histogram is never ahead of the counter, and
    it is behind by the number of goroutines between [Inc()] and
    [Observe()]. *)
Theorem mock_server_observes_durations marshalled t tr s :
  server_run marshalled t tr s →
  (∀ m, length (default [] (Metrics.httpRequestDuration (MockServer.world s) !! ("root", m)))
        = length (with_method m tr))
  ∧ (∀ key ds, Metrics.httpRequestDuration (MockServer.world s) !! key = Some ds →
               Forall (λ d, 0 ≤ d) ds ∧ ∃ m, key = ("root", m))
  ∧ ∀ m, default 0%N (Metrics.httpRequestsTotal (MockServer.world s) !! ("root", m, "200"))
         = N.of_nat (length (default [] (Metrics.httpRequestDuration (MockServer.world s)
                                         !! ("root", m)))
                     + length (counted m (MockServer.conns s))).
Proof.
  intros Hrun.
  destruct (server_run_inv _ _ _ _ Hrun) as (_ & _ & Htot & _ & Hhist & Hhist' & _).
  split; [done|]. split; [done|].
  intros m. by rewrite Hhist, Htot.
Qed.

Lemma mock_server_observes_durations_witness :
  (∀ m, length (default [] (Metrics.httpRequestDuration (MockServer.world sample_server_s)
                            !! ("root", m)))
        = length (with_method m sample_server_tr))
  ∧ (∀ key ds,
       Metrics.httpRequestDuration (MockServer.world sample_server_s) !! key = Some ds →
       Forall (λ d, 0 ≤ d) ds ∧ ∃ m, key = ("root", m))
  ∧ ∀ m, default 0%N (Metrics.httpRequestsTotal (MockServer.world sample_server_s)
                      !! ("root", m, "200"))
         = N.of_nat (length (default [] (Metrics.httpRequestDuration
                                           (MockServer.world sample_server_s) !! ("root", m)))
                     + length (counted m (MockServer.conns sample_server_s))).
Proof.
  exact (mock_server_observes_durations _ _ _ _ sample_server_run).
Defined.
